(** * back-of-the-envelope: the expression engine of [estimator.py]

    A shallow embedding of the estimation pipeline
    ([_preprocess_scale], [_parse_units], [_safe_eval], [_format_number],
    [_format_magnitude], [evaluate]) together with the parts of the Python
    runtime it leans on: [str] methods, the [re] patterns of the module,
    [eval] on the whitelisted alphabet, [round], [str] and the [g] format.

    Conventions.
    - A Python [str] is a [string]; a character is read as the code point
      of the same number, so the model covers the code points 0..255.
    - A Python [float] is a primitive binary64 [float]; a Python [int] is
      a [Z].
    - A call either returns or raises: [pyres].
    - What CPython takes from libm and from its complex type (a power on
      floats) is a parameter, [PyEval.runtime]; [evaluate] takes it as
      its first argument.
    - The unit registry of the pint library is a conversion table
      ([Pint]). *)

From Stdlib Require Import ZArith NArith List Bool Ascii String Lia.
From Stdlib Require Import Floats.PrimFloat Floats.SpecFloat Floats.FloatOps.
From Stdlib Require Floats.FloatAxioms.
From Stdlib Require Import DecimalString.
Import ListNotations.
Open Scope string_scope.

Set Implicit Arguments.

(* ================================================================= *)
(** ** Exceptions and results *)

(** The exception classes that can leave [evaluate].  [ValueError] keeps
    its message: the module raises it at three places that differ only by
    the text. *)
Inductive exn : Type :=
| ValueError (msg : string)
| SyntaxError
| NameError
| AttributeError
| TypeError
| ZeroDivisionError
| OverflowError
| DimensionalityError.

Inductive pyres (A : Type) : Type :=
| Ok (a : A)
| Raise (e : exn).

Arguments Ok {A} a.
Arguments Raise {A} e.

Definition bind {A B : Type} (x : pyres A) (f : A -> pyres B) : pyres B :=
  match x with
  | Ok a => f a
  | Raise e => Raise e
  end.

Notation "x <- c1 ;; c2" := (bind c1 (fun x => c2))
  (at level 61, c1 at next level, right associativity).

(* ================================================================= *)
(** ** Python [str] operations *)

Module PyStr.

Definition code (c : ascii) : N := N_of_ascii c.

Definition in_range (lo hi : N) (c : ascii) : bool :=
  (lo <=? code c)%N && (code c <=? hi)%N.

(** [\d] of [re] and the decimal digits of the tokenizer. *)
Definition is_digit (c : ascii) : bool := in_range 48 57 c.

(** [[a-zA-Z]]. *)
Definition is_ascii_letter (c : ascii) : bool :=
  in_range 65 90 c || in_range 97 122 c.

(** [str.isspace] on one character, which is also [\s] of [re] and what
    [strip] and [split] remove: TAB..CR, FS..US, space, NEL, NBSP. *)
Definition is_space (c : ascii) : bool :=
  in_range 9 13 c || in_range 28 32 c
  || (code c =? 133)%N || (code c =? 160)%N.

(** [str.lower] on one character (A-Z and the upper-case Latin-1 letters). *)
Definition lower_char (c : ascii) : ascii :=
  if in_range 65 90 c then ascii_of_N (code c + 32)
  else if in_range 192 222 c && negb (code c =? 215)%N
       then ascii_of_N (code c + 32)
       else c.

Fixpoint lower (s : string) : string :=
  match s with
  | EmptyString => EmptyString
  | String c s' => String (lower_char c) (lower s')
  end.

Fixpoint forallb (p : ascii -> bool) (s : string) : bool :=
  match s with
  | EmptyString => true
  | String c s' => p c && forallb p s'
  end.

Definition is_empty (s : string) : bool :=
  match s with
  | EmptyString => true
  | String _ _ => false
  end.

Fixpoint lstrip_by (p : ascii -> bool) (s : string) : string :=
  match s with
  | EmptyString => EmptyString
  | String c s' => if p c then lstrip_by p s' else s
  end.

Fixpoint rstrip_by (p : ascii -> bool) (s : string) : string :=
  match s with
  | EmptyString => EmptyString
  | String c s' =>
      let r := rstrip_by p s' in
      if is_empty r && p c then EmptyString else String c r
  end.

(** [s.strip()]. *)
Definition strip (s : string) : string :=
  rstrip_by is_space (lstrip_by is_space s).

(** [s.rstrip(chars)]. *)
Definition mem_char (chars : string) (c : ascii) : bool :=
  negb (forallb (fun d => negb (Ascii.eqb c d)) chars).

Definition rstrip_chars (chars s : string) : string :=
  rstrip_by (mem_char chars) s.

(** [s.split()]: the maximal runs of non-whitespace characters. *)
Fixpoint split (s : string) : list string :=
  match s with
  | EmptyString => []
  | String c s' =>
      if is_space c then split s'
      else match s' with
           | EmptyString => [String c EmptyString]
           | String c' _ =>
               if is_space c' then String c EmptyString :: split s'
               else match split s' with
                    | t :: ts => String c t :: ts
                    | [] => [String c EmptyString]
                    end
           end
  end.

(** [sep.join(parts)]. *)
Fixpoint join (sep : string) (parts : list string) : string :=
  match parts with
  | [] => EmptyString
  | [p] => p
  | p :: ps => p ++ sep ++ join sep ps
  end.

(** [s[:n]]. *)
Fixpoint take (n : nat) (s : string) : string :=
  match n, s with
  | S n', String c s' => String c (take n' s')
  | _, _ => EmptyString
  end.

(** [str(n)] for an [int]. *)
Definition str_of_int (z : Z) : string :=
  NilZero.string_of_int (Z.to_int z).

End PyStr.

(* ================================================================= *)
(** ** The [re] patterns of the module

    The patterns are kept as syntax and run by a backtracking matcher
    with the priorities of [re]: a repetition first takes as much as it
    can and gives back one character at a time, an optional part is
    first tried present.  The continuation receives what is left of the
    subject and the text of group 1. *)

Module Re.

Inductive re : Type :=
| Chr (p : ascii -> bool)          (* one character of a class *)
| Star (p : ascii -> bool)         (* [c*] on a class *)
| Plus (p : ascii -> bool)         (* [c+] on a class *)
| Opt (r : re)                     (* [(?:r)?] *)
| Cat (r1 r2 : re)
| Group (r : re)                   (* the capturing group [(r)] *)
| NotAhead (p : ascii -> bool)     (* [(?![c])] *)
| Eos                              (* [$] without MULTILINE *)
| Eps.                             (* the empty pattern *)

Section Matcher.
Variable R : Type.

Fixpoint star (p : ascii -> bool) (s : string) (k : string -> option R)
  : option R :=
  match s with
  | EmptyString => k EmptyString
  | String c s' =>
      if p c then
        match star p s' k with
        | Some r => Some r
        | None => k s
        end
      else k s
  end.

Fixpoint run (r : re) (s : string) (g : string)
  (k : string -> string -> option R) : option R :=
  match r with
  | Chr p =>
      match s with
      | String c s' => if p c then k s' g else None
      | EmptyString => None
      end
  | Star p => star p s (fun s' => k s' g)
  | Plus p =>
      match s with
      | String c s' => if p c then star p s' (fun s'' => k s'' g) else None
      | EmptyString => None
      end
  | Opt r1 =>
      match run r1 s g k with
      | Some x => Some x
      | None => k s g
      end
  | Cat r1 r2 => run r1 s g (fun s' g' => run r2 s' g' k)
  | Group r1 =>
      run r1 s g
        (fun s' _ => k s' (PyStr.take (String.length s - String.length s') s))
  | NotAhead p =>
      match s with
      | String c _ => if p c then None else k s g
      | EmptyString => k s g
      end
  | Eos =>
      match s with
      | EmptyString => k s g
      | String c EmptyString =>
          if (PyStr.code c =? 10)%N then k s g else None
      | _ => None
      end
  | Eps => k s g
  end.
End Matcher.

(** A match anchored at the start of [s]: the text of group 1 and the
    number of characters matched. *)
Definition match_at (r : re) (s : string) : option (string * nat) :=
  run r s EmptyString
    (fun s' g => Some (g, String.length s - String.length s')).

(** [pattern.search(s)]: the leftmost position with a match. *)
Fixpoint search_from (r : re) (s : string) (pos : nat)
  : option (nat * string * nat) :=
  match match_at r s with
  | Some (g, n) => Some (pos, g, n)
  | None =>
      match s with
      | EmptyString => None
      | String _ s' => search_from r s' (S pos)
      end
  end.

Definition search (r : re) (s : string) : option (nat * string * nat) :=
  search_from r s 0.

(** [pattern.sub(template, s)] for a template [\1] followed by literal
    text [tail]: scan from the left, replace each match and go on after
    it.  [skip] counts the characters of the last match still to pass.
    The patterns of this module match at least one character. *)
Fixpoint sub_from (r : re) (tail : string) (s : string) (skip : nat) : string :=
  match s with
  | EmptyString => EmptyString
  | String c s' =>
      match skip with
      | S n => sub_from r tail s' n
      | O =>
          match match_at r s with
          | Some (g, S n) => g ++ tail ++ sub_from r tail s' n
          | Some (g, O) => g ++ tail ++ String c (sub_from r tail s' 0)
          | None => String c (sub_from r tail s' 0)
          end
      end
  end.

Definition sub (r : re) (tail : string) (s : string) : string :=
  sub_from r tail s 0.

(** [pattern.match(s)] as a truth value. *)
Definition matches (r : re) (s : string) : bool :=
  match match_at r s with
  | Some _ => true
  | None => false
  end.

(** A literal character, and a literal word under IGNORECASE. *)
Definition chr (c : ascii) : re := Chr (Ascii.eqb c).

Definition chr_i (c : ascii) : re :=
  Chr (fun d => Ascii.eqb (PyStr.lower_char d) (PyStr.lower_char c)).

Fixpoint word_i (w : string) : re :=
  match w with
  | EmptyString => Eps
  | String c w' => Cat (chr_i c) (word_i w')
  end.

End Re.

(* ================================================================= *)
(** ** Preprocessing (estimator.py, lines 18-75) *)

Import Re.

(** [(\d+(?:\.\d+)?)] *)
Definition number_group : re :=
  Group (Cat (Plus PyStr.is_digit)
             (Opt (Cat (chr ".") (Plus PyStr.is_digit)))).

(** [(\d+(?:\.\d+)?)\s+word], IGNORECASE. *)
Definition word_pattern (w : string) : re :=
  Cat number_group (Cat (Plus PyStr.is_space) (word_i w)).

(** [(\d+(?:\.\d+)?)\s*L(?![a-zA-Z])] *)
Definition suffix_pattern (L : ascii) : re :=
  Cat number_group
      (Cat (Star PyStr.is_space) (Cat (chr L) (NotAhead PyStr.is_ascii_letter))).

Definition _WORD_MULTIPLIERS : list (re * string) :=
  [ (word_pattern "trillion", " * 1e12");
    (word_pattern "billion", " * 1e9");
    (word_pattern "million", " * 1e6");
    (word_pattern "thousand", " * 1e3") ].

Definition _SUFFIX_MULTIPLIERS : list (re * string) :=
  [ (suffix_pattern "T", "e12");
    (suffix_pattern "B", "e9");
    (suffix_pattern "M", "e6");
    (suffix_pattern "K", "e3") ].

(** [for pattern, repl in table: s = pattern.sub(repl, s)] *)
Definition apply_subs (table : list (re * string)) (s : string) : string :=
  fold_left (fun acc pr => sub (fst pr) (snd pr) acc) table s.

Definition _preprocess_scale (expr : string) : string :=
  let s := PyStr.strip expr in
  let s := apply_subs _WORD_MULTIPLIERS s in
  apply_subs _SUFFIX_MULTIPLIERS s.

(* ================================================================= *)
(** ** Unit tables (estimator.py, lines 37-62) *)

(** The pint unit names the tables map to. *)
Inductive data_unit : Type :=
| byte | kilobyte | megabyte | gigabyte | terabyte | petabyte.

Inductive time_unit : Type :=
| second | minute | hour | day | month | year.

(** [d.get(key)] on a dict written as its list of items. *)
Fixpoint dict_get {V : Type} (d : list (string * V)) (key : string) : option V :=
  match d with
  | [] => None
  | (k, v) :: d' => if String.eqb k key then Some v else dict_get d' key
  end.

Definition _BYTE_UNITS : list (string * data_unit) :=
  [ ("bytes", byte); ("byte", byte);
    ("kb", kilobyte); ("kilobyte", kilobyte); ("kilobytes", kilobyte);
    ("mb", megabyte); ("megabyte", megabyte); ("megabytes", megabyte);
    ("gb", gigabyte); ("gigabyte", gigabyte); ("gigabytes", gigabyte);
    ("tb", terabyte); ("terabyte", terabyte); ("terabytes", terabyte);
    ("pb", petabyte); ("petabyte", petabyte); ("petabytes", petabyte) ].

Definition _TIME_UNITS : list (string * time_unit) :=
  [ ("second", second); ("seconds", second); ("s", second);
    ("minute", minute); ("minutes", minute); ("min", minute);
    ("hour", hour); ("hours", hour); ("hr", hour);
    ("day", day); ("days", day);
    ("month", month); ("months", month);
    ("year", year); ("years", year) ].

(** The value [None] of the key ["none"] and a missing key read the same
    through [_RATE_UNITS.get(rate)]. *)
Definition _RATE_UNITS : list (string * option time_unit) :=
  [ ("none", None);
    ("/s", Some second); ("/min", Some minute); ("/hour", Some hour);
    ("/day", Some day); ("/month", Some month); ("/year", Some year) ].

Definition rate_unit_of (rate : string) : option time_unit :=
  match dict_get _RATE_UNITS rate with
  | Some u => u
  | None => None
  end.

(* ================================================================= *)
(** ** Unit extraction (estimator.py, lines 78-103) *)

(** [/\s*([a-zA-Z]+)\s*$] *)
Definition time_divisor_pattern : re :=
  Cat (chr "/")
      (Cat (Star PyStr.is_space)
           (Cat (Group (Plus PyStr.is_ascii_letter))
                (Cat (Star PyStr.is_space) Eos))).

Definition strip_time_unit (expr : string) : string * option time_unit :=
  match search time_divisor_pattern expr with
  | Some (start, token, _) =>
      match dict_get _TIME_UNITS (PyStr.lower token) with
      | Some u => (PyStr.strip (PyStr.take start expr), Some u)
      | None => (expr, None)
      end
  | None => (expr, None)
  end.

Definition strip_data_unit (math_str : string) : string * option data_unit :=
  let tokens := PyStr.split (PyStr.strip math_str) in
  match tokens with
  | [] => (math_str, None)
  | _ :: _ =>
      match dict_get _BYTE_UNITS (PyStr.lower (last tokens EmptyString)) with
      | Some u =>
          (PyStr.rstrip_chars " *" (PyStr.join " " (removelast tokens)), Some u)
      | None => (math_str, None)
      end
  end.

Definition _parse_units (expr : string)
  : string * option data_unit * option time_unit :=
  let '(math_str, time_unit) := strip_time_unit expr in
  let '(math_str, data_unit) := strip_data_unit math_str in
  (math_str, data_unit, time_unit).

(* ================================================================= *)
(** ** Python [float]: conversions, [round] and the [g] format

    The basic operations are those of IEEE binary64 ([PrimFloat]).  What
    Python adds on top is written here on the exact value [m * 2^e] of a
    finite float, read through [Prim2SF]. *)

Module PyFloat.

Open Scope Z_scope.

(** The quotient [n / d] of two integers ([0 < d]) rounded to the nearest
    float, ties to even; [neg] is the sign of a zero result.  The
    quotient is taken with at least 56 bits and a sticky bit. *)
Definition ratio_to_SF (neg : bool) (n d : Z) : spec_float :=
  let k := Z.max 0 (56 + Z.log2 d - Z.log2 n) in
  let num := n * 2 ^ k in
  let q := num / d in
  let sticky := if num mod d =? 0 then 0 else 1 in
  let m := 2 * q + sticky in
  binary_normalize prec emax (if neg then - m else m) (- k - 1) neg.

(** The nearest float to an integer. *)
Definition Z_to_SF (z : Z) : spec_float :=
  ratio_to_SF (z <? 0) (Z.abs z) 1.

(** [float(n)] for an [int], and the conversion of an [int] operand in
    mixed arithmetic: too large an integer raises. *)
Definition of_int (z : Z) : pyres float :=
  match Z_to_SF z with
  | S754_infinity _ => Raise OverflowError
  | sf => Ok (SF2Prim sf)
  end.

(** [a / b] on two [int]s, [b <> 0]. *)
Definition int_true_div (a b : Z) : pyres float :=
  let neg := xorb (a <? 0) (b <? 0) in
  match ratio_to_SF neg (Z.abs a) (Z.abs b) with
  | S754_infinity _ => Raise OverflowError
  | sf => Ok (SF2Prim sf)
  end.

(** A decimal literal [m * 10^e]; a literal out of range reads as [inf]. *)
Definition of_decimal (m e : Z) : float :=
  SF2Prim (if 0 <=? e then ratio_to_SF false (m * 10 ^ e) 1
           else ratio_to_SF false m (10 ^ (- e))).

(** [n / d] rounded to the nearest integer, ties to even ([0 <= n], [0 < d]). *)
Definition div_half_even (n d : Z) : Z :=
  let q := n / d in
  let r := n mod d in
  match 2 * r ?= d with
  | Lt => q
  | Gt => q + 1
  | Eq => if Z.even q then q else q + 1
  end.

(** [|x| * c] of a finite float as a fraction. *)
Definition scaled_fraction (m : positive) (e c : Z) : Z * Z :=
  if 0 <=? e then (Zpos m * 2 ^ e * c, 1) else (Zpos m * c, 2 ^ (- e)).

(** [round(x)]. *)
Definition round_int (x : float) : pyres Z :=
  match Prim2SF x with
  | S754_nan => Raise (ValueError "cannot convert float NaN to integer")
  | S754_infinity _ => Raise OverflowError
  | S754_zero _ => Ok 0
  | S754_finite s m e =>
      let '(n, d) := scaled_fraction m e 1 in
      let r := div_half_even n d in
      Ok (if s then - r else r)
  end.

(** [round(x, 1)]: the nearest float to the nearest tenth. *)
Definition round_1dp (x : float) : float :=
  match Prim2SF x with
  | S754_finite s m e =>
      let '(n, d) := scaled_fraction m e 10 in
      SF2Prim (ratio_to_SF s (div_half_even n d) 10)
  | _ => x
  end.

(** [x - n] and [x == n] with an [int] on the right: the subtraction
    converts [n], the comparison is exact. *)
Definition sub_int (x : float) (n : Z) : pyres float :=
  match of_int n with
  | Ok y => Ok (x - y)%float
  | Raise e => Raise e
  end.

Definition eq_int (x : float) (n : Z) : bool :=
  match Prim2SF x with
  | S754_zero _ => n =? 0
  | S754_finite s m e =>
      let '(p, q) := scaled_fraction m e 1 in
      (if s then - p else p) =? n * q
  | _ => false
  end.

(** [floor(x)] of libm. *)
Definition floor (x : float) : float :=
  match Prim2SF x with
  | S754_finite s m e =>
      if 0 <=? e then x
      else
        let d := 2 ^ (- e) in
        let q := Zpos m / d in
        let up := negb (Zpos m mod d =? 0) in
        SF2Prim (Z_to_SF (if s then - (if up then q + 1 else q) else q))
  | _ => x
  end.

(** [fmod(x, y)] of libm for [y <> 0]: exact, with the sign of [x]. *)
Definition fmod (x y : float) : float :=
  match Prim2SF x, Prim2SF y with
  | S754_nan, _ | _, S754_nan | S754_infinity _, _ | _, S754_zero _ => nan
  | S754_zero _, _ => x
  | S754_finite _ _ _, S754_infinity _ => x
  | S754_finite s m1 e1, S754_finite _ m2 e2 =>
      let e := Z.min e1 e2 in
      let r := (Zpos m1 * 2 ^ (e1 - e)) mod (Zpos m2 * 2 ^ (e2 - e)) in
      SF2Prim (binary_normalize prec emax (if s then - r else r) e s)
  end.

Definition copysign (x y : float) : float :=
  if get_sign y then (- abs x)%float else abs x.

(** [x // y] on floats, [y <> 0] (float_floor_div of CPython). *)
Definition floor_div (vx wx : float) : float :=
  let md := fmod vx wx in
  let dv := ((vx - md) / wx)%float in
  let dv :=
    if negb (md =? 0)%float
       && negb (Bool.eqb (wx <? 0)%float (md <? 0)%float)
    then (dv - 1)%float else dv in
  if negb (dv =? 0)%float then
    let fl := floor dv in
    if (0.5 <? dv - fl)%float then (fl + 1)%float else fl
  else copysign 0%float (vx / wx)%float.

(** *** The [g] presentation with six significant digits *)

(** The largest [x] with [10^x <= n / d], searched upwards from 0 when
    [d <= n] and downwards otherwise ([0 < n], [0 < d]). *)
Fixpoint exp10_up (fuel : nat) (n d x : Z) : Z :=
  match fuel with
  | O => x
  | S f => if 10 * d <=? n then exp10_up f n (10 * d) (x + 1) else x
  end.

Fixpoint exp10_down (fuel : nat) (n d x : Z) : Z :=
  match fuel with
  | O => x
  | S f => if d <=? n then x else exp10_down f (10 * n) d (x - 1)
  end.

Definition exp10 (n d : Z) : Z :=
  if d <=? n then exp10_up (S (Z.to_nat (Z.log2 n))) n d 0
  else exp10_down (S (S (Z.to_nat (Z.log2 d)))) n d 0.

(** The six digits and the decimal exponent of [n / d]. *)
Definition digits6 (n d : Z) : Z * Z :=
  let x := exp10 n d in
  let sh := 5 - x in
  let m := if 0 <=? sh then div_half_even (n * 10 ^ sh) d
           else div_half_even n (d * 10 ^ (- sh)) in
  if 1000000 <=? m then (100000, x + 1) else (m, x).

Fixpoint zeros (n : nat) : string :=
  match n with
  | O => EmptyString
  | S n' => String "0" (zeros n')
  end.

Definition strip_zeros (s : string) : string := PyStr.rstrip_chars "0" s.

Definition with_fraction (int_part frac : string) : string :=
  match strip_zeros frac with
  | EmptyString => int_part
  | f => (int_part ++ "." ++ f)%string
  end.

Definition format_finite (neg : bool) (n d : Z) : string :=
  let '(m, x) := digits6 n d in
  let ds := PyStr.str_of_int m in
  let body :=
    if (x <? -4) || (6 <=? x) then
      let ax := Z.abs x in
      let sign := if x <? 0 then "-" else "+" in
      let pad := if ax <? 10 then "0" else "" in
      (with_fraction (PyStr.take 1 ds) (String.substring 1 5 ds)
       ++ "e" ++ sign ++ pad ++ PyStr.str_of_int ax)%string
    else if 0 <=? x then
      with_fraction (PyStr.take (Z.to_nat (x + 1)) ds)
                    (String.substring (Z.to_nat (x + 1)) 6 ds)
    else with_fraction "0" (zeros (Z.to_nat (- x - 1)) ++ ds)%string
  in
  ((if neg then "-" else "") ++ body)%string.

(** [format(x, 'g')] *)
Definition format_g (x : float) : string :=
  match Prim2SF x with
  | S754_nan => "nan"
  | S754_infinity s => if s then "-inf" else "inf"
  | S754_zero s => if s then "-0" else "0"
  | S754_finite s m e =>
      let '(n, d) := scaled_fraction m e 1 in format_finite s n d
  end.

End PyFloat.

(* ================================================================= *)
(** ** Python [eval] on the whitelisted alphabet

    [_safe_eval] hands [eval] a string over digits, whitespace and
    [. + - * / ( ) e E].  Over that alphabet Python has integer and
    float literals, the names spelt with [e], [E] and digits, the
    operators [+ - * / // **], parentheses, the empty tuple [()], the
    literal [...], attribute access and calls with one argument.  The
    model tokenizes, parses to an expression tree and evaluates it left
    to right.  Integers are unbounded and nothing runs out of memory or
    recursion depth. *)

Module PyEval.

Inductive number : Type :=
| NInt (z : Z)
| NFloat (x : float).

Inductive binop : Type := Add | Sub | Mult | Div | FloorDiv | Pow.

Inductive unop : Type := UAdd | USub.

Inductive token : Type :=
| TNum (n : number)
| TName
| TEllipsis
| TOp (o : binop)
| TLpar
| TRpar
| TDot
| TNewline.

(** *** Tokenizer *)

Fixpoint span (p : ascii -> bool) (s : string) : string * string :=
  match s with
  | EmptyString => (EmptyString, EmptyString)
  | String c s' =>
      if p c then let '(a, b) := span p s' in (String c a, b)
      else (EmptyString, s)
  end.

Fixpoint digits_value (acc : Z) (s : string) : Z :=
  match s with
  | EmptyString => acc
  | String c s' => digits_value (10 * acc + Z.of_N (PyStr.code c) - 48)%Z s'
  end.

Definition is_e (c : ascii) : bool :=
  ((PyStr.code c =? 101) || (PyStr.code c =? 69))%N.

Definition is_zero_digit (c : ascii) : bool := (PyStr.code c =? 48)%N.

(** The exponent part after the mantissa: absent, well formed, or a
    SyntaxError ([1e], [1e+]). *)
Inductive exponent : Type :=
| NoExponent (rest : string)
| Exponent (e : Z) (rest : string)
| BadExponent.

Definition scan_exponent (s : string) : exponent :=
  match s with
  | String c r =>
      if is_e c then
        let '(neg, r1) :=
          match r with
          | String "+" r' => (false, r')
          | String "-" r' => (true, r')
          | _ => (false, r)
          end in
        let '(ds, r2) := span PyStr.is_digit r1 in
        if PyStr.is_empty ds then BadExponent
        else Exponent (let v := digits_value 0 ds in if neg then - v else v)%Z r2
      else NoExponent s
  | EmptyString => NoExponent s
  end.

(** A number starting at [s] (a digit, or a dot before a digit): the
    literal and its length.  [None] is a SyntaxError. *)
Definition scan_number (s : string) : option (number * nat) :=
  let '(ip, r1) := span PyStr.is_digit s in
  let '(dot, fp, r2) :=
    match r1 with
    | String "." r => let '(fp, r2) := span PyStr.is_digit r in (true, fp, r2)
    | _ => (false, EmptyString, r1)
    end in
  let mant := digits_value 0 (ip ++ fp) in
  let frac := Z.of_nat (String.length fp) in
  match scan_exponent r2 with
  | BadExponent => None
  | Exponent e r3 =>
      Some (NFloat (PyFloat.of_decimal mant (e - frac)),
            String.length s - String.length r3)
  | NoExponent r3 =>
      if dot then
        Some (NFloat (PyFloat.of_decimal mant (- frac)),
              String.length s - String.length r3)
      else
        match ip with
        | String "0" _ =>
            if PyStr.forallb is_zero_digit ip
            then Some (NInt 0, String.length ip)
            else None  (* leading zeros in a decimal integer literal *)
        | _ => Some (NInt mant, String.length ip)
        end
  end.

Definition is_name_char (c : ascii) : bool := is_e c || PyStr.is_digit c.

Definition is_blank (c : ascii) : bool :=
  ((PyStr.code c =? 32) || (PyStr.code c =? 9) || (PyStr.code c =? 12))%N.

Definition is_newline (c : ascii) : bool :=
  ((PyStr.code c =? 10) || (PyStr.code c =? 13))%N.

Definition cons_tok (t : token) (r : option (list token)) : option (list token) :=
  match r with
  | Some ts => Some (t :: ts)
  | None => None
  end.

(** [skip] characters belong to the token just produced; [depth] is the
    number of open parentheses, inside which a newline is blank. *)
Fixpoint tokenize (s : string) (skip depth : nat) : option (list token) :=
  match s with
  | EmptyString => Some []
  | String c s' =>
      match skip with
      | S n => tokenize s' n depth
      | O =>
          if is_blank c then tokenize s' 0 depth
          else if is_newline c then
            match depth with
            | O => cons_tok TNewline (tokenize s' 0 depth)
            | S _ => tokenize s' 0 depth
            end
          else if PyStr.is_digit c then
            match scan_number s with
            | Some (n, len) => cons_tok (TNum n) (tokenize s' (len - 1) depth)
            | None => None
            end
          else if is_e c then
            cons_tok TName
              (tokenize s' (String.length (fst (span is_name_char s'))) depth)
          else
            match c, s' with
            | "."%char, String "." (String "." _) =>
                cons_tok TEllipsis (tokenize s' 2 depth)
            | "."%char, String d _ =>
                if PyStr.is_digit d then
                  match scan_number s with
                  | Some (n, len) => cons_tok (TNum n) (tokenize s' (len - 1) depth)
                  | None => None
                  end
                else cons_tok TDot (tokenize s' 0 depth)
            | "."%char, _ => cons_tok TDot (tokenize s' 0 depth)
            | "+"%char, _ => cons_tok (TOp Add) (tokenize s' 0 depth)
            | "-"%char, _ => cons_tok (TOp Sub) (tokenize s' 0 depth)
            | "*"%char, String "*" _ => cons_tok (TOp Pow) (tokenize s' 1 depth)
            | "*"%char, _ => cons_tok (TOp Mult) (tokenize s' 0 depth)
            | "/"%char, String "/" _ => cons_tok (TOp FloorDiv) (tokenize s' 1 depth)
            | "/"%char, _ => cons_tok (TOp Div) (tokenize s' 0 depth)
            | "("%char, _ => cons_tok TLpar (tokenize s' 0 (S depth))
            | ")"%char, _ =>
                match depth with
                | O => None  (* unmatched ')' *)
                | S d => cons_tok TRpar (tokenize s' 0 d)
                end
            | _, _ => None  (* a character that starts no token *)
            end
      end
  end.

(** *** Parser

    An operator-precedence parser in one pass: [out] holds the operands
    built so far, [ops] the operators and open parentheses waiting for
    their right operand.  Binding strength, weakest first: [+ -], then
    [* / //], then the unary signs, then [**] (to the right), then calls
    and attributes. *)

Inductive argkind : Type := Positional | Starred | DoubleStarred.

Inductive expr : Type :=
| Num (n : number)
| Name
| Ellipsis
| Tuple                                   (* [()] *)
| UnaryOp (u : unop) (e : expr)
| BinOp (o : binop) (l r : expr)
| Attribute (e : expr)                    (* [e.name] *)
| Call0 (f : expr)                        (* [f()] *)
| Call1 (f : expr) (k : argkind) (a : expr).

Inductive opitem : Type :=
| OUnary (u : unop)
| OBinary (o : binop)
| OGroup                                  (* [(] opening a parenthesised expression *)
| OCall (k : argkind).                    (* [(] opening the arguments of a call *)

Inductive mode : Type :=
| WantOperand      (* at the start, after an operator or [(] *)
| HaveOperand      (* after an operand *)
| WantAttr         (* after the dot of an attribute *)
| Ended.           (* after a newline outside parentheses *)

Definition prec (o : binop) : Z :=
  match o with
  | Add | Sub => 1
  | Mult | Div | FloorDiv => 2
  | Pow => 4
  end.

Definition unary_prec : Z := 3.

(** What an incoming binary operator lets be reduced first: everything
    at least as strong; [**] groups to the right and reduces nothing. *)
Definition reduce_level (o : binop) : Z :=
  match o with
  | Pow => 5
  | _ => prec o
  end.

(** Apply the waiting operators of strength [>= level], down to the
    nearest open parenthesis. *)
Fixpoint reduce_ops (level : Z) (ops : list opitem) (out : list expr)
  : option (list opitem * list expr) :=
  match ops with
  | OUnary u :: ops' =>
      if (level <=? unary_prec)%Z then
        match out with
        | x :: out' => reduce_ops level ops' (UnaryOp u x :: out')
        | [] => None
        end
      else Some (ops, out)
  | OBinary o :: ops' =>
      if (level <=? prec o)%Z then
        match out with
        | r :: l :: out' => reduce_ops level ops' (BinOp o l r :: out')
        | _ => None
        end
      else Some (ops, out)
  | _ => Some (ops, out)
  end.

Definition finish (ops : list opitem) (out : list expr) : option expr :=
  match reduce_ops 0 ops out with
  | Some ([], [e]) => Some e
  | _ => None
  end.

Fixpoint parse (ts : list token) (m : mode) (ops : list opitem)
  (out : list expr) : option expr :=
  match ts with
  | [] =>
      match m with
      | HaveOperand | Ended => finish ops out
      | _ => None
      end
  | t :: ts' =>
      match m, t with
      | WantOperand, TNum n => parse ts' HaveOperand ops (Num n :: out)
      | WantOperand, TName => parse ts' HaveOperand ops (Name :: out)
      | WantOperand, TEllipsis => parse ts' HaveOperand ops (Ellipsis :: out)
      | WantOperand, TOp Add => parse ts' WantOperand (OUnary UAdd :: ops) out
      | WantOperand, TOp Sub => parse ts' WantOperand (OUnary USub :: ops) out
      | WantOperand, TOp Mult =>           (* a starred argument *)
          match ops with
          | OCall Positional :: ops' => parse ts' WantOperand (OCall Starred :: ops') out
          | _ => None
          end
      | WantOperand, TOp Pow =>            (* a double-starred argument *)
          match ops with
          | OCall Positional :: ops' =>
              parse ts' WantOperand (OCall DoubleStarred :: ops') out
          | _ => None
          end
      | WantOperand, TLpar => parse ts' WantOperand (OGroup :: ops) out
      | WantOperand, TRpar =>
          match ops, out with
          | OGroup :: ops', _ => parse ts' HaveOperand ops' (Tuple :: out)
          | OCall Positional :: ops', f :: out' =>
              parse ts' HaveOperand ops' (Call0 f :: out')
          | _, _ => None
          end
      | HaveOperand, TOp o =>
          match reduce_ops (reduce_level o) ops out with
          | Some (ops', out') => parse ts' WantOperand (OBinary o :: ops') out'
          | None => None
          end
      | HaveOperand, TLpar => parse ts' WantOperand (OCall Positional :: ops) out
      | HaveOperand, TDot => parse ts' WantAttr ops out
      | HaveOperand, TRpar =>
          match reduce_ops 0 ops out with
          | Some (OGroup :: ops', out') => parse ts' HaveOperand ops' out'
          | Some (OCall k :: ops', a :: f :: out') =>
              parse ts' HaveOperand ops' (Call1 f k a :: out')
          | _ => None
          end
      | HaveOperand, TNewline => parse ts' Ended ops out
      | WantAttr, TName =>
          match out with
          | x :: out' => parse ts' HaveOperand ops (Attribute x :: out')
          | [] => None
          end
      | Ended, TNewline => parse ts' Ended ops out
      | _, _ => None
      end
  end.

Definition parse_string (s : string) : option expr :=
  match tokenize s 0 0 with
  | Some ts => parse ts WantOperand [] []
  | None => None
  end.

(** *** Evaluation *)

(** What the arithmetic of CPython takes from the C library and from its
    complex type: [float ** float] (the special cases of [float_pow],
    then [pow] of libm, a complex result for a negative base with a
    fractional exponent) and the arithmetic on complex values. *)
Inductive pow_result (C : Type) : Type :=
| PowFloat (x : float)
| PowComplex (c : C)
| PowZeroDivision
| PowOverflow.

Inductive cnum (C : Type) : Type :=
| CInt (z : Z)
| CFloat (x : float)
| CComplex (c : C).

Inductive cx_result (C : Type) : Type :=
| CxValue (c : C)
| CxZeroDivision
| CxOverflow
| CxTypeError.

Arguments PowFloat {C} x.
Arguments PowComplex {C} c.
Arguments PowZeroDivision {C}.
Arguments PowOverflow {C}.
Arguments CInt {C} z.
Arguments CFloat {C} x.
Arguments CComplex {C} c.
Arguments CxValue {C} c.
Arguments CxZeroDivision {C}.
Arguments CxOverflow {C}.
Arguments CxTypeError {C}.

Record runtime : Type := {
  complex : Type;
  float_pow : float -> float -> pow_result complex;
  complex_binop : binop -> cnum complex -> cnum complex -> cx_result complex;
  complex_neg : complex -> complex
}.

Section Eval.
Variable rt : runtime.

Inductive value : Type :=
| VInt (z : Z)
| VFloat (x : float)
| VComplex (c : complex rt)
| VTuple
| VEllipsis.

Definition pow_value (r : pow_result (complex rt)) : pyres value :=
  match r with
  | PowFloat x => Ok (VFloat x)
  | PowComplex c => Ok (VComplex c)
  | PowZeroDivision => Raise ZeroDivisionError
  | PowOverflow => Raise OverflowError
  end.

Definition cx_value (r : cx_result (complex rt)) : pyres value :=
  match r with
  | CxValue c => Ok (VComplex c)
  | CxZeroDivision => Raise ZeroDivisionError
  | CxOverflow => Raise OverflowError
  | CxTypeError => Raise TypeError
  end.

Definition float_binop (o : binop) (x y : float) : pyres value :=
  match o with
  | Add => Ok (VFloat (x + y))
  | Sub => Ok (VFloat (x - y))
  | Mult => Ok (VFloat (x * y))
  | Div => if (y =? 0)%float then Raise ZeroDivisionError else Ok (VFloat (x / y))
  | FloorDiv =>
      if (y =? 0)%float then Raise ZeroDivisionError
      else Ok (VFloat (PyFloat.floor_div x y))
  | Pow => pow_value (float_pow rt x y)
  end.

Definition int_binop (o : binop) (x y : Z) : pyres value :=
  match o with
  | Add => Ok (VInt (x + y))
  | Sub => Ok (VInt (x - y))
  | Mult => Ok (VInt (x * y))
  | Div =>
      if (y =? 0)%Z then Raise ZeroDivisionError
      else q <- PyFloat.int_true_div x y ;; Ok (VFloat q)
  | FloorDiv =>
      if (y =? 0)%Z then Raise ZeroDivisionError else Ok (VInt (x / y))
  | Pow =>
      if (0 <=? y)%Z then Ok (VInt (x ^ y))
      else fx <- PyFloat.of_int x ;; fy <- PyFloat.of_int y ;;
           pow_value (float_pow rt fx fy)
  end.

(** The repeat count of a sequence has to fit a machine index. *)
Definition fits_index (n : Z) : bool :=
  ((- 2 ^ 63 <=? n) && (n <? 2 ^ 63))%Z.

Definition repeat_empty (o : binop) (n : Z) : pyres value :=
  match o with
  | Mult => if fits_index n then Ok VTuple else Raise OverflowError
  | _ => Raise TypeError
  end.

Definition binary (o : binop) (a b : value) : pyres value :=
  match a, b with
  | VInt x, VInt y => int_binop o x y
  | VInt x, VFloat y => fx <- PyFloat.of_int x ;; float_binop o fx y
  | VFloat x, VInt y => fy <- PyFloat.of_int y ;; float_binop o x fy
  | VFloat x, VFloat y => float_binop o x y
  | VComplex c, VInt y => cx_value (complex_binop rt o (CComplex c) (CInt y))
  | VComplex c, VFloat y => cx_value (complex_binop rt o (CComplex c) (CFloat y))
  | VComplex c, VComplex d => cx_value (complex_binop rt o (CComplex c) (CComplex d))
  | VInt x, VComplex d => cx_value (complex_binop rt o (CInt x) (CComplex d))
  | VFloat x, VComplex d => cx_value (complex_binop rt o (CFloat x) (CComplex d))
  | VTuple, VTuple =>
      match o with
      | Add => Ok VTuple
      | _ => Raise TypeError
      end
  | VTuple, VInt n => repeat_empty o n
  | VInt n, VTuple => repeat_empty o n
  | _, _ => Raise TypeError
  end.

Definition unary (u : unop) (a : value) : pyres value :=
  match u, a with
  | UAdd, VInt _ | UAdd, VFloat _ | UAdd, VComplex _ => Ok a
  | USub, VInt x => Ok (VInt (- x))
  | USub, VFloat x => Ok (VFloat (- x))
  | USub, VComplex c => Ok (VComplex (complex_neg rt c))
  | _, _ => Raise TypeError
  end.

(** With empty globals every name is undefined; no value met here has
    an attribute spelt with [e], [E] and digits, and none is callable. *)
Fixpoint eval_expr (e : expr) : pyres value :=
  match e with
  | Num (NInt z) => Ok (VInt z)
  | Num (NFloat x) => Ok (VFloat x)
  | Name => Raise NameError
  | Ellipsis => Ok VEllipsis
  | Tuple => Ok VTuple
  | UnaryOp u x => a <- eval_expr x ;; unary u a
  | BinOp o l r => a <- eval_expr l ;; b <- eval_expr r ;; binary o a b
  | Attribute x => _ <- eval_expr x ;; Raise AttributeError
  | Call0 f => _ <- eval_expr f ;; Raise TypeError
  | Call1 f _ a => _ <- eval_expr f ;; _ <- eval_expr a ;; Raise TypeError
  end.

(** [float(v)] *)
Definition to_float (v : value) : pyres float :=
  match v with
  | VInt z => PyFloat.of_int z
  | VFloat x => Ok x
  | _ => Raise TypeError
  end.

(** [float(eval(s, {"__builtins__": {}}, {}))] *)
Definition float_eval (s : string) : pyres float :=
  match parse_string s with
  | None => Raise SyntaxError
  | Some e => v <- eval_expr e ;; to_float v
  end.
End Eval.

Arguments binary rt o a b : clear implicits.
Arguments unary rt u a : clear implicits.
Arguments to_float rt v : clear implicits.

(** An expression without [**] needs nothing of the runtime. *)
Fixpoint pow_free (e : expr) : bool :=
  match e with
  | BinOp Pow _ _ => false
  | BinOp _ l r => pow_free l && pow_free r
  | UnaryOp _ x => pow_free x
  | Attribute x => pow_free x
  | Call0 f => pow_free f
  | Call1 f _ a => pow_free f && pow_free a
  | _ => true
  end.

(** The same real value, or the same error, in two runtimes. *)
Definition same_value (rt rt' : runtime) (v : value rt) (v' : value rt') : Prop :=
  match v, v' with
  | VInt _ a, VInt _ b => a = b
  | VFloat _ a, VFloat _ b => a = b
  | VTuple _, VTuple _ => True
  | VEllipsis _, VEllipsis _ => True
  | _, _ => False
  end.

Definition same_result (rt rt' : runtime)
  (r : pyres (value rt)) (r' : pyres (value rt')) : Prop :=
  match r, r' with
  | Ok v, Ok v' => same_value v v'
  | Raise x, Raise x' => x = x'
  | _, _ => False
  end.

(** A runtime to run the model on concrete expressions: it has no
    complex values and answers a power on floats only for a zero
    exponent (the first special case of [float_pow]), with an
    OverflowError otherwise.  On an expression without [**] every
    runtime computes the same ([float_eval_pow_free] below). *)
Definition bare_runtime : runtime := {|
  complex := Empty_set;
  float_pow := fun x y =>
    if (y =? 0)%float then PowFloat 1%float else PowOverflow;
  complex_binop := fun _ _ _ => CxTypeError;
  complex_neg := fun c => c
|}.

End PyEval.

(* ================================================================= *)
(** ** Safe evaluation (estimator.py, lines 64-113) *)

Definition safe_char (c : ascii) : bool :=
  PyStr.is_digit c || PyStr.is_space c || PyStr.mem_char ".+-*/()eE" c.

(** [^[\d\s\.\+\-\*\/\(\)eE]+$], used through [match]. *)
Definition _SAFE_MATH_RE : re := Cat (Plus safe_char) Eos.

Definition _safe_eval (rt : PyEval.runtime) (math_str : string) : pyres float :=
  let cleaned := PyStr.strip math_str in
  if PyStr.is_empty cleaned then Raise (ValueError "Empty expression")
  else if negb (matches _SAFE_MATH_RE cleaned) then
    Raise (ValueError ("Invalid characters in expression: " ++ cleaned))
  else PyEval.float_eval rt cleaned.

(* ================================================================= *)
(** ** Unit conversion *)

Module Pint.

Open Scope float_scope.

(** Modelled from the spec: the unit registry of the pint library, which
    [estimator.py] imports, is not part of the sources.  The spec (9,
    Design notes) replaces it by a conversion table, unit to multiplier
    relative to a base (bytes and seconds), with decimal byte multiples
    and a month of 30 days; the year is pint's, 365.25 days. *)
Definition byte_multiplier (u : data_unit) : float :=
  match u with
  | byte => 1
  | kilobyte => 1e3
  | megabyte => 1e6
  | gigabyte => 1e9
  | terabyte => 1e12
  | petabyte => 1e15
  end.

(** Modelled from the spec: the seconds of each time unit of the same
    table (pint's registry, with the month redefined in line 16). *)
Definition seconds_per (u : time_unit) : float :=
  match u with
  | second => 1
  | minute => 60
  | hour => 3600
  | day => 86400
  | month => 2592000
  | year => 31557600
  end.

(** A unit of the program: a data unit, the inverse of a time unit,
    their quotient, or dimensionless. *)
Definition unit : Type := (option data_unit * option time_unit)%type.

(** Modelled from the spec: the multiplier of a unit relative to the
    base of its dimension. *)
Definition multiplier (u : unit) : float :=
  let d := match fst u with Some x => byte_multiplier x | None => 1 end in
  let t := match snd u with Some x => seconds_per x | None => 1 end in
  d / t.

Definition has {A : Type} (o : option A) : bool :=
  match o with
  | Some _ => true
  | None => false
  end.

Definition same_dimension (u v : unit) : bool :=
  Bool.eqb (has (fst u)) (has (fst v)) && Bool.eqb (has (snd u)) (has (snd v)).

(** Modelled from the spec: [Quantity(value, src).to(dst).magnitude] of
    pint, the magnitude scaled by the ratio of the two multipliers.
    Between units of different dimensions pint raises its
    DimensionalityError. *)
Definition convert (value : float) (src dst : unit) : pyres float :=
  if same_dimension src dst
  then Ok (value * (multiplier src / multiplier dst))
  else Raise DimensionalityError.

End Pint.

(* ================================================================= *)
(** ** Formatting (estimator.py, lines 116-160) *)

Open Scope float_scope.

(* The decimal constants below denote the nearest binary64 value, as
   they do in Python. *)
#[local] Set Warnings "-inexact-float".

(** The last threshold is the integer [1] in the source; a float
    compares with it as with [1.0]. *)
Definition _BYTE_THRESHOLDS : list (float * data_unit * string) :=
  [ (1e15, petabyte, "PB");
    (1e12, terabyte, "TB");
    (1e9, gigabyte, "GB");
    (1e6, megabyte, "MB");
    (1e3, kilobyte, "KB");
    (1, byte, "bytes") ].

Definition _NUMBER_THRESHOLDS : list (float * string) :=
  [ (1e12, "trillion");
    (1e9, "billion");
    (1e6, "million");
    (1e3, "K") ].

Definition _format_magnitude (value : float) : pyres string :=
  if value =? 0 then Ok "0"
  else
    rounded_int <- PyFloat.round_int value ;;
    let rounded_1dp := PyFloat.round_1dp value in
    near <- (if (rounded_int =? 0)%Z then Ok false
             else d <- PyFloat.sub_int value rounded_int ;;
                  a <- PyFloat.of_int (Z.abs rounded_int) ;;
                  Ok (abs d / a <? 0.05)) ;;
    if near then
      same <- (if PyFloat.eq_int value rounded_int then Ok true
               else d <- PyFloat.sub_int value rounded_int ;;
                    Ok (abs d <? 0.01)) ;;
      if same then Ok (PyStr.str_of_int rounded_int)
      else Ok ("~" ++ PyStr.str_of_int rounded_int)
    else Ok ("~" ++ PyFloat.format_g rounded_1dp).

(** The loop of [_format_number] over the rest of the table. *)
Fixpoint format_number_from (table : list (float * string))
  (value abs_val : float) (rate : string) : pyres string :=
  match table with
  | [] => formatted <- _format_magnitude value ;; Ok (formatted ++ rate)
  | (threshold, suffix) :: rest =>
      if threshold <=? abs_val then
        let scaled := value / threshold in
        formatted <- _format_magnitude scaled ;;
        let sep := if (String.length suffix <=? 1)%nat then "" else " " in
        Ok (formatted ++ sep ++ suffix ++ rate)
      else format_number_from rest value abs_val rate
  end.

Definition _format_number (value : float) (rate : string) : pyres string :=
  format_number_from _NUMBER_THRESHOLDS value (abs value) rate.

(* ================================================================= *)
(** ** Public API (estimator.py, lines 165-248) *)

Record Result : Type := {
  expression : string;
  result_display : string;
  raw_value : float
}.

(** The [for ... else] over [_BYTE_THRESHOLDS], written twice in
    [evaluate] (lines 200-206 and 222-228). *)
Fixpoint byte_display_from (table : list (float * data_unit * string))
  (value abs_val : float) (rate_label : string) : pyres string :=
  match table with
  | [] =>
      formatted <- _format_magnitude value ;;
      Ok (formatted ++ " bytes" ++ rate_label)
  | (threshold, pint_unit, display_label) :: rest =>
      if threshold <=? abs_val then
        converted <- Pint.convert value (Some byte, None) (Some pint_unit, None) ;;
        formatted <- _format_magnitude converted ;;
        Ok (formatted ++ " " ++ display_label ++ rate_label)
      else byte_display_from rest value abs_val rate_label
  end.

Definition byte_auto_display (value : float) (rate_label : string) : pyres string :=
  byte_display_from _BYTE_THRESHOLDS value (abs value) rate_label.

(** [target_unit not in ("auto", "none")] *)
Definition is_concrete_target (target_unit : string) : bool :=
  negb (String.eqb target_unit "auto" || String.eqb target_unit "none").

(** The conversion to a caller-chosen unit (lines 215-219 and 236-240). *)
Definition target_display (bytes : float) (target_unit rate_label : string)
  : pyres string :=
  match dict_get _BYTE_UNITS (PyStr.lower target_unit) with
  | None => Raise (ValueError ("Unknown target unit: " ++ target_unit))
  | Some pint_target =>
      converted <- Pint.convert bytes (Some byte, None) (Some pint_target, None) ;;
      formatted <- _format_magnitude converted ;;
      Ok (formatted ++ " " ++ target_unit ++ rate_label)
  end.

(** The branches of [evaluate] after the magnitude is known (lines
    180-242); the quantity of pint is the magnitude with the two unit
    tags. *)
Definition display_of (magnitude : float)
  (data_unit : option data_unit) (time_unit : option time_unit)
  (target_unit rate : string) : pyres string :=
  let rate_time_unit := rate_unit_of rate in
  let rate_label := if String.eqb rate "none" then "" else rate in
  match time_unit, rate_time_unit, data_unit with
  | Some t, Some r, Some d =>
      byte_mag <- Pint.convert magnitude (Some d, Some t) (Some byte, Some r) ;;
      byte_auto_display byte_mag rate_label
  | Some t, Some r, None =>
      per_rate <- Pint.convert magnitude (None, Some t) (None, Some r) ;;
      _format_number per_rate rate_label
  | _, _, Some d =>
      value_in_bytes <- Pint.convert magnitude (Some d, time_unit) (Some byte, None) ;;
      if is_concrete_target target_unit
      then target_display value_in_bytes target_unit rate_label
      else byte_auto_display value_in_bytes rate_label
  | Some t, None, None =>
      per_sec <- Pint.convert magnitude (None, Some t) (None, Some second) ;;
      _format_number per_sec "/s"
  | None, _, None =>
      if is_concrete_target target_unit
      then target_display magnitude target_unit rate_label
      else _format_number magnitude rate_label
  end.

Definition evaluate (rt : PyEval.runtime) (expression target_unit rate : string)
  : pyres Result :=
  let processed := _preprocess_scale expression in
  let '(math_str, data_unit, time_unit) := _parse_units processed in
  magnitude <- _safe_eval rt math_str ;;
  display <- display_of magnitude data_unit time_unit target_unit rate ;;
  Ok {| expression := expression;
        result_display := display;
        raw_value := magnitude |}.

(* ================================================================= *)
(** ** The error classes of the specification

    The module raises [ValueError] itself and lets everything else
    through.  The specification names three classes by where the error
    comes from. *)

(** ValidationError: the two errors [_safe_eval] raises itself. *)
Definition is_validation_error (x : exn) : bool :=
  match x with
  | ValueError msg =>
      String.eqb msg "Empty expression"
      || String.prefix "Invalid characters in expression: " msg
  | _ => false
  end.

(** ArithmeticError: what the evaluation of the arithmetic string raises
    ([eval] and [float]). *)
Definition is_arithmetic_error (x : exn) : bool :=
  match x with
  | SyntaxError | NameError | AttributeError | TypeError
  | ZeroDivisionError | OverflowError => true
  | _ => false
  end.

(** UnknownUnitError naming [target_unit]: the error of lines 217 and 238. *)
Definition unknown_unit_error (target_unit : string) : exn :=
  ValueError ("Unknown target unit: " ++ target_unit).

(** The residual arithmetic string of an expression: what is left after
    scale preprocessing and unit stripping. *)
Definition residual (expression : string) : string :=
  fst (fst (_parse_units (_preprocess_scale expression))).

(** The unit tags of an expression. *)
Definition data_unit_of (expression : string) : option data_unit :=
  snd (fst (_parse_units (_preprocess_scale expression))).

Definition time_unit_of (expression : string) : option time_unit :=
  snd (_parse_units (_preprocess_scale expression)).

(** The character before the end of [s], [prev] being the one before [s]. *)
Fixpoint last_char (prev : option ascii) (s : string) : option ascii :=
  match s with
  | EmptyString => prev
  | String c s' => last_char (Some c) s'
  end.

(** A digit or a whitespace character comes just before. *)
Definition after_number (prev : option ascii) : bool :=
  match prev with
  | Some p => PyStr.is_digit p || PyStr.is_space p
  | None => false
  end.

Definition next_is_letter (s : string) : bool :=
  match s with
  | String d _ => PyStr.is_ascii_letter d
  | EmptyString => false
  end.

Definition is_suffix_letter (c : ascii) : bool :=
  PyStr.mem_char "TBMK" c.

(** Every [T], [B], [M] or [K] of [s] sits inside a word: an ASCII
    letter follows it, or what precedes it is neither a digit nor
    whitespace ([prev] is the character before [s]). *)
Fixpoint letters_guarded (prev : option ascii) (s : string) : bool :=
  match s with
  | EmptyString => true
  | String c s' =>
      (negb (is_suffix_letter c) || negb (after_number prev) || next_is_letter s')
      && letters_guarded (Some c) s'
  end.

Fixpoint strictly_descending (l : list float) : bool :=
  match l with
  | x :: ((y :: _) as l') => (y <? x) && strictly_descending l'
  | _ => true
  end.

(** A computation raises only errors of the class [P]. *)
Definition raises_only {A : Type} (P : exn -> bool) (c : pyres A) : Prop :=
  forall x, c = Raise x -> P x = true.

(** The errors that are no ValidationError. *)
Definition not_validation (x : exn) : bool := negb (is_validation_error x).


(* ================================================================= *)
(** ** Further vocabulary for the properties *)

(** The six rate selectors [_RATE_UNITS] maps to a time unit. *)
Definition is_known_rate (rate : string) : bool := Pint.has (rate_unit_of rate).

(** [rate_label] of [evaluate] (line 181). *)
Definition rate_label_of (rate : string) : string :=
  if String.eqb rate "none" then "" else rate.

(** The result of a call with its display extended by a label, its
    error unchanged. *)
Definition with_label (label : string) (r : pyres Result) : pyres Result :=
  match r with
  | Ok res => Ok {| expression := expression res;
                    result_display := result_display res ++ label;
                    raw_value := raw_value res |}
  | Raise x => Raise x
  end.

(** The result of a call under another expression text. *)
Definition with_expression (e : string) (r : pyres Result) : pyres Result :=
  match r with
  | Ok res => Ok {| expression := e;
                    result_display := result_display res;
                    raw_value := raw_value res |}
  | Raise x => Raise x
  end.

(** The errors [round] raises inside [_format_magnitude]: on a NaN and
    on an infinity. *)
Definition is_format_error (x : exn) : bool :=
  match x with
  | ValueError msg => String.eqb msg "cannot convert float NaN to integer"
  | OverflowError => true
  | _ => false
  end.

(** [s] holds no character that equals [c] up to case. *)
Definition lacks_ci (c : ascii) (s : string) : bool :=
  PyStr.forallb
    (fun d => negb (Ascii.eqb (PyStr.lower_char d) (PyStr.lower_char c))) s.

(** Two strings equal up to case, character by character. *)
Fixpoint ci_eq (a b : string) : bool :=
  match a, b with
  | EmptyString, EmptyString => true
  | String x a', String y b' =>
      Ascii.eqb (PyStr.lower_char x) (PyStr.lower_char y) && ci_eq a' b'
  | _, _ => false
  end.

(** [s] holds none of the letters a multiplier starts with: t, b, m in
    either case and K. *)
Definition no_scale_letter (s : string) : bool :=
  PyStr.forallb (fun c => negb (PyStr.mem_char "tTbBmMK" c)) s.

(** A non-empty string of digits, as [\d+] matches it. *)
Definition is_digits (n : string) : bool :=
  negb (PyStr.is_empty n) && PyStr.forallb PyStr.is_digit n.

(** A string of whitespace characters, as [\s*] matches it. *)
Definition is_blank (s : string) : bool := PyStr.forallb PyStr.is_space s.

(** [s] does not hold the character [c]. *)
Definition lacks (c : ascii) (s : string) : bool :=
  PyStr.forallb (fun d => negb (Ascii.eqb c d)) s.

(** [math.isfinite]: neither an infinity nor a NaN. *)
Definition isfinite (x : float) : bool :=
  match Prim2SF x with
  | S754_zero _ | S754_finite _ _ _ => true
  | S754_infinity _ | S754_nan => false
  end.

(** A unit token as the two unit steps read it: not empty and made of
    ASCII letters. *)
Definition is_word (s : string) : bool :=
  negb (PyStr.is_empty s) && PyStr.forallb PyStr.is_ascii_letter s.

(* ================================================================= *)
(** * Properties *)

Close Scope float_scope.

(** ** The model on sample inputs *)

Example split_words :
  PyStr.split "30 * 1e9 *  500 bytes" = ["30"; "*"; "1e9"; "*"; "500"; "bytes"].
Proof. reflexivity. Qed.

Example rstrip_star : PyStr.rstrip_chars " *" "30 * 1e9 * 500 *" = "30 * 1e9 * 500".
Proof. reflexivity. Qed.

Example strip_blanks : PyStr.strip "  10 / " = "10 /".
Proof. reflexivity. Qed.

Example str_of_int_signs :
  (PyStr.str_of_int 15, PyStr.str_of_int 0, PyStr.str_of_int (-193))
  = ("15", "0", "-193").
Proof. reflexivity. Qed.

Example preprocess_words :
  _preprocess_scale "500 million / month" = "500 * 1e6 / month"
  /\ _preprocess_scale "8 Thousand" = "8 * 1e3"
  /\ _preprocess_scale "2.5 trillion" = "2.5 * 1e12".
Proof. repeat split. Qed.

Example preprocess_suffixes :
  _preprocess_scale "20K * 3.5M + 2 T" = "20e3 * 3.5e6 + 2e12"
  /\ _preprocess_scale "1.5.5B" = "1.5.5e9"
  /\ _preprocess_scale "7Bytes" = "7Bytes".
Proof. repeat split. Qed.

(** The lookahead of the suffix patterns knows the letters of [a-zA-Z]
    only: an [M] before the Latin-1 letter e-acute (code 233) is a
    multiplier. *)
Example suffix_lookahead_is_ascii :
  _preprocess_scale ("5 M" ++ String (ascii_of_N 233) "")
  = "5e6" ++ String (ascii_of_N 233) "".
Proof. reflexivity. Qed.

Example parse_units_samples :
  _parse_units "30 * 1e9 * 500 bytes" = ("30 * 1e9 * 500", Some byte, None)
  /\ _parse_units "500 * 1e6 / month" = ("500 * 1e6", None, Some month)
  /\ _parse_units "5 MB / s" = ("5", Some megabyte, Some second)
  /\ _parse_units "a/b/ Hr" = ("a/b", None, Some hour)
  /\ _parse_units "10 /" = ("10 /", None, None)
  /\ _parse_units "10 / furlong" = ("10 / furlong", None, None).
Proof. repeat split. Qed.

Example float_literals :
  (PyFloat.of_decimal 1 9 =? 1e9)%float = true
  /\ (PyFloat.of_decimal 15 (-1) =? 1.5)%float = true
  /\ PyFloat.of_decimal 1 400 = infinity
  /\ PyFloat.of_int (2 ^ 1024) = Raise OverflowError
  /\ PyFloat.int_true_div 7 2 = Ok 3.5%float
  /\ PyFloat.int_true_div 0 (-5) = Ok neg_zero.
Proof. repeat split. Qed.

Example rounding :
  PyFloat.round_int 0.5 = Ok 0%Z
  /\ PyFloat.round_int 1.5 = Ok 2%Z
  /\ PyFloat.round_int 2.5 = Ok 2%Z
  /\ PyFloat.round_int (-2.5) = Ok (-2)%Z
  /\ PyFloat.round_int nan = Raise (ValueError "cannot convert float NaN to integer")
  /\ PyFloat.round_int infinity = Raise OverflowError
  /\ PyFloat.format_g (PyFloat.round_1dp 0.25) = "0.2"
  /\ PyFloat.format_g (PyFloat.round_1dp 0.35) = "0.3"
  /\ PyFloat.format_g (PyFloat.round_1dp 1.75) = "1.8"
  /\ PyFloat.format_g (PyFloat.round_1dp (-0.04)) = "-0".
Proof. repeat split. Qed.

Example g_format :
  PyFloat.format_g 1.7 = "1.7"
  /\ PyFloat.format_g 2 = "2"
  /\ PyFloat.format_g 10.5 = "10.5"
  /\ PyFloat.format_g 123456.7 = "123457"
  /\ PyFloat.format_g 1234567.9 = "1.23457e+06"
  /\ PyFloat.format_g 0.0001 = "0.0001"
  /\ PyFloat.format_g 0.00001 = "1e-05".
Proof. repeat split. Qed.

Example format_magnitude_samples :
  _format_magnitude 15 = Ok "15"
  /\ _format_magnitude 192.90123456790124 = Ok "~193"
  /\ _format_magnitude 1.7 = Ok "~1.7"
  /\ _format_magnitude 100.004 = Ok "100"
  /\ _format_magnitude 0.0000001 = Ok "~0"
  /\ _format_magnitude 1e22 = Ok "10000000000000000000000".
Proof. repeat split. Qed.

Example format_number_samples :
  _format_number 70000000000 "/day" = Ok "70 billion/day"
  /\ _format_number 1024 "" = Ok "~1K"
  /\ _format_number 2500000 "" = Ok "~2.5 million"
  /\ _format_number 999 "/s" = Ok "999/s".
Proof. repeat split. Qed.

Example parse_precedence :
  PyEval.parse_string "-2**-3**2*4"
  = Some (PyEval.BinOp PyEval.Mult
            (PyEval.UnaryOp PyEval.USub
               (PyEval.BinOp PyEval.Pow (PyEval.Num (PyEval.NInt 2))
                  (PyEval.UnaryOp PyEval.USub
                     (PyEval.BinOp PyEval.Pow (PyEval.Num (PyEval.NInt 3))
                                               (PyEval.Num (PyEval.NInt 2))))))
            (PyEval.Num (PyEval.NInt 4)))
  /\ PyEval.parse_string "1 - 2 - 3"
     = Some (PyEval.BinOp PyEval.Sub
               (PyEval.BinOp PyEval.Sub (PyEval.Num (PyEval.NInt 1))
                                         (PyEval.Num (PyEval.NInt 2)))
               (PyEval.Num (PyEval.NInt 3))).
Proof. repeat split. Qed.

Example parse_rejects :
  PyEval.parse_string "10 /" = None
  /\ PyEval.parse_string "(1" = None
  /\ PyEval.parse_string "1)" = None
  /\ PyEval.parse_string "1 2" = None
  /\ PyEval.parse_string "012" = None
  /\ PyEval.parse_string "1e" = None
  /\ PyEval.parse_string "1e+" = None
  /\ PyEval.parse_string "1 . 5" = None
  /\ PyEval.parse_string "* 2" = None.
Proof. repeat split. Qed.

Example eval_samples (rt : PyEval.runtime) :
  PyEval.float_eval rt "30 * 1e9 * 500" = Ok 1.5e13%float
  /\ PyEval.float_eval rt "7//2 + 7/2 - -1" = Ok 7.5%float
  /\ PyEval.float_eval rt "-7//2" = Ok (-4)%float
  /\ PyEval.float_eval rt "012.5e1" = Ok 125%float
  /\ PyEval.float_eval rt "(1 + 2) * 3" = Ok 9%float
  /\ PyEval.float_eval rt "1/0" = Raise ZeroDivisionError
  /\ PyEval.float_eval rt "1.5//0" = Raise ZeroDivisionError
  /\ PyEval.float_eval rt "10**400" = Raise OverflowError
  /\ PyEval.float_eval rt "e" = Raise NameError
  /\ PyEval.float_eval rt "1 .e" = Raise AttributeError
  /\ PyEval.float_eval rt "1(2)" = Raise TypeError
  /\ PyEval.float_eval rt "()" = Raise TypeError
  /\ PyEval.float_eval rt "..." = Raise TypeError.
Proof. repeat split. Qed.

Example evaluate_samples (rt : PyEval.runtime) :
  evaluate rt "1000000 bytes" "auto" "none"
  = Ok {| expression := "1000000 bytes"; result_display := "1 MB";
          raw_value := 1000000 |}
  /\ evaluate rt "100" "GB" "none"
     = Ok {| expression := "100"; result_display := "~0 GB"; raw_value := 100 |}
  /\ evaluate rt "1.7 GB" "MB" "none"
     = Ok {| expression := "1.7 GB"; result_display := "1700 MB";
             raw_value := 1.7 |}
  /\ evaluate rt "20K * 3.5M" "auto" "/day"
     = Ok {| expression := "20K * 3.5M"; result_display := "70 billion/day";
             raw_value := 70000000000 |}
  /\ evaluate rt "" "auto" "none" = Raise (ValueError "Empty expression")
  /\ evaluate rt "abc" "auto" "none"
     = Raise (ValueError "Invalid characters in expression: abc")
  /\ evaluate rt "5 MB / s" "auto" "none" = Raise DimensionalityError
  /\ evaluate rt "1e400 - 1e400" "auto" "none"
     = Raise (ValueError "cannot convert float NaN to integer").
Proof. repeat split; vm_compute; reflexivity. Qed.

(** ** The decimal exponent of the [g] format

    The two searches of [PyFloat.exp10] stop on their test before their
    counter runs out, so [PyFloat.exp10 n d] is the decimal exponent of
    [n / d]. *)

Section DecimalExponent.
Open Scope Z_scope.

Lemma exp10_up_spec (fuel : nat) : forall n d x,
  0 < d <= n -> n < d * 2 ^ Z.of_nat fuel ->
  exists j, 0 <= j /\ PyFloat.exp10_up fuel n d x = x + j
            /\ d * 10 ^ j <= n < d * 10 ^ (j + 1).
Proof.
  induction fuel as [|f IH]; intros n d x Hd Hn.
  - simpl in Hn. lia.
  - cbn [PyFloat.exp10_up]. destruct (10 * d <=? n) eqn:Hc.
    + apply Z.leb_le in Hc.
      destruct (IH n (10 * d) (x + 1)) as (j & Hj & Hr & Hlo & Hhi).
      * lia.
      * rewrite Nat2Z.inj_succ, Z.pow_succ_r in Hn by lia.
        assert (0 < 2 ^ Z.of_nat f) by (apply Z.pow_pos_nonneg; lia). nia.
      * exists (j + 1). rewrite Hr.
        rewrite !Z.pow_add_r in * by lia. change (10 ^ 1) with 10 in *.
        repeat split; lia.
    + apply Z.leb_gt in Hc. exists 0. simpl. lia.
Qed.

Lemma exp10_down_spec (f : nat) : forall n d x,
  0 < n -> 0 < d -> d <= n * 2 ^ Z.of_nat f ->
  exists j, 0 <= j /\ PyFloat.exp10_down (S f) n d x = x - j
            /\ d <= n * 10 ^ j /\ (j = 0 \/ n * 10 ^ (j - 1) < d).
Proof.
  induction f as [|f IH]; intros n d x Hn Hd Hf.
  - simpl in Hf. cbn [PyFloat.exp10_down].
    assert (Hc : (d <=? n) = true) by (apply Z.leb_le; lia).
    rewrite Hc. exists 0. simpl. lia.
  - cbn [PyFloat.exp10_down]. destruct (d <=? n) eqn:Hc.
    + apply Z.leb_le in Hc. exists 0. simpl. lia.
    + apply Z.leb_gt in Hc.
      destruct (IH (10 * n) d (x - 1)) as (j & Hj & Hr & Hlo & Hhi).
      * lia.
      * lia.
      * rewrite Nat2Z.inj_succ, Z.pow_succ_r in Hf by lia.
        assert (0 < 2 ^ Z.of_nat f) by (apply Z.pow_pos_nonneg; lia). nia.
      * exists (j + 1).
        change (PyFloat.exp10_down (S f) (10 * n) d (x - 1)) with
          (if d <=? 10 * n then x - 1 else PyFloat.exp10_down f (10 * (10 * n)) d (x - 1 - 1)).
        cbn [PyFloat.exp10_down] in Hr. rewrite Hr.
        replace (j + 1 - 1) with j by lia.
        rewrite Z.pow_add_r by lia. change (10 ^ 1) with 10.
        repeat split; try lia.
        right. destruct (Z.eq_dec j 0) as [->|Hj0].
        -- simpl. lia.
        -- destruct Hhi as [Hhi|Hhi]; [contradiction|].
           replace j with ((j - 1) + 1) at 1 by lia.
           rewrite Z.pow_add_r by lia. change (10 ^ 1) with 10. lia.
Qed.

Lemma exp10_spec (n d : Z) :
  0 < n -> 0 < d ->
  (0 <= PyFloat.exp10 n d /\ d * 10 ^ PyFloat.exp10 n d <= n < d * 10 ^ (PyFloat.exp10 n d + 1))
  \/ (PyFloat.exp10 n d < 0 /\ n * 10 ^ (- PyFloat.exp10 n d - 1) < d <= n * 10 ^ (- PyFloat.exp10 n d)).
Proof.
  intros Hn Hd. unfold PyFloat.exp10. destruct (d <=? n) eqn:Hc.
  - apply Z.leb_le in Hc. left.
    destruct (@exp10_up_spec (S (Z.to_nat (Z.log2 n))) n d 0) as (j & Hj & Hr & H).
    + lia.
    + rewrite Nat2Z.inj_succ, Z2Nat.id by apply Z.log2_nonneg.
      pose proof (Z.log2_spec n Hn). nia.
    + rewrite Hr. simpl. split; [lia|exact H].
  - apply Z.leb_gt in Hc. right.
    destruct (@exp10_down_spec (S (Z.to_nat (Z.log2 d))) n d 0 Hn Hd)
      as (j & Hj & Hr & Hlo & Hhi).
    + rewrite Nat2Z.inj_succ, Z2Nat.id by apply Z.log2_nonneg.
      pose proof (Z.log2_spec d Hd). nia.
    + rewrite Hr. replace (- (0 - j)) with j by lia.
      destruct Hhi as [->|Hhi]; [simpl in Hlo; lia|].
      split; [|split]; try lia.
      assert (j <> 0). { intros ->. simpl in Hlo. lia. }
      lia.
Qed.
End DecimalExponent.

(** ** Strings *)

Lemma append_nil_r (s : string) : s ++ "" = s.
Proof. induction s; simpl; congruence. Qed.

Lemma append_assoc (a b c : string) : (a ++ b) ++ c = a ++ (b ++ c).
Proof. induction a; simpl; congruence. Qed.

Lemma length_append (a b : string) :
  String.length (a ++ b) = (String.length a + String.length b)%nat.
Proof. induction a; simpl; congruence. Qed.

(** ** The matcher: a successful run hands the continuation a suffix *)

Section MatcherFacts.
Variable R : Type.

Lemma star_inv (p : ascii -> bool) (s : string) (k : string -> option R) (x : R) :
  star p s k = Some x ->
  exists pre s', s = pre ++ s' /\ PyStr.forallb p pre = true /\ k s' = Some x.
Proof.
  induction s as [|c s IH]; simpl; intros H.
  - exists "", "". auto.
  - destruct (p c) eqn:Hp.
    + destruct (star p s k) as [y|] eqn:Hs.
      * inversion H; subst y.
        destruct (IH eq_refl) as (pre & s' & -> & Hall & Hk).
        exists (String c pre), s'. simpl. rewrite Hp. auto.
      * exists "", (String c s). auto.
    + exists "", (String c s). auto.
Qed.

Lemma run_inv (r : re) : forall (s g : string) (k : string -> string -> option R) (x : R),
  run r s g k = Some x ->
  exists pre s' g', s = pre ++ s' /\ k s' g' = Some x.
Proof.
  induction r as [p|p|p|r IH|r1 IH1 r2 IH2|r IH|p| |]; simpl; intros s g k x H.
  - destruct s as [|c s]; [discriminate|].
    destruct (p c); [|discriminate].
    exists (String c ""), s, g. auto.
  - apply star_inv in H. destruct H as (pre & s' & -> & _ & Hk).
    exists pre, s', g. auto.
  - destruct s as [|c s]; [discriminate|].
    destruct (p c); [|discriminate].
    apply star_inv in H. destruct H as (pre & s' & -> & _ & Hk).
    exists (String c pre), s', g. auto.
  - destruct (run r s g k) as [y|] eqn:Hr.
    + inversion H; subst y. eauto.
    + exists "", s, g. auto.
  - apply IH1 in H. destruct H as (pre1 & s1 & g1 & -> & H).
    apply IH2 in H. destruct H as (pre2 & s2 & g2 & -> & H).
    exists (pre1 ++ pre2), s2, g2. rewrite append_assoc. auto.
  - apply IH in H. destruct H as (pre & s' & g' & -> & H). eauto.
  - destruct s as [|c s].
    + exists "", "", g. auto.
    + destruct (p c); [discriminate|]. exists "", (String c s), g. auto.
  - exists "", s, g. split; [reflexivity|].
    destruct s as [|c [|d s]]; try discriminate; auto.
    destruct (PyStr.code c =? 10)%N; [auto|discriminate].
  - exists "", s, g. auto.
Qed.
End MatcherFacts.

Lemma run_cat (R : Type) (r1 r2 : re) (s g : string)
  (k : string -> string -> option R) :
  run (Cat r1 r2) s g k = run r1 s g (fun s' g' => run r2 s' g' k).
Proof. reflexivity. Qed.

Lemma run_plus (R : Type) (p : ascii -> bool) (s g : string)
  (k : string -> string -> option R) :
  run (Plus p) s g k =
  match s with
  | String c s' => if p c then star p s' (fun s'' => k s'' g) else None
  | EmptyString => None
  end.
Proof. reflexivity. Qed.

Lemma run_star (R : Type) (p : ascii -> bool) (s g : string)
  (k : string -> string -> option R) :
  run (Star p) s g k = star p s (fun s' => k s' g).
Proof. reflexivity. Qed.

(** ** Suffix multipliers *)

Lemma last_char_app (prev : option ascii) (a b : string) :
  last_char prev (a ++ b) = last_char (last_char prev a) b.
Proof. revert prev. induction a; simpl; auto. Qed.

Lemma last_char_forallb (p : ascii -> bool) (s : string) (c : ascii) :
  p c = true -> PyStr.forallb p s = true ->
  exists d, last_char (Some c) s = Some d /\ p d = true.
Proof.
  revert c. induction s as [|a s IH]; simpl; intros c Hc Hs.
  - eauto.
  - apply andb_prop in Hs. destruct Hs as [Ha Hs]. eauto.
Qed.

(** What [(\d+(?:\.\d+)?)] consumes is not empty and ends with a digit. *)
Lemma number_group_inv (R : Type) (s g : string)
  (k : string -> string -> option R) (x : R) :
  run number_group s g k = Some x ->
  exists pre s' g',
    s = pre ++ s' /\ k s' g' = Some x /\
    forall prev, exists d, last_char prev pre = Some d /\ PyStr.is_digit d = true.
Proof.
  unfold number_group. cbn [run]. intros H.
  destruct s as [|c s0]; [discriminate|].
  destruct (PyStr.is_digit c) eqn:Hc; [|discriminate].
  apply star_inv in H. destruct H as (pre & s1 & -> & Hpre & H).
  destruct (last_char_forallb PyStr.is_digit pre c Hc Hpre) as (d & Hd & Hdd).
  match type of H with match ?m with _ => _ end = _ => destruct m as [y|] eqn:Hopt end.
  - inversion H; subst y. clear H.
    destruct s1 as [|c1 s2]; [discriminate|].
    cbn [run chr] in Hopt. destruct (Ascii.eqb "." c1) eqn:Hdot; [|discriminate].
    destruct s2 as [|c2 s3]; [discriminate|].
    destruct (PyStr.is_digit c2) eqn:Hc2; [|discriminate].
    apply star_inv in Hopt. destruct Hopt as (pre3 & s4 & -> & Hpre3 & Hk).
    exists (String c pre ++ String c1 (String c2 pre3)), s4. eexists.
    split; [rewrite append_assoc; reflexivity|]. split; [exact Hk|].
    intros prev. rewrite last_char_app. simpl.
    apply last_char_forallb; assumption.
  - exists (String c pre), s1. eexists.
    split; [reflexivity|]. split; [exact H|].
    intros prev. simpl. eauto.
Qed.

(** A match of a suffix pattern: a number, whitespace, the letter, and
    no ASCII letter after it. *)
Lemma suffix_match_inv (L : ascii) (s g : string) (n : nat) :
  match_at (suffix_pattern L) s = Some (g, n) ->
  exists pre post,
    s = pre ++ String L post /\ n = S (String.length pre) /\
    (forall prev, after_number (last_char prev pre) = true) /\
    next_is_letter post = false.
Proof.
  unfold match_at, suffix_pattern. intros H.
  rewrite run_cat in H.
  apply number_group_inv in H. destruct H as (pre1 & s1 & g1 & -> & H & Hlast).
  rewrite run_cat, run_star in H.
  apply star_inv in H. destruct H as (pre2 & s2 & -> & Hws & H).
  cbn [run chr] in H.
  destruct s2 as [|c s3]; [discriminate|].
  destruct (Ascii.eqb L c) eqn:Hc; [|discriminate].
  apply Ascii.eqb_eq in Hc. subst c.
  exists (pre1 ++ pre2), s3. rewrite append_assoc. split; [reflexivity|].
  assert (Hbefore : forall prev, after_number (last_char prev (pre1 ++ pre2)) = true).
  { intros prev. rewrite last_char_app.
    destruct (Hlast prev) as (d & -> & Hd).
    destruct pre2 as [|w pre2]; simpl.
    - rewrite Hd. reflexivity.
    - simpl in Hws. apply andb_prop in Hws. destruct Hws as [Hw Hws].
      destruct (last_char_forallb PyStr.is_space pre2 w Hw Hws) as (e & -> & He).
      simpl. rewrite He. apply orb_true_r. }
  destruct s3 as [|d s4].
  - inversion H; subst. repeat split; auto.
    rewrite !length_append. simpl. lia.
  - destruct (PyStr.is_ascii_letter d) eqn:Hd; [discriminate|].
    inversion H; subst. repeat split; auto.
    rewrite !length_append. simpl. lia.
Qed.

Lemma letters_guarded_app (prev : option ascii) (pre post : string) (L : ascii) :
  is_suffix_letter L = true ->
  letters_guarded prev (pre ++ String L post) = true ->
  after_number (last_char prev pre) = false \/ next_is_letter post = true.
Proof.
  intros HL. revert prev. induction pre as [|a pre IH]; simpl; intros prev H.
  - rewrite HL in H. apply andb_prop in H. destruct H as [H _].
    simpl in H. destruct (after_number prev); simpl in H; auto.
  - apply andb_prop in H. destruct H as [_ H]. auto.
Qed.

Lemma guarded_no_match (L : ascii) (prev : option ascii) (s : string) :
  is_suffix_letter L = true ->
  letters_guarded prev s = true ->
  match_at (suffix_pattern L) s = None.
Proof.
  intros HL Hs.
  destruct (match_at (suffix_pattern L) s) as [[g n]|] eqn:Hm; [|reflexivity].
  apply suffix_match_inv in Hm.
  destruct Hm as (pre & post & -> & _ & Hbefore & Hpost).
  destruct (letters_guarded_app _ _ _ _ HL Hs) as [H|H].
  - rewrite Hbefore in H. discriminate.
  - congruence.
Qed.

Lemma guarded_sub_from (L : ascii) (tail s : string) (prev : option ascii) :
  is_suffix_letter L = true ->
  letters_guarded prev s = true ->
  sub_from (suffix_pattern L) tail s 0 = s.
Proof.
  intros HL. revert prev. induction s as [|c s IH]; intros prev Hs; [reflexivity|].
  cbn [sub_from]. rewrite (guarded_no_match _ _ _ HL Hs).
  f_equal. apply (IH (Some c)). simpl in Hs. apply andb_prop in Hs. tauto.
Qed.

Lemma apply_suffixes_guarded (s : string) :
  letters_guarded None s = true -> apply_subs _SUFFIX_MULTIPLIERS s = s.
Proof.
  intros Hs. unfold apply_subs, _SUFFIX_MULTIPLIERS, sub. cbn [fold_left fst snd].
  rewrite (guarded_sub_from "T" "e12" s None) by (reflexivity || assumption).
  rewrite (guarded_sub_from "B" "e9" s None) by (reflexivity || assumption).
  rewrite (guarded_sub_from "M" "e6" s None) by (reflexivity || assumption).
  apply (guarded_sub_from "K" "e3" s None); [reflexivity | assumption].
Qed.

(** C6: a suffix multiplier does not fire inside a unit token.  Every
    match of a suffix pattern is a number, optional whitespace and the
    letter, with the end of the string or a character outside [a-zA-Z]
    after it, so the letter is never one that another letter follows.  A
    string in which every T, B, M and K has a letter after it, or comes
    straight after something that is neither a digit nor whitespace,
    passes the suffix stage unchanged.  Preprocessing leaves "5 MB" and
    "500 bytes" as they are: "5 MB" does not become "5 1e6B". *)
Theorem suffix_multipliers_spare_unit_tokens :
  (forall (L : ascii) (s g : string) (n : nat),
      match_at (suffix_pattern L) s = Some (g, n) ->
      exists pre post,
        s = pre ++ String L post /\ n = S (String.length pre) /\
        (forall prev, after_number (last_char prev pre) = true) /\
        next_is_letter post = false)
  /\ (forall s : string,
         letters_guarded None s = true -> apply_subs _SUFFIX_MULTIPLIERS s = s)
  /\ _preprocess_scale "5 MB" = "5 MB"
  /\ String.eqb (_preprocess_scale "5 MB") "5 1e6B" = false
  /\ _preprocess_scale "500 bytes" = "500 bytes"
  /\ _preprocess_scale "3 TB + 2 KB" = "3 TB + 2 KB".
Proof.
  split; [exact suffix_match_inv|].
  split; [exact apply_suffixes_guarded|].
  repeat split; reflexivity.
Qed.

Lemma suffix_multipliers_spare_unit_tokens_witness :
  letters_guarded None "5 MB + 20 Kbytes" = true
  /\ apply_subs _SUFFIX_MULTIPLIERS "5 MB + 20 Kbytes" = "5 MB + 20 Kbytes".
Proof.
  split; [reflexivity|].
  apply (proj1 (proj2 suffix_multipliers_spare_unit_tokens)). reflexivity.
Defined.

(** ** Validation *)

Lemma forallb_lstrip (p q : ascii -> bool) (s : string) :
  (forall c, q c = true -> p c = true) ->
  PyStr.forallb p (PyStr.lstrip_by q s) = PyStr.forallb p s.
Proof.
  intros Hqp. induction s as [|c s IH]; [reflexivity|].
  simpl. destruct (q c) eqn:Hq; [|reflexivity].
  rewrite IH, (Hqp c Hq). reflexivity.
Qed.

Lemma forallb_rstrip (p q : ascii -> bool) (s : string) :
  (forall c, q c = true -> p c = true) ->
  PyStr.forallb p (PyStr.rstrip_by q s) = PyStr.forallb p s.
Proof.
  intros Hqp. induction s as [|c s IH]; [reflexivity|].
  simpl. destruct (PyStr.rstrip_by q s) as [|d r] eqn:Hr; simpl in *.
  - destruct (q c) eqn:Hq; simpl.
    + rewrite (Hqp c Hq), <- IH. reflexivity.
    + rewrite <- IH, andb_true_r. reflexivity.
  - rewrite IH. reflexivity.
Qed.

Lemma space_is_safe (c : ascii) : PyStr.is_space c = true -> safe_char c = true.
Proof.
  unfold safe_char. intros ->. rewrite orb_true_r. reflexivity.
Qed.

Lemma forallb_safe_strip (s : string) :
  PyStr.forallb safe_char (PyStr.strip s) = PyStr.forallb safe_char s.
Proof.
  unfold PyStr.strip.
  rewrite forallb_rstrip, forallb_lstrip; auto using space_is_safe.
Qed.

Lemma is_empty_true (s : string) : PyStr.is_empty s = true <-> s = "".
Proof. destruct s; simpl; split; congruence. Qed.

(** Under [$] a greedy run of a class that holds the newline matches
    exactly the strings of that class. *)
Lemma star_eos (R : Type) (p : ascii -> bool) (k : string -> string -> option R)
  (g : string) (s : string) :
  (forall c, (PyStr.code c =? 10)%N = true -> p c = true) ->
  (forall s' g', k s' g' <> None) ->
  star p s (fun s' => run Eos s' g k) <> None <-> PyStr.forallb p s = true.
Proof.
  intros Hnl Hk. induction s as [|c s IH]; cbn [star PyStr.forallb].
  - cbn [run]. split; auto.
  - destruct (p c) eqn:Hp; cbn [andb].
    + destruct (star p s (fun s' => run Eos s' g k)) as [y|] eqn:Hs.
      * split; [intros _; apply IH; discriminate|intros _; discriminate].
      * destruct (PyStr.forallb p s) eqn:Hall.
        -- exfalso. apply (proj2 IH); reflexivity.
        -- cbn [run]. destruct s as [|d s]; [discriminate|].
           split; [congruence|discriminate].
    + split; [|discriminate]. intros H. exfalso. apply H. cbn [run].
      destruct s as [|d s]; [|reflexivity].
      destruct (PyStr.code c =? 10)%N eqn:Hc; [|reflexivity].
      rewrite (Hnl c Hc) in Hp. discriminate.
Qed.

Lemma newline_is_safe (c : ascii) :
  (PyStr.code c =? 10)%N = true -> safe_char c = true.
Proof.
  intros Hc. apply N.eqb_eq in Hc. apply space_is_safe.
  unfold PyStr.is_space, PyStr.in_range. rewrite Hc. reflexivity.
Qed.

(** [_SAFE_MATH_RE.match(s)] holds exactly for the non-empty strings of
    whitelisted characters. *)
Lemma safe_math_re_matches (s : string) :
  matches _SAFE_MATH_RE s = negb (PyStr.is_empty s) && PyStr.forallb safe_char s.
Proof.
  unfold matches, match_at, _SAFE_MATH_RE. rewrite run_cat, run_plus.
  destruct s as [|c s]; [reflexivity|].
  cbn [PyStr.is_empty negb andb PyStr.forallb].
  destruct (safe_char c); [|reflexivity]. cbn [andb]. cbv beta.
  set (K := fun (s' g : string) =>
              Some (g, (String.length (String c s) - String.length s')%nat)).
  assert (HK : forall s' g', K s' g' <> None) by (intros; discriminate).
  pose proof (star_eos safe_char K "" s newline_is_safe HK) as H.
  destruct (star safe_char s (fun s' => run Eos s' "" K)) eqn:Hs.
  - symmetry. apply H. discriminate.
  - destruct (PyStr.forallb safe_char s); [|reflexivity].
    exfalso. apply (proj2 H); reflexivity.
Qed.

(** ** Which errors each stage can raise *)

Lemma raises_only_ok {A : Type} (P : exn -> bool) (a : A) : raises_only P (Ok a).
Proof. intros x H. discriminate. Qed.

Lemma raises_only_raise {A : Type} (P : exn -> bool) (e : exn) :
  P e = true -> raises_only P (@Raise A e).
Proof. intros He x H. inversion H; subst. exact He. Qed.

Lemma raises_only_bind {A B : Type} (P : exn -> bool) (c : pyres A)
  (f : A -> pyres B) :
  raises_only P c -> (forall a, raises_only P (f a)) -> raises_only P (bind c f).
Proof.
  intros Hc Hf x H. destruct c as [a|e]; simpl in H.
  - exact (Hf a x H).
  - apply Hc. inversion H; subst. reflexivity.
Qed.

(** Split a computation along its binds and case distinctions. *)
Ltac raises_step :=
  first
    [ apply raises_only_ok
    | apply raises_only_raise; reflexivity
    | apply raises_only_bind; [|intros ?]
    | match goal with
      | |- raises_only _ (if ?b then _ else _) => destruct b
      | |- raises_only _ (match ?m with _ => _ end) => destruct m
      end ].

Ltac raises_tac := repeat first [solve [auto with raises] | raises_step].

Create HintDb raises.

Section ArithmeticErrors.
Variable rt : PyEval.runtime.

Let P := is_arithmetic_error.

Lemma of_int_raises (z : Z) : raises_only P (PyFloat.of_int z).
Proof. unfold PyFloat.of_int. raises_tac. Qed.

Lemma int_true_div_raises (a b : Z) : raises_only P (PyFloat.int_true_div a b).
Proof. unfold PyFloat.int_true_div. raises_tac. Qed.

Lemma pow_value_raises (r : PyEval.pow_result (PyEval.complex rt)) :
  raises_only P (PyEval.pow_value rt r).
Proof. unfold PyEval.pow_value. raises_tac. Qed.

Lemma cx_value_raises (r : PyEval.cx_result (PyEval.complex rt)) :
  raises_only P (PyEval.cx_value rt r).
Proof. unfold PyEval.cx_value. raises_tac. Qed.

#[local] Hint Resolve of_int_raises int_true_div_raises pow_value_raises
  cx_value_raises : raises.

Lemma float_binop_raises (o : PyEval.binop) (x y : float) :
  raises_only P (PyEval.float_binop rt o x y).
Proof. unfold PyEval.float_binop. destruct o; raises_tac. Qed.

Lemma int_binop_raises (o : PyEval.binop) (x y : Z) :
  raises_only P (PyEval.int_binop rt o x y).
Proof.
  unfold PyEval.int_binop.
  destruct o; raises_tac.
Qed.

Lemma repeat_empty_raises (o : PyEval.binop) (n : Z) :
  raises_only P (PyEval.repeat_empty rt o n).
Proof. unfold PyEval.repeat_empty. raises_tac. Qed.

#[local] Hint Resolve float_binop_raises int_binop_raises repeat_empty_raises : raises.

Lemma binary_raises (o : PyEval.binop) (a b : PyEval.value rt) :
  raises_only P (PyEval.binary rt o a b).
Proof.
  unfold PyEval.binary.
  destruct a, b; raises_tac.
Qed.

Lemma unary_raises (u : PyEval.unop) (a : PyEval.value rt) :
  raises_only P (PyEval.unary rt u a).
Proof. unfold PyEval.unary. destruct u, a; raises_tac. Qed.

Lemma eval_expr_raises (e : PyEval.expr) : raises_only P (PyEval.eval_expr rt e).
Proof.
  induction e as [n| | | |u e IH|o l IHl r IHr|e IH|f IHf|f IHf k a IHa];
    cbn [PyEval.eval_expr].
  - destruct n; raises_tac.
  - raises_tac.
  - raises_tac.
  - raises_tac.
  - apply raises_only_bind; [exact IH|]. intros. apply unary_raises.
  - apply raises_only_bind; [exact IHl|]. intros.
    apply raises_only_bind; [exact IHr|]. intros. apply binary_raises.
  - apply raises_only_bind; [exact IH|]. intros. raises_tac.
  - apply raises_only_bind; [exact IHf|]. intros. raises_tac.
  - apply raises_only_bind; [exact IHf|]. intros.
    apply raises_only_bind; [exact IHa|]. intros. raises_tac.
Qed.

Lemma to_float_raises (v : PyEval.value rt) : raises_only P (PyEval.to_float rt v).
Proof. unfold PyEval.to_float. destruct v; raises_tac. Qed.

(** Whatever [float(eval(...))] raises is an evaluation error. *)
Lemma float_eval_raises (s : string) : raises_only P (PyEval.float_eval rt s).
Proof.
  unfold PyEval.float_eval. destruct (PyEval.parse_string s).
  - apply raises_only_bind; [apply eval_expr_raises|].
    intros. apply to_float_raises.
  - raises_tac.
Qed.
End ArithmeticErrors.

Lemma arithmetic_not_validation (x : exn) :
  is_arithmetic_error x = true -> is_validation_error x = false.
Proof. destruct x; simpl; congruence. Qed.

Lemma convert_raises (v : float) (src dst : Pint.unit) :
  raises_only not_validation (Pint.convert v src dst).
Proof. unfold Pint.convert. raises_tac. Qed.

Lemma format_magnitude_raises (v : float) :
  raises_only not_validation (_format_magnitude v).
Proof.
  unfold _format_magnitude, PyFloat.round_int, PyFloat.sub_int, PyFloat.of_int.
  raises_tac.
Qed.

Lemma format_number_raises (v : float) (rate : string) :
  raises_only not_validation (_format_number v rate).
Proof.
  unfold _format_number. generalize (abs v). generalize _NUMBER_THRESHOLDS.
  intros table a. induction table as [|[t suffix] table IH]; cbn [format_number_from].
  - apply raises_only_bind; [apply format_magnitude_raises|]. intros. raises_tac.
  - destruct (t <=? a)%float; [|exact IH].
    apply raises_only_bind; [apply format_magnitude_raises|]. intros. raises_tac.
Qed.

Lemma byte_auto_display_raises (v : float) (label : string) :
  raises_only not_validation (byte_auto_display v label).
Proof.
  unfold byte_auto_display. generalize (abs v). generalize _BYTE_THRESHOLDS.
  intros table a. induction table as [|[[t u] l] table IH]; cbn [byte_display_from].
  - apply raises_only_bind; [apply format_magnitude_raises|]. intros. raises_tac.
  - destruct (t <=? a)%float; [|exact IH].
    apply raises_only_bind; [apply convert_raises|]. intros.
    apply raises_only_bind; [apply format_magnitude_raises|]. intros. raises_tac.
Qed.

Lemma target_display_raises (v : float) (target_unit label : string) :
  raises_only not_validation (target_display v target_unit label).
Proof.
  unfold target_display. destruct (dict_get _BYTE_UNITS (PyStr.lower target_unit)).
  - apply raises_only_bind; [apply convert_raises|]. intros.
    apply raises_only_bind; [apply format_magnitude_raises|]. intros. raises_tac.
  - apply raises_only_raise. reflexivity.
Qed.

Lemma display_of_raises (v : float) (d : option data_unit) (t : option time_unit)
  (target_unit rate : string) :
  raises_only not_validation (display_of v d t target_unit rate).
Proof.
  unfold display_of.
  destruct t, (rate_unit_of rate), d;
    repeat first
      [ apply byte_auto_display_raises | apply format_number_raises
      | apply target_display_raises | apply convert_raises
      | apply raises_only_bind; [|intros ?]
      | match goal with
        | |- raises_only _ (if ?b then _ else _) => destruct b
        end ].
Qed.

(** ** [evaluate]: validation, evaluation, then formatting *)

(** [evaluate] seen through the residual string and the unit tags. *)
Lemma evaluate_unfold (rt : PyEval.runtime) (e tu rate : string) :
  evaluate rt e tu rate =
  (magnitude <- _safe_eval rt (residual e) ;;
   display <- display_of magnitude (data_unit_of e) (time_unit_of e) tu rate ;;
   Ok {| expression := e; result_display := display; raw_value := magnitude |}).
Proof.
  unfold evaluate, residual, data_unit_of, time_unit_of.
  destruct (_parse_units (_preprocess_scale e)) as [[m d] t]. reflexivity.
Qed.

Lemma safe_eval_cases (rt : PyEval.runtime) (m : string) :
  (PyStr.is_empty (PyStr.strip m) = true
   /\ _safe_eval rt m = Raise (ValueError "Empty expression"))
  \/ (PyStr.is_empty (PyStr.strip m) = false
      /\ PyStr.forallb safe_char m = false
      /\ _safe_eval rt m =
         Raise (ValueError ("Invalid characters in expression: " ++ PyStr.strip m)))
  \/ (PyStr.is_empty (PyStr.strip m) = false
      /\ PyStr.forallb safe_char m = true
      /\ _safe_eval rt m = PyEval.float_eval rt (PyStr.strip m)).
Proof.
  unfold _safe_eval. rewrite safe_math_re_matches, forallb_safe_strip.
  destruct (PyStr.is_empty (PyStr.strip m)); [left; auto|right].
  destruct (PyStr.forallb safe_char m); [right|left]; auto.
Qed.

Lemma invalid_characters_is_validation (s : string) :
  is_validation_error (ValueError ("Invalid characters in expression: " ++ s)) = true.
Proof. cbn. destruct s; reflexivity. Qed.

Lemma evaluate_raise_inv (rt : PyEval.runtime) (e tu rate : string) (x : exn) :
  evaluate rt e tu rate = Raise x ->
  _safe_eval rt (residual e) = Raise x \/ is_validation_error x = false.
Proof.
  rewrite evaluate_unfold. intros H.
  destruct (_safe_eval rt (residual e)) as [v|y]; simpl in H.
  - right.
    match type of H with
    | bind (display_of v ?d ?t tu rate) _ = _ =>
        pose proof (display_of_raises v d t tu rate) as Hd;
        destruct (display_of v d t tu rate) as [disp|z] eqn:Hc
    end; simpl in H; [discriminate|].
    inversion H; subst z. specialize (Hd x eq_refl).
    unfold not_validation in Hd. destruct (is_validation_error x); [discriminate|auto].
  - left. congruence.
Qed.

(** C2, as amended: [evaluate] raises a ValidationError exactly when the
    residual arithmetic string is empty after trimming or holds a
    character outside the whitelist.  (The string "10 /" is neither: see
    [ten_slash_is_no_validation_error].) *)
Theorem validation_error_iff (rt : PyEval.runtime) (e tu rate : string) :
  (exists x, evaluate rt e tu rate = Raise x /\ is_validation_error x = true)
  <-> (PyStr.strip (residual e) = ""
       \/ PyStr.forallb safe_char (residual e) = false).
Proof.
  split.
  - intros (x & Hev & Hx).
    destruct (evaluate_raise_inv _ _ _ _ Hev) as [Hs|Hs]; [|congruence].
    destruct (safe_eval_cases rt (residual e)) as [[He _]|[(_ & Hc & _)|(_ & _ & Hf)]].
    + left. apply is_empty_true. exact He.
    + right. exact Hc.
    + rewrite Hf in Hs. apply float_eval_raises in Hs.
      apply arithmetic_not_validation in Hs. congruence.
  - intros H. rewrite evaluate_unfold.
    destruct (safe_eval_cases rt (residual e)) as [[He ->]|[(He & Hc & ->)|(He & Hc & _)]].
    + eexists. split; reflexivity.
    + eexists. split; [reflexivity|apply invalid_characters_is_validation].
    + destruct H as [H|H]; [|congruence].
      apply is_empty_true in H. congruence.
Qed.

(** C2, the counterexample to the claim as stated: the residual of
    "10 /" is "10 /", which is not empty and holds whitelisted
    characters only; [evaluate] raises the SyntaxError of [eval], which
    is no ValidationError. *)
Lemma ten_slash_is_no_validation_error :
  residual "10 /" = "10 /"
  /\ PyStr.is_empty (PyStr.strip "10 /") = false
  /\ PyStr.forallb safe_char "10 /" = true
  /\ (forall rt, evaluate rt "10 /" "auto" "none" = Raise SyntaxError)
  /\ is_validation_error SyntaxError = false.
Proof. repeat split. Qed.

(** C7: when the residual string passes validation and its evaluation
    fails, [evaluate] raises that very error, whatever the target unit
    and rate, and it is an ArithmeticError (an error of the evaluation,
    no ValidationError); when the evaluation succeeds its float is the
    magnitude and the raw value of every result.  A division by zero
    raises ZeroDivisionError, an unbalanced parenthesis SyntaxError. *)
Theorem evaluation_failure_is_arithmetic_error :
  (forall (rt : PyEval.runtime) (e tu rate : string) (x : exn),
      PyStr.is_empty (PyStr.strip (residual e)) = false ->
      PyStr.forallb safe_char (residual e) = true ->
      PyEval.float_eval rt (PyStr.strip (residual e)) = Raise x ->
      evaluate rt e tu rate = Raise x
      /\ is_arithmetic_error x = true /\ is_validation_error x = false)
  /\ (forall (rt : PyEval.runtime) (e tu rate : string) (v : float) (res : Result),
         PyStr.is_empty (PyStr.strip (residual e)) = false ->
         PyStr.forallb safe_char (residual e) = true ->
         PyEval.float_eval rt (PyStr.strip (residual e)) = Ok v ->
         evaluate rt e tu rate = Ok res ->
         raw_value res = v)
  /\ (forall rt tu rate, evaluate rt "1/0" tu rate = Raise ZeroDivisionError)
  /\ (forall rt tu rate, evaluate rt "10 / (5 - 5.0)" tu rate = Raise ZeroDivisionError)
  /\ (forall rt tu rate, evaluate rt "(1 + 2" tu rate = Raise SyntaxError)
  /\ (forall rt tu rate, evaluate rt "1 + 2)" tu rate = Raise SyntaxError).
Proof.
  split; [|split].
  - intros rt e tu rate x He Hc Hf.
    pose proof Hf as Hx. apply float_eval_raises in Hx.
    split; [|split; [exact Hx|apply arithmetic_not_validation; exact Hx]].
    rewrite evaluate_unfold.
    destruct (safe_eval_cases rt (residual e)) as [[H _]|[(_ & H & _)|(_ & _ & ->)]];
      try congruence.
    rewrite Hf. reflexivity.
  - intros rt e tu rate v res He Hc Hf. rewrite evaluate_unfold.
    destruct (safe_eval_cases rt (residual e)) as [[H _]|[(_ & H & _)|(_ & _ & ->)]];
      try congruence.
    rewrite Hf. cbn [bind].
    match goal with |- bind ?c _ = _ -> _ => destruct c end; cbn [bind]; intros H.
    + inversion H. reflexivity.
    + discriminate.
  - repeat split; intros; vm_compute; reflexivity.
Qed.

Lemma evaluation_failure_is_arithmetic_error_witness :
  evaluate PyEval.bare_runtime "7 / (3 - 3)" "MB" "/day" = Raise ZeroDivisionError
  /\ is_arithmetic_error ZeroDivisionError = true
  /\ is_validation_error ZeroDivisionError = false.
Proof.
  apply (proj1 evaluation_failure_is_arithmetic_error
           PyEval.bare_runtime "7 / (3 - 3)" "MB" "/day" ZeroDivisionError);
    reflexivity.
Defined.

Lemma evaluate_ok_inv (rt : PyEval.runtime) (e tu rate : string) (res : Result) :
  evaluate rt e tu rate = Ok res ->
  expression res = e /\ _safe_eval rt (residual e) = Ok (raw_value res).
Proof.
  rewrite evaluate_unfold.
  destruct (_safe_eval rt (residual e)) as [v|y]; cbn [bind]; [|discriminate].
  match goal with |- bind ?c _ = _ -> _ => destruct c end; cbn [bind]; intros H.
  - inversion H. auto.
  - discriminate.
Qed.

(** C8: a successful call returns the input expression unchanged in the
    [expression] field (for "30 billion * 500 bytes" that is not the
    preprocessed text), and its raw value is the magnitude of the
    residual string: two successful calls on one expression agree on
    both fields whatever their target units and rates. *)
Theorem expression_and_raw_value_ignore_unit_and_rate :
  (forall (rt : PyEval.runtime) (e tu1 rate1 tu2 rate2 : string) (res1 res2 : Result),
      evaluate rt e tu1 rate1 = Ok res1 ->
      evaluate rt e tu2 rate2 = Ok res2 ->
      expression res1 = e /\ expression res2 = e
      /\ raw_value res1 = raw_value res2)
  /\ String.eqb (_preprocess_scale "30 billion * 500 bytes")
                "30 billion * 500 bytes" = false.
Proof.
  split; [|reflexivity].
  intros rt e tu1 rate1 tu2 rate2 res1 res2 H1 H2.
  apply evaluate_ok_inv in H1. apply evaluate_ok_inv in H2.
  destruct H1 as [E1 S1], H2 as [E2 S2].
  repeat split; auto. congruence.
Qed.

Lemma expression_and_raw_value_ignore_unit_and_rate_witness :
  expression {| expression := "30 billion * 500 bytes";
                result_display := "15 TB";
                raw_value := 1.5e13 |} = "30 billion * 500 bytes"
  /\ expression {| expression := "30 billion * 500 bytes";
                   result_display := "15000 GB/s";
                   raw_value := 1.5e13 |} = "30 billion * 500 bytes"
  /\ raw_value {| expression := "30 billion * 500 bytes";
                  result_display := "15 TB";
                  raw_value := 1.5e13 |}
     = raw_value {| expression := "30 billion * 500 bytes";
                    result_display := "15000 GB/s";
                    raw_value := 1.5e13 |}.
Proof.
  apply (proj1 expression_and_raw_value_ignore_unit_and_rate
           PyEval.bare_runtime "30 billion * 500 bytes" "auto" "none" "GB" "/s");
    reflexivity.
Defined.

(** ** The rate as a label *)

Lemma byte_auto_display_label (v : float) (label : string) :
  byte_auto_display v label = (s <- byte_auto_display v "" ;; Ok (s ++ label)).
Proof.
  unfold byte_auto_display. generalize (abs v). generalize _BYTE_THRESHOLDS.
  intros table a. induction table as [|[[t u] l] table IH]; cbn [byte_display_from].
  - destruct (_format_magnitude v); cbn [bind]; [|reflexivity].
    rewrite append_assoc. reflexivity.
  - destruct (t <=? a)%float; [|exact IH].
    destruct (Pint.convert v (Some byte, None) (Some u, None)); cbn [bind];
      [|reflexivity].
    destruct (_format_magnitude a0); cbn [bind]; [|reflexivity].
    rewrite append_nil_r, !append_assoc. reflexivity.
Qed.

Lemma target_display_label (v : float) (tu label : string) :
  target_display v tu label = (s <- target_display v tu "" ;; Ok (s ++ label)).
Proof.
  unfold target_display. destruct (dict_get _BYTE_UNITS (PyStr.lower tu));
    [|reflexivity].
  destruct (Pint.convert v (Some byte, None) (Some d, None)); cbn [bind];
    [|reflexivity].
  destruct (_format_magnitude a); cbn [bind]; [|reflexivity].
  rewrite append_nil_r, !append_assoc. reflexivity.
Qed.

Lemma display_of_label (v : float) (d : data_unit) (tu rate : string) :
  rate <> "none" ->
  display_of v (Some d) None tu rate =
  (s <- display_of v (Some d) None tu "none" ;; Ok (s ++ rate)).
Proof.
  intros Hrate. apply String.eqb_neq in Hrate.
  unfold display_of. rewrite Hrate.
  change (String.eqb "none" "none") with true.
  change (rate_unit_of "none") with (@None time_unit).
  destruct (rate_unit_of rate); cbv iota;
    (destruct (Pint.convert v (Some d, None) (Some byte, None)) as [b|y];
     cbn [bind]; [|reflexivity];
     destruct (is_concrete_target tu);
     [apply target_display_label | apply byte_auto_display_label]).
Qed.

(** C9: with a data unit and no time divisor in the expression, a rate
    other than "none" converts nothing: the call fails as the call with
    rate "none" does, or returns its result with the rate string
    appended to the display; [evaluate("5 MB", rate="/s")] displays
    "5 MB/s" next to "5 MB", with the same raw value. *)
Theorem rate_without_time_divisor_is_a_label :
  (forall (rt : PyEval.runtime) (e tu rate : string) (d : data_unit),
      rate <> "none" ->
      data_unit_of e = Some d ->
      time_unit_of e = None ->
      evaluate rt e tu rate =
      match evaluate rt e tu "none" with
      | Ok r => Ok {| expression := expression r;
                      result_display := result_display r ++ rate;
                      raw_value := raw_value r |}
      | Raise x => Raise x
      end)
  /\ (forall rt, evaluate rt "5 MB" "auto" "/s" =
                 Ok {| expression := "5 MB"; result_display := "5 MB/s";
                       raw_value := 5 |})
  /\ (forall rt, evaluate rt "5 MB" "auto" "none" =
                 Ok {| expression := "5 MB"; result_display := "5 MB";
                       raw_value := 5 |}).
Proof.
  split; [|split; intros; vm_compute; reflexivity].
  intros rt e tu rate d Hrate Hd Ht. rewrite !evaluate_unfold, Hd, Ht.
  destruct (_safe_eval rt (residual e)) as [v|y]; cbn [bind]; [|reflexivity].
  rewrite (display_of_label v d tu Hrate).
  destruct (display_of v (Some d) None tu "none"); reflexivity.
Qed.

Lemma rate_without_time_divisor_is_a_label_witness :
  evaluate PyEval.bare_runtime "5 MB" "auto" "/s" =
  match evaluate PyEval.bare_runtime "5 MB" "auto" "none" with
  | Ok r => Ok {| expression := expression r;
                  result_display := result_display r ++ "/s";
                  raw_value := raw_value r |}
  | Raise x => Raise x
  end.
Proof.
  apply (proj1 rate_without_time_divisor_is_a_label
           PyEval.bare_runtime "5 MB" "auto" "/s" megabyte);
    [discriminate | reflexivity | reflexivity].
Defined.

(** ** The target unit *)

(** C4, as amended: when the target unit is neither "auto" nor "none"
    nor, in lower case, a key of the byte-unit table, and the expression
    has no time divisor and a residual string that evaluates, [evaluate]
    raises the UnknownUnitError that names the target unit; so does
    [evaluate("1 + 1", target_unit="XB")] at every rate. *)
Theorem unknown_target_unit_raises :
  (forall (rt : PyEval.runtime) (e tu rate : string) (v : float),
      is_concrete_target tu = true ->
      dict_get _BYTE_UNITS (PyStr.lower tu) = None ->
      time_unit_of e = None ->
      _safe_eval rt (residual e) = Ok v ->
      evaluate rt e tu rate = Raise (unknown_unit_error tu))
  /\ (forall rt rate,
         evaluate rt "1 + 1" "XB" rate = Raise (ValueError "Unknown target unit: XB")).
Proof.
  split.
  - intros rt e tu rate v Htu Hget Ht Hv.
    rewrite evaluate_unfold, Hv, Ht. cbn [bind].
    unfold display_of. rewrite Htu.
    assert (Htd : forall b l, target_display b tu l = Raise (unknown_unit_error tu)).
    { intros b l. unfold target_display. rewrite Hget. reflexivity. }
    destruct (data_unit_of e) as [d|].
    + destruct (rate_unit_of rate); cbv iota;
        (change (Pint.convert v (Some d, None) (Some byte, None))
           with (Ok (v * (Pint.multiplier (Some d, None)
                          / Pint.multiplier (Some byte, None)))%float);
         cbn [bind]; rewrite Htd; reflexivity).
    + destruct (rate_unit_of rate); cbv iota; rewrite Htd; reflexivity.
  - intros rt rate. rewrite evaluate_unfold.
    change (_safe_eval rt (residual "1 + 1")) with (@Ok float 2%float).
    change (data_unit_of "1 + 1") with (@None data_unit).
    change (time_unit_of "1 + 1") with (@None time_unit).
    cbn [bind]. unfold display_of.
    destruct (rate_unit_of rate); reflexivity.
Qed.

Lemma unknown_target_unit_raises_witness :
  evaluate PyEval.bare_runtime "3 GB" "XB" "/s" = Raise (unknown_unit_error "XB").
Proof.
  apply (proj1 unknown_target_unit_raises
           PyEval.bare_runtime "3 GB" "XB" "/s" 3%float);
    reflexivity.
Defined.

(** C4, the counterexample to the claim as stated: with a time divisor
    in the expression the target unit is not looked at, and the call
    with the unknown unit "XB" succeeds. *)
Lemma unknown_target_unit_ignored_with_time_divisor :
  is_concrete_target "XB" = true
  /\ dict_get _BYTE_UNITS (PyStr.lower "XB") = None
  /\ (forall rt,
         evaluate rt "500 million / month" "XB" "none" =
         Ok {| expression := "500 million / month";
               result_display := "~193/s";
               raw_value := 500000000 |})
  /\ (forall rt,
         evaluate rt "5 MB / s" "XB" "/min" =
         Ok {| expression := "5 MB / s";
               result_display := "300 MB/min";
               raw_value := 5 |}).
Proof. repeat split; intros; vm_compute; reflexivity. Qed.

(** ** Worked examples of the specification *)



(** C1: [evaluate("30 billion * 500 bytes")] with the default target
    unit and rate has raw value 1.5e13 and displays "15 TB": the
    preprocessed text is "30 * 1e9 * 500 bytes", the magnitude lies
    under the petabyte threshold and reaches the terabyte one. *)
Theorem thirty_billion_times_500_bytes :
  (forall rt,
      evaluate rt "30 billion * 500 bytes" "auto" "none" =
      Ok {| expression := "30 billion * 500 bytes";
            result_display := "15 TB";
            raw_value := 1.5e13 |})
  /\ _preprocess_scale "30 billion * 500 bytes" = "30 * 1e9 * 500 bytes"
  /\ _parse_units "30 * 1e9 * 500 bytes" = ("30 * 1e9 * 500", Some byte, None)
  /\ (1e15 <=? abs 1.5e13)%float = false
  /\ (1e12 <=? abs 1.5e13)%float = true
  /\ nth_error _BYTE_THRESHOLDS 1 = Some (1e12%float, terabyte, "TB").
Proof. repeat split; intros; vm_compute; reflexivity. Qed.

(** C10: the whitelist lets [**] through: "2**10" holds whitelisted
    characters only, passes [_SAFE_MATH_RE], parses as a power and
    evaluates to 1024.0. *)
Theorem whitelist_admits_exponentiation :
  PyStr.forallb safe_char "2**10" = true
  /\ matches _SAFE_MATH_RE "2**10" = true
  /\ PyEval.parse_string "2**10"
     = Some (PyEval.BinOp PyEval.Pow (PyEval.Num (PyEval.NInt 2))
                                       (PyEval.Num (PyEval.NInt 10)))
  /\ (forall rt, _safe_eval rt "2**10" = Ok 1024%float)
  /\ (forall rt, exists display,
         evaluate rt "2**10" "auto" "none" =
         Ok {| expression := "2**10"; result_display := display;
               raw_value := 1024 |}).
Proof.
  repeat split; intros; try (vm_compute; reflexivity).
  eexists. vm_compute. reflexivity.
Qed.

(** ** Byte thresholds *)

(** A float below [m1 * 2^e1] does not reach a threshold [mt * 2^et]
    that is at least as large (both written with 53-bit mantissas). *)
Lemma SF_below_threshold (m1 mt : positive) (e1 et : Z) (x : spec_float) :
  (e1 < et \/ (e1 = et /\ (m1 <= mt)%positive))%Z ->
  SFltb x (S754_finite false m1 e1) = true ->
  SFleb (S754_finite false mt et) x = false.
Proof.
  intros Hle. unfold SFltb, SFleb, SFcompare.
  destruct x as [s|s| |s m e]; try destruct s; try discriminate; try reflexivity.
  destruct (Z.compare_spec e e1) as [He|He|He]; try discriminate.
  - subst e. intros Hm.
    destruct (Pos.compare_cont Eq m m1) eqn:Hc; try discriminate.
    assert (Hmlt : (m < m1)%positive) by exact Hc.
    destruct Hle as [Hlt|[-> Hmm]].
    + apply Z.compare_gt_iff in Hlt. rewrite Hlt. reflexivity.
    + rewrite Z.compare_refl.
      change (Pos.compare_cont Eq mt m) with (mt ?= m)%positive.
      assert (Hgt : (mt ?= m)%positive = Gt) by (apply Pos.compare_gt_iff; lia).
      rewrite Hgt. reflexivity.
  - intros _.
    assert (Hgt : (et ?= e)%Z = Gt) by (apply Z.compare_gt_iff; lia).
    rewrite Hgt. reflexivity.
Qed.

Lemma below_one_below_thresholds (x : float) (row : float * data_unit * string) :
  In row _BYTE_THRESHOLDS ->
  (x <? 1)%float = true -> (fst (fst row) <=? x)%float = false.
Proof.
  intros Hin Hx. rewrite FloatAxioms.ltb_spec in Hx. rewrite FloatAxioms.leb_spec.
  let one := eval vm_compute in (Prim2SF 1%float) in
  change (Prim2SF 1%float) with one in Hx.
  simpl in Hin.
  repeat (destruct Hin as [<-|Hin];
    [ cbn [fst];
      match goal with
      | |- SFleb (Prim2SF ?t) _ = _ =>
          let v := eval vm_compute in (Prim2SF t) in change (Prim2SF t) with v
      end;
      eapply SF_below_threshold; [|exact Hx]; compute; intuition congruence
    | ]).
  contradiction.
Qed.

Lemma byte_display_first_match
  (pre post : list (float * data_unit * string))
  (t : float) (u : data_unit) (l : string) (v a : float) (label : string) :
  (forall row, In row pre -> (fst (fst row) <=? a)%float = false) ->
  (t <=? a)%float = true ->
  byte_display_from (pre ++ (t, u, l) :: post)%list v a label =
  (converted <- Pint.convert v (Some byte, None) (Some u, None) ;;
   formatted <- _format_magnitude converted ;;
   Ok (formatted ++ " " ++ l ++ label)).
Proof.
  intros Hpre Ht. induction pre as [|[[t' u'] l'] pre IH]; cbn [app byte_display_from].
  - rewrite Ht. reflexivity.
  - pose proof (Hpre (t', u', l') (or_introl eq_refl)) as Hrow'.
    cbn [fst] in Hrow'. rewrite Hrow'. apply IH.
    intros row Hrow. apply Hpre. right. exact Hrow.
Qed.

Lemma byte_display_fall_through
  (table : list (float * data_unit * string)) (v a : float) (label : string) :
  (forall row, In row table -> (fst (fst row) <=? a)%float = false) ->
  byte_display_from table v a label =
  (formatted <- _format_magnitude v ;; Ok (formatted ++ " bytes" ++ label)).
Proof.
  intros Hall. induction table as [|[[t u] l] table IH]; cbn [byte_display_from].
  - reflexivity.
  - pose proof (Hall (t, u, l) (or_introl eq_refl)) as Hrow'.
    cbn [fst] in Hrow'. rewrite Hrow'. apply IH.
    intros row Hrow. apply Hall. right. exact Hrow.
Qed.

(** C3, as amended: in byte auto-selection the thresholds are strictly
    descending and the first row whose threshold the absolute value of
    the magnitude reaches decides the unit; a magnitude below 1 in
    absolute value, zero included, reaches none and is shown in "bytes"
    without conversion.  (A value below 1 whose absolute value is not
    does reach a row: see [negative_bytes_reach_a_threshold].)  With a data unit,
    no time divisor and the target unit "auto" or "none", that selection
    is the display of [evaluate].  So 1000 bytes display "1 KB", not
    "1000 bytes", and 0 bytes display "0 bytes". *)
Theorem byte_thresholds_first_match :
  strictly_descending (map (fun row => fst (fst row)) _BYTE_THRESHOLDS) = true
  /\ (forall (pre post : list (float * data_unit * string))
             (t : float) (u : data_unit) (l : string) (v : float) (label : string),
         _BYTE_THRESHOLDS = (pre ++ (t, u, l) :: post)%list ->
         (forall row, In row pre -> (fst (fst row) <=? abs v)%float = false) ->
         (t <=? abs v)%float = true ->
         byte_auto_display v label =
         (converted <- Pint.convert v (Some byte, None) (Some u, None) ;;
          formatted <- _format_magnitude converted ;;
          Ok (formatted ++ " " ++ l ++ label)))
  /\ (forall (v : float) (label : string),
         (abs v <? 1)%float = true ->
         byte_auto_display v label =
         (formatted <- _format_magnitude v ;; Ok (formatted ++ " bytes" ++ label)))
  /\ (forall (rt : PyEval.runtime) (e target_unit rate : string) (d : data_unit),
         target_unit = "auto" \/ target_unit = "none" ->
         data_unit_of e = Some d ->
         time_unit_of e = None ->
         evaluate rt e target_unit rate =
         (magnitude <- _safe_eval rt (residual e) ;;
          value_in_bytes <-
            Pint.convert magnitude (Some d, None) (Some byte, None) ;;
          display <- byte_auto_display value_in_bytes
                       (if String.eqb rate "none" then "" else rate) ;;
          Ok {| expression := e; result_display := display;
                raw_value := magnitude |}))
  /\ (forall rt target_unit,
         target_unit = "auto" \/ target_unit = "none" ->
         evaluate rt "1000 bytes" target_unit "none" =
         Ok {| expression := "1000 bytes"; result_display := "1 KB";
               raw_value := 1000 |})
  /\ (forall rt target_unit,
         target_unit = "auto" \/ target_unit = "none" ->
         evaluate rt "0 bytes" target_unit "none" =
         Ok {| expression := "0 bytes"; result_display := "0 bytes";
               raw_value := 0 |})
  /\ (forall rt,
         evaluate rt "0.25 bytes" "auto" "none" =
         Ok {| expression := "0.25 bytes"; result_display := "~0.2 bytes";
               raw_value := 0.25 |}).
Proof.
  split; [reflexivity|]. split; [|split].
  - intros pre post t u l v label Htable Hpre Ht.
    unfold byte_auto_display. rewrite Htable.
    apply byte_display_first_match; assumption.
  - intros v label Hv. unfold byte_auto_display.
    apply byte_display_fall_through.
    intros row Hrow. apply below_one_below_thresholds; assumption.
  - split.
    + intros rt e tu rate d Htu Hd Ht. rewrite evaluate_unfold, Hd, Ht.
      destruct (_safe_eval rt (residual e)) as [v|y]; cbn [bind]; [|reflexivity].
      unfold display_of.
      assert (Hc : is_concrete_target tu = false) by (destruct Htu; subst; reflexivity).
      rewrite Hc.
      destruct (rate_unit_of rate); cbv iota;
        destruct (Pint.convert v (Some d, None) (Some byte, None)); reflexivity.
    + repeat split; intros; try (destruct H; subst); vm_compute; reflexivity.
Qed.

Lemma byte_thresholds_first_match_witness :
  byte_auto_display 1000 "" =
  (converted <- Pint.convert 1000 (Some byte, None) (Some kilobyte, None) ;;
   formatted <- _format_magnitude converted ;;
   Ok (formatted ++ " " ++ "KB" ++ ""))
  /\ byte_auto_display 0 "" =
     (formatted <- _format_magnitude 0 ;; Ok (formatted ++ " bytes" ++ "")).
Proof.
  split.
  - apply (proj1 (proj2 byte_thresholds_first_match)
             [ (1e15%float, petabyte, "PB"); (1e12%float, terabyte, "TB");
               (1e9%float, gigabyte, "GB"); (1e6%float, megabyte, "MB") ]
             [ (1%float, byte, "bytes") ] 1e3%float kilobyte "KB").
    + reflexivity.
    + intros row [<-|[<-|[<-|[<-|[]]]]]; reflexivity.
    + reflexivity.
  - apply (proj1 (proj2 (proj2 byte_thresholds_first_match))). reflexivity.
Defined.

(** C3, the counterexample to the claim as stated: the rows are compared
    with [abs(value)] (lines 221-223), so a value below 1 falls through
    only when its absolute value is below 1.  The magnitude -5000 is
    below 1, reaches the kilobyte row and is converted: "-5000 bytes"
    displays "-5 KB", not "-5000 bytes". *)
Lemma negative_bytes_reach_a_threshold :
  (-5000 <? 1)%float = true
  /\ (abs (-5000) <? 1)%float = false
  /\ data_unit_of "-5000 bytes" = Some byte
  /\ time_unit_of "-5000 bytes" = None
  /\ byte_auto_display (-5000) "" = Ok "-5 KB"
  /\ byte_auto_display (-5000) ""
     <> (formatted <- _format_magnitude (-5000) ;; Ok (formatted ++ " bytes" ++ ""))
  /\ (forall rt target_unit,
         target_unit = "auto" \/ target_unit = "none" ->
         evaluate rt "-5000 bytes" target_unit "none" =
         Ok {| expression := "-5000 bytes"; result_display := "-5 KB";
               raw_value := -5000 |}).
Proof.
  split; [reflexivity|]. split; [reflexivity|].
  split; [vm_compute; reflexivity|]. split; [vm_compute; reflexivity|].
  split; [vm_compute; reflexivity|]. split.
  - vm_compute. discriminate.
  - intros rt target_unit [-> | ->]; vm_compute; reflexivity.
Qed.

(** ** Expressions without a power do not depend on the runtime *)

Section PowFree.
Variables rt rt' : PyEval.runtime.

Lemma same_of_int (z : Z) (f : float -> pyres (PyEval.value rt))
  (f' : float -> pyres (PyEval.value rt')) :
  (forall x, PyEval.same_result (f x) (f' x)) ->
  PyEval.same_result (bind (PyFloat.of_int z) f) (bind (PyFloat.of_int z) f').
Proof.
  intros H. destruct (PyFloat.of_int z); cbn [bind]; [apply H|reflexivity].
Qed.

Lemma same_float_binop (o : PyEval.binop) (x y : float) :
  o <> PyEval.Pow ->
  PyEval.same_result (PyEval.float_binop rt o x y) (PyEval.float_binop rt' o x y).
Proof.
  intros Ho. destruct o; try congruence; cbn [PyEval.float_binop];
    try destruct (y =? 0)%float; reflexivity.
Qed.

Lemma same_int_binop (o : PyEval.binop) (x y : Z) :
  o <> PyEval.Pow ->
  PyEval.same_result (PyEval.int_binop rt o x y) (PyEval.int_binop rt' o x y).
Proof.
  intros Ho. destruct o; try congruence; cbn [PyEval.int_binop];
    try destruct (y =? 0)%Z; try reflexivity.
  destruct (PyFloat.int_true_div x y); reflexivity.
Qed.

Lemma same_binary (o : PyEval.binop) (a b : PyEval.value rt)
  (a' b' : PyEval.value rt') :
  o <> PyEval.Pow ->
  PyEval.same_value a a' -> PyEval.same_value b b' ->
  PyEval.same_result (PyEval.binary rt o a b) (PyEval.binary rt' o a' b').
Proof.
  intros Ho Ha Hb.
  destruct a, a'; try contradiction; destruct b, b'; try contradiction;
    cbn [PyEval.same_value] in Ha, Hb; subst; cbn [PyEval.binary];
    try apply same_int_binop; try apply same_float_binop;
    try (apply same_of_int; intros; apply same_float_binop); try assumption;
    try reflexivity;
    destruct o; cbn [PyEval.repeat_empty]; try reflexivity;
    destruct (PyEval.fits_index _); reflexivity.
Qed.

Lemma same_unary (u : PyEval.unop) (a : PyEval.value rt) (a' : PyEval.value rt') :
  PyEval.same_value a a' ->
  PyEval.same_result (PyEval.unary rt u a) (PyEval.unary rt' u a').
Proof.
  intros Ha. destruct a, a'; try contradiction; cbn [PyEval.same_value] in Ha;
    subst; destruct u; reflexivity.
Qed.

Lemma same_bind (r : pyres (PyEval.value rt)) (r' : pyres (PyEval.value rt'))
  (f : PyEval.value rt -> pyres (PyEval.value rt))
  (f' : PyEval.value rt' -> pyres (PyEval.value rt')) :
  PyEval.same_result r r' ->
  (forall v v', PyEval.same_value v v' -> PyEval.same_result (f v) (f' v')) ->
  PyEval.same_result (bind r f) (bind r' f').
Proof.
  intros Hr Hf. destruct r, r'; cbn [PyEval.same_result bind] in *;
    try contradiction; auto.
Qed.

Lemma eval_expr_pow_free (e : PyEval.expr) :
  PyEval.pow_free e = true ->
  PyEval.same_result (PyEval.eval_expr rt e) (PyEval.eval_expr rt' e).
Proof.
  induction e as [n| | | |u e IH|o l IHl r IHr|e IH|f IHf|f IHf k a IHa];
    cbn [PyEval.eval_expr PyEval.pow_free]; intros Hfree.
  - destruct n; reflexivity.
  - reflexivity.
  - exact I.
  - exact I.
  - apply same_bind; [auto|]. intros. apply same_unary. assumption.
  - assert (Ho : o <> PyEval.Pow) by (destruct o; congruence).
    assert (Hlr : PyEval.pow_free l = true /\ PyEval.pow_free r = true)
      by (destruct o; try congruence; apply andb_prop; assumption).
    apply same_bind; [tauto|]. intros.
    apply same_bind; [tauto|]. intros. apply same_binary; assumption.
  - apply same_bind; [auto|]. reflexivity.
  - apply same_bind; [auto|]. reflexivity.
  - apply andb_prop in Hfree. apply same_bind; [tauto|]. intros.
    apply same_bind; [tauto|]. reflexivity.
Qed.

(** Without [**] in the expression, [float(eval(s))] is the same in
    every runtime. *)
Lemma float_eval_pow_free (s : string) (e : PyEval.expr) :
  PyEval.parse_string s = Some e ->
  PyEval.pow_free e = true ->
  PyEval.float_eval rt s = PyEval.float_eval rt' s.
Proof.
  intros Hs Hfree. unfold PyEval.float_eval. rewrite Hs.
  pose proof (eval_expr_pow_free e Hfree) as H.
  destruct (PyEval.eval_expr rt e) as [v|x], (PyEval.eval_expr rt' e) as [v'|x'];
    cbn [PyEval.same_result] in H; try contradiction; cbn [bind].
  - destruct v, v'; try contradiction; cbn [PyEval.same_value] in H; subst;
      reflexivity.
  - congruence.
Qed.
End PowFree.

(* ================================================================= *)
(** * Further properties of the code *)

(** ** Surrounding whitespace *)

Lemma lstrip_by_head (p : ascii -> bool) (s : string) :
  match PyStr.lstrip_by p s with
  | String c _ => p c = false
  | EmptyString => True
  end.
Proof.
  induction s as [|c s IH]; cbn [PyStr.lstrip_by]; [exact I|].
  destruct (p c) eqn:Hc; [exact IH|exact Hc].
Qed.

Lemma rstrip_by_idem (p : ascii -> bool) (s : string) :
  PyStr.rstrip_by p (PyStr.rstrip_by p s) = PyStr.rstrip_by p s.
Proof.
  induction s as [|c s IH]; [reflexivity|]. cbn [PyStr.rstrip_by].
  destruct (PyStr.is_empty (PyStr.rstrip_by p s) && p c) eqn:Hc; [reflexivity|].
  cbn [PyStr.rstrip_by]. rewrite IH, Hc. reflexivity.
Qed.

Lemma lstrip_rstrip (p : ascii -> bool) (t : string) :
  match t with String c _ => p c = false | EmptyString => True end ->
  PyStr.lstrip_by p (PyStr.rstrip_by p t) = PyStr.rstrip_by p t.
Proof.
  destruct t as [|c t]; [reflexivity|]. intros Hc. cbn [PyStr.rstrip_by].
  rewrite Hc, andb_false_r. cbn [PyStr.lstrip_by]. rewrite Hc. reflexivity.
Qed.

Lemma strip_idem (s : string) : PyStr.strip (PyStr.strip s) = PyStr.strip s.
Proof.
  unfold PyStr.strip.
  rewrite (lstrip_rstrip PyStr.is_space _ (lstrip_by_head PyStr.is_space s)).
  apply rstrip_by_idem.
Qed.

Lemma preprocess_strip (e : string) :
  _preprocess_scale (PyStr.strip e) = _preprocess_scale e.
Proof. unfold _preprocess_scale. rewrite strip_idem. reflexivity. Qed.

(** X1: whitespace around the expression changes nothing but the
    [expression] field: the call on [e] fails as the call on [e.strip()]
    does, or returns its display and its raw value under the text [e]. *)
Theorem evaluate_ignores_surrounding_whitespace
  (rt : PyEval.runtime) (e tu rate : string) :
  evaluate rt e tu rate = with_expression e (evaluate rt (PyStr.strip e) tu rate).
Proof.
  rewrite !evaluate_unfold.
  unfold residual, data_unit_of, time_unit_of. rewrite preprocess_strip.
  destruct (_safe_eval rt _) as [v|x]; cbn [bind with_expression]; [|reflexivity].
  destruct (display_of v _ _ tu rate); reflexivity.
Qed.

(** ** Rates and target units beyond the claims *)

Lemma format_number_label (v : float) (label : string) :
  _format_number v label = (s <- _format_number v "" ;; Ok (s ++ label)).
Proof.
  unfold _format_number. generalize (abs v). generalize _NUMBER_THRESHOLDS.
  intros table a. induction table as [|[t suffix] table IH];
    cbn [format_number_from].
  - destruct (_format_magnitude v); cbn [bind]; [|reflexivity].
    rewrite append_nil_r. reflexivity.
  - destruct (t <=? a)%float; [|exact IH].
    destruct (_format_magnitude (v / t)); cbn [bind]; [|reflexivity].
    rewrite append_nil_r, !append_assoc. reflexivity.
Qed.

Lemma display_of_number_label (v : float) (tu rate : string) :
  rate <> "none" ->
  display_of v None None tu rate =
  (s <- display_of v None None tu "none" ;; Ok (s ++ rate)).
Proof.
  intros Hrate. apply String.eqb_neq in Hrate.
  unfold display_of. rewrite Hrate.
  change (String.eqb "none" "none") with true.
  change (rate_unit_of "none") with (@None time_unit).
  destruct (rate_unit_of rate); cbv iota;
    (destruct (is_concrete_target tu);
     [apply target_display_label | apply format_number_label]).
Qed.

(** X2: without a time divisor in the expression the rate is only a
    label, for a pure number as for a byte quantity and for any rate
    string other than "none" (a selector or not): the call fails as the
    call with rate "none" does, or returns its result with the rate
    appended to the display. *)
Theorem rate_is_a_label_without_time_divisor
  (rt : PyEval.runtime) (e tu rate : string) :
  rate <> "none" ->
  time_unit_of e = None ->
  evaluate rt e tu rate = with_label rate (evaluate rt e tu "none").
Proof.
  intros Hrate Ht. rewrite !evaluate_unfold, Ht.
  destruct (_safe_eval rt (residual e)) as [v|y]; cbn [bind with_label];
    [|reflexivity].
  destruct (data_unit_of e) as [d|].
  - rewrite (display_of_label v d tu Hrate).
    destruct (display_of v (Some d) None tu "none"); reflexivity.
  - rewrite (display_of_number_label v tu Hrate).
    destruct (display_of v None None tu "none"); reflexivity.
Qed.

Lemma rate_is_a_label_without_time_divisor_witness :
  evaluate PyEval.bare_runtime "2500 * 4" "auto" "/week"
  = with_label "/week" (evaluate PyEval.bare_runtime "2500 * 4" "auto" "none")
  /\ evaluate PyEval.bare_runtime "2500 * 4" "auto" "/week"
     = Ok {| expression := "2500 * 4"; result_display := "10K/week";
             raw_value := 10000 |}.
Proof.
  split; [|reflexivity].
  apply rate_is_a_label_without_time_divisor; [discriminate|reflexivity].
Defined.

(** X3: with a time divisor and no data unit, a rate that is not one of
    the six selectors of [_RATE_UNITS] is treated as "none": the count
    is shown per second and the rate string does not appear. *)
Theorem unknown_rate_falls_back_to_per_second
  (rt : PyEval.runtime) (e tu rate : string) (t : time_unit) :
  is_known_rate rate = false ->
  data_unit_of e = None ->
  time_unit_of e = Some t ->
  evaluate rt e tu rate = evaluate rt e tu "none".
Proof.
  intros Hrate Hd Ht. rewrite !evaluate_unfold, Hd, Ht.
  destruct (_safe_eval rt (residual e)) as [v|y]; cbn [bind]; [|reflexivity].
  unfold display_of. unfold is_known_rate in Hrate.
  change (rate_unit_of "none") with (@None time_unit).
  destruct (rate_unit_of rate); [discriminate|reflexivity].
Qed.

Lemma unknown_rate_falls_back_to_per_second_witness :
  evaluate PyEval.bare_runtime "500 million / month" "auto" "/week"
  = evaluate PyEval.bare_runtime "500 million / month" "auto" "none"
  /\ evaluate PyEval.bare_runtime "500 million / month" "auto" "/week"
     = Ok {| expression := "500 million / month"; result_display := "~193/s";
             raw_value := 500000000 |}.
Proof.
  split; [|reflexivity].
  apply (@unknown_rate_falls_back_to_per_second
           PyEval.bare_runtime "500 million / month" "auto" "/week" month);
    reflexivity.
Defined.

(** X4: with a time divisor in the expression and one of the six rate
    selectors, the target unit is never read: two calls that differ only
    in the target unit return the same result or raise the same error,
    whether the target unit is known or not. *)
Theorem target_unit_is_ignored_on_rate_conversion
  (rt : PyEval.runtime) (e tu1 tu2 rate : string) (t : time_unit) :
  is_known_rate rate = true ->
  time_unit_of e = Some t ->
  evaluate rt e tu1 rate = evaluate rt e tu2 rate.
Proof.
  intros Hrate Ht. rewrite !evaluate_unfold, Ht.
  destruct (_safe_eval rt (residual e)) as [v|y]; cbn [bind]; [|reflexivity].
  unfold display_of. unfold is_known_rate in Hrate.
  destruct (rate_unit_of rate) as [r|]; [|discriminate].
  destruct (data_unit_of e); reflexivity.
Qed.

Lemma target_unit_is_ignored_on_rate_conversion_witness :
  evaluate PyEval.bare_runtime "5 MB / s" "XB" "/min"
  = evaluate PyEval.bare_runtime "5 MB / s" "KB" "/min"
  /\ evaluate PyEval.bare_runtime "5 MB / s" "XB" "/min"
     = Ok {| expression := "5 MB / s"; result_display := "300 MB/min";
             raw_value := 5 |}.
Proof.
  split; [|reflexivity].
  apply (@target_unit_is_ignored_on_rate_conversion
           PyEval.bare_runtime "5 MB / s" "XB" "KB" "/min" second);
    reflexivity.
Defined.

(** ** What [evaluate] can raise *)

Lemma bind_raise_inv {A B : Type} (c : pyres A) (f : A -> pyres B) (x : exn) :
  bind c f = Raise x -> c = Raise x \/ exists a, c = Ok a /\ f a = Raise x.
Proof.
  destruct c as [a|e]; cbn [bind]; intros H.
  - right. eauto.
  - left. inversion H. reflexivity.
Qed.

Lemma format_error_cases (x : exn) :
  is_format_error x = true ->
  x = ValueError "cannot convert float NaN to integer" \/ x = OverflowError.
Proof.
  destruct x; cbn [is_format_error]; try discriminate; auto.
  intros H. apply String.eqb_eq in H. subst. auto.
Qed.

Lemma format_magnitude_format_error (v : float) :
  raises_only is_format_error (_format_magnitude v).
Proof.
  unfold _format_magnitude, PyFloat.round_int, PyFloat.sub_int, PyFloat.of_int.
  raises_tac.
Qed.

Lemma format_number_format_error (v : float) (rate : string) :
  raises_only is_format_error (_format_number v rate).
Proof.
  unfold _format_number. generalize (abs v). generalize _NUMBER_THRESHOLDS.
  intros table a. induction table as [|[t suffix] table IH]; cbn [format_number_from].
  - apply raises_only_bind; [apply format_magnitude_format_error|]. intros. raises_tac.
  - destruct (t <=? a)%float; [|exact IH].
    apply raises_only_bind; [apply format_magnitude_format_error|]. intros. raises_tac.
Qed.

Lemma byte_convert_ok (v : float) (u w : data_unit) :
  exists c, Pint.convert v (Some u, None) (Some w, None) = Ok c.
Proof. eexists. reflexivity. Qed.

Lemma byte_auto_display_format_error (v : float) (label : string) :
  raises_only is_format_error (byte_auto_display v label).
Proof.
  unfold byte_auto_display. generalize (abs v). generalize _BYTE_THRESHOLDS.
  intros table a. induction table as [|[[t u] l] table IH]; cbn [byte_display_from].
  - apply raises_only_bind; [apply format_magnitude_format_error|]. intros. raises_tac.
  - destruct (t <=? a)%float; [|exact IH].
    destruct (byte_convert_ok v byte u) as [c ->]. cbn [bind].
    apply raises_only_bind; [apply format_magnitude_format_error|]. intros. raises_tac.
Qed.

Lemma target_display_raise_inv (v : float) (tu label : string) (x : exn) :
  target_display v tu label = Raise x ->
  (x = unknown_unit_error tu /\ dict_get _BYTE_UNITS (PyStr.lower tu) = None)
  \/ is_format_error x = true.
Proof.
  unfold target_display.
  destruct (dict_get _BYTE_UNITS (PyStr.lower tu)) as [u|].
  - destruct (byte_convert_ok v byte u) as [c ->]. cbn [bind]. intros H. right.
    apply bind_raise_inv in H. destruct H as [H|(f & _ & H)]; [|discriminate].
    exact (format_magnitude_format_error _ H).
  - intros H. inversion H. left. auto.
Qed.

Lemma display_of_raise_inv (v : float) (d : option data_unit)
  (t : option time_unit) (tu rate : string) (x : exn) :
  display_of v d t tu rate = Raise x ->
  (x = unknown_unit_error tu /\ is_concrete_target tu = true
   /\ dict_get _BYTE_UNITS (PyStr.lower tu) = None)
  \/ is_format_error x = true
  \/ (x = DimensionalityError /\ Pint.has d = true /\ Pint.has t = true
      /\ is_known_rate rate = false).
Proof.
  unfold display_of, is_known_rate.
  destruct t as [t|], (rate_unit_of rate) as [r|], d as [d|]; cbv iota;
    cbn [Pint.has]; intros H;
    try (change (Pint.convert v (Some d, None) (Some byte, None))
           with (Ok (v * (Pint.multiplier (Some d, None)
                          / Pint.multiplier (Some byte, None)))%float) in H;
         cbn [bind] in H);
    try (apply bind_raise_inv in H; destruct H as [H|(c & _ & H)];
         [vm_compute in H; first [discriminate | inversion H; auto 10] |]);
    try (destruct (is_concrete_target tu) eqn:Hc;
         [ apply target_display_raise_inv in H; intuition auto
         | ]);
    first
      [ right; left; first
          [ exact (byte_auto_display_format_error _ _ H)
          | exact (format_number_format_error _ _ H) ]
      | idtac ].
Qed.

(** X5: the errors of [evaluate], all of them.  A call that raises
    raises one of: the "Empty expression" error, when the residual
    string is empty after trimming; the "Invalid characters" error,
    whose message quotes the trimmed residual string; the error of the
    arithmetic evaluation; or, once a magnitude is there, the unknown
    target unit error (for a concrete target unit missing from the
    table), the ValueError of [round] on a NaN, the OverflowError of
    [round] on an infinity, or the dimensionality error of the unit
    conversion (only with a data unit and a time divisor in the
    expression and no rate selector). *)
Theorem evaluate_errors (rt : PyEval.runtime) (e tu rate : string) (x : exn) :
  evaluate rt e tu rate = Raise x ->
  (x = ValueError "Empty expression" /\ PyStr.strip (residual e) = "")
  \/ (x = ValueError ("Invalid characters in expression: "
                       ++ PyStr.strip (residual e))
      /\ PyStr.forallb safe_char (residual e) = false)
  \/ (PyEval.float_eval rt (PyStr.strip (residual e)) = Raise x
      /\ is_arithmetic_error x = true)
  \/ (exists v, _safe_eval rt (residual e) = Ok v
      /\ ((x = unknown_unit_error tu /\ is_concrete_target tu = true
           /\ dict_get _BYTE_UNITS (PyStr.lower tu) = None)
          \/ x = ValueError "cannot convert float NaN to integer"
          \/ x = OverflowError
          \/ (x = DimensionalityError /\ Pint.has (data_unit_of e) = true
              /\ Pint.has (time_unit_of e) = true
              /\ is_known_rate rate = false))).
Proof.
  rewrite evaluate_unfold. intros H.
  apply bind_raise_inv in H. destruct H as [H|(v & Hv & H)].
  - destruct (safe_eval_cases rt (residual e))
      as [[He Hs]|[(He & Hc & Hs)|(He & Hc & Hs)]]; rewrite Hs in H.
    + left. inversion H. split; [reflexivity|]. apply is_empty_true. exact He.
    + right. left. inversion H. auto.
    + right. right. left. split; [exact H|]. exact (float_eval_raises _ _ H).
  - right. right. right. exists v. split; [exact Hv|].
    apply bind_raise_inv in H. destruct H as [H|(s & _ & H)]; [|discriminate].
    apply display_of_raise_inv in H.
    destruct H as [H|[H|H]]; [left; exact H| |right; right; right; exact H].
    apply format_error_cases in H. tauto.
Qed.

Lemma evaluate_errors_witness :
  (ZeroDivisionError = ValueError "Empty expression"
   /\ PyStr.strip (residual "8 / (2 - 2) GB") = "")
  \/ (ZeroDivisionError
      = ValueError ("Invalid characters in expression: "
                    ++ PyStr.strip (residual "8 / (2 - 2) GB"))
      /\ PyStr.forallb safe_char (residual "8 / (2 - 2) GB") = false)
  \/ (PyEval.float_eval PyEval.bare_runtime
        (PyStr.strip (residual "8 / (2 - 2) GB")) = Raise ZeroDivisionError
      /\ is_arithmetic_error ZeroDivisionError = true)
  \/ (exists v, _safe_eval PyEval.bare_runtime (residual "8 / (2 - 2) GB") = Ok v
      /\ ((ZeroDivisionError = unknown_unit_error "auto"
           /\ is_concrete_target "auto" = true
           /\ dict_get _BYTE_UNITS (PyStr.lower "auto") = None)
          \/ ZeroDivisionError = ValueError "cannot convert float NaN to integer"
          \/ ZeroDivisionError = OverflowError
          \/ (ZeroDivisionError = DimensionalityError
              /\ Pint.has (data_unit_of "8 / (2 - 2) GB") = true
              /\ Pint.has (time_unit_of "8 / (2 - 2) GB") = true
              /\ is_known_rate "none" = false))).
Proof.
  apply (@evaluate_errors PyEval.bare_runtime "8 / (2 - 2) GB" "auto" "none").
  reflexivity.
Defined.

(** X6: the unknown target unit error is raised only for a concrete
    target unit that is missing from the byte-unit table, and only after
    the arithmetic string has been validated and evaluated: an invalid
    expression is reported before an invalid unit. *)
Theorem unknown_unit_error_only_after_evaluation
  (rt : PyEval.runtime) (e tu rate : string) :
  evaluate rt e tu rate = Raise (unknown_unit_error tu) ->
  is_concrete_target tu = true
  /\ dict_get _BYTE_UNITS (PyStr.lower tu) = None
  /\ exists v, _safe_eval rt (residual e) = Ok v.
Proof.
  rewrite evaluate_unfold. intros H.
  apply bind_raise_inv in H. destruct H as [H|(v & Hv & H)].
  - exfalso.
    destruct (safe_eval_cases rt (residual e))
      as [[He Hs]|[(He & Hc & Hs)|(He & Hc & Hs)]]; rewrite Hs in H;
      try discriminate.
    apply float_eval_raises in H. discriminate.
  - apply bind_raise_inv in H. destruct H as [H|(s & _ & H)]; [|discriminate].
    apply display_of_raise_inv in H.
    destruct H as [(_ & Hc & Hg)|[H|[H _]]]; try discriminate; eauto.
Qed.

Lemma unknown_unit_error_only_after_evaluation_witness :
  is_concrete_target "XB" = true
  /\ dict_get _BYTE_UNITS (PyStr.lower "XB") = None
  /\ exists v, _safe_eval PyEval.bare_runtime (residual "3 GB") = Ok v.
Proof.
  apply (@unknown_unit_error_only_after_evaluation
           PyEval.bare_runtime "3 GB" "XB" "/s").
  reflexivity.
Defined.

(** X7: a concrete target unit is matched in lower case against the
    table and shown as the caller wrote it: without a time divisor a
    successful call with a concrete target unit displays a formatted
    number, a space, the target unit string itself and the rate label. *)
Theorem target_unit_keeps_the_callers_spelling
  (rt : PyEval.runtime) (e tu rate : string) (res : Result) :
  is_concrete_target tu = true ->
  time_unit_of e = None ->
  evaluate rt e tu rate = Ok res ->
  exists (pint_target : data_unit) (formatted : string),
    dict_get _BYTE_UNITS (PyStr.lower tu) = Some pint_target
    /\ result_display res = formatted ++ " " ++ tu ++ rate_label_of rate.
Proof.
  intros Htu Ht. rewrite evaluate_unfold, Ht.
  destruct (_safe_eval rt (residual e)) as [v|y]; cbn [bind]; [|discriminate].
  assert (Htd : forall b s,
    target_display b tu (rate_label_of rate) = Ok s ->
    exists (pint_target : data_unit) (formatted : string),
      dict_get _BYTE_UNITS (PyStr.lower tu) = Some pint_target
      /\ s = formatted ++ " " ++ tu ++ rate_label_of rate).
  { intros b s. unfold target_display.
    destruct (dict_get _BYTE_UNITS (PyStr.lower tu)) as [u|]; [|discriminate].
    destruct (byte_convert_ok b byte u) as [c ->]. cbn [bind].
    destruct (_format_magnitude c) as [f|]; cbn [bind]; [|discriminate].
    intros H. inversion H. eauto. }
  unfold display_of. fold (rate_label_of rate). rewrite Htu.
  destruct (data_unit_of e) as [d|].
  - destruct (rate_unit_of rate); cbv iota;
      (destruct (byte_convert_ok v d byte) as [b ->]; cbn [bind];
       destruct (target_display b tu (rate_label_of rate)) as [s|] eqn:Hs;
       cbn [bind]; [|discriminate]; intros H; inversion H; cbn [result_display];
       exact (Htd _ _ Hs)).
  - destruct (rate_unit_of rate); cbv iota;
      (destruct (target_display v tu (rate_label_of rate)) as [s|] eqn:Hs;
       cbn [bind]; [|discriminate]; intros H; inversion H; cbn [result_display];
       exact (Htd _ _ Hs)).
Qed.

Lemma target_unit_keeps_the_callers_spelling_witness :
  exists (pint_target : data_unit) (formatted : string),
    dict_get _BYTE_UNITS (PyStr.lower "mB") = Some pint_target
    /\ result_display {| expression := "1.7 GB"; result_display := "1700 mB/s";
                         raw_value := 1.7 |}
       = formatted ++ " " ++ "mB" ++ rate_label_of "/s".
Proof.
  apply (@target_unit_keeps_the_callers_spelling
           PyEval.bare_runtime "1.7 GB" "mB" "/s"); reflexivity.
Defined.

(** ** More on the matcher *)

Lemma forallb_app (p : ascii -> bool) (a b : string) :
  PyStr.forallb p (a ++ b) = PyStr.forallb p a && PyStr.forallb p b.
Proof.
  induction a as [|c a IH]; [reflexivity|]. cbn [append PyStr.forallb].
  rewrite IH, andb_assoc. reflexivity.
Qed.

Lemma forallb_tail (p : ascii -> bool) (c : ascii) (s : string) :
  PyStr.forallb p (String c s) = true -> PyStr.forallb p s = true.
Proof. cbn [PyStr.forallb]. intros H. apply andb_prop in H. tauto. Qed.

(** Where a pattern matches at no suffix, [sub] changes nothing. *)
Lemma sub_no_match (r : re) (tail : string) (Q : string -> Prop) :
  (forall c s, Q (String c s) -> Q s) ->
  (forall s, Q s -> match_at r s = None) ->
  forall s, Q s -> sub r tail s = s.
Proof.
  intros Htail Hnone. unfold sub. induction s as [|c s IH]; intros Hs.
  - reflexivity.
  - cbn [sub_from]. rewrite (Hnone _ Hs). f_equal. apply IH.
    exact (Htail _ _ Hs).
Qed.

Lemma run_word_i_inv (R : Type) (w : string) :
  forall (s g : string) (k : string -> string -> option R) (x : R),
    run (word_i w) s g k = Some x ->
    exists w' s', s = w' ++ s' /\ ci_eq w' w = true /\ k s' g = Some x.
Proof.
  induction w as [|c w IH]; intros s g k x H.
  - exists "", s. auto.
  - cbn [word_i] in H. rewrite run_cat in H. cbn [run chr_i] in H.
    destruct s as [|d s]; [discriminate|].
    destruct (Ascii.eqb (PyStr.lower_char d) (PyStr.lower_char c)) eqn:Hd;
      [|discriminate].
    apply IH in H. destruct H as (w' & s' & -> & Hw & Hk).
    exists (String d w'), s'. cbn [ci_eq append]. rewrite Hd, Hw. auto.
Qed.

Lemma ci_eq_lacks (c : ascii) (w' w : string) :
  ci_eq w' w = true -> PyStr.mem_char w c = true -> lacks_ci c w' = false.
Proof.
  revert w. induction w' as [|x w' IH]; intros [|y w] Hw Hc;
    cbn [ci_eq] in Hw; try discriminate.
  apply andb_prop in Hw. destruct Hw as [Hxy Hw].
  unfold lacks_ci. cbn [PyStr.forallb].
  destruct (Ascii.eqb c y) eqn:Hcy.
  - apply Ascii.eqb_eq in Hcy. subst y. rewrite Hxy. reflexivity.
  - assert (Hc' : PyStr.mem_char w c = true).
    { unfold PyStr.mem_char in *. cbn [PyStr.forallb] in Hc.
      rewrite Hcy in Hc. exact Hc. }
    fold (lacks_ci c w'). rewrite (IH w Hw Hc'). apply andb_false_r.
Qed.

(** A word pattern matches only where every letter of its word occurs,
    up to case. *)
Lemma word_pattern_needs_letter (w : string) (c : ascii) (s : string) :
  PyStr.mem_char w c = true ->
  lacks_ci c s = true ->
  match_at (word_pattern w) s = None.
Proof.
  intros Hc Hs.
  destruct (match_at (word_pattern w) s) as [[g n]|] eqn:Hm; [|reflexivity].
  exfalso. unfold match_at, word_pattern in Hm.
  rewrite run_cat in Hm. apply run_inv in Hm.
  destruct Hm as (pre1 & s1 & g1 & -> & Hm).
  rewrite run_cat in Hm. apply run_inv in Hm.
  destruct Hm as (pre2 & s2 & g2 & -> & Hm).
  apply run_word_i_inv in Hm. destruct Hm as (w' & s3 & -> & Hw & _).
  unfold lacks_ci in Hs. rewrite !forallb_app in Hs.
  apply andb_prop in Hs. destruct Hs as [_ Hs].
  apply andb_prop in Hs. destruct Hs as [_ Hs].
  apply andb_prop in Hs. destruct Hs as [Hs _].
  fold (lacks_ci c w') in Hs. rewrite (ci_eq_lacks c w' w Hw Hc) in Hs.
  discriminate.
Qed.

Lemma word_sub_lacking (w : string) (c : ascii) (tail s : string) :
  PyStr.mem_char w c = true ->
  lacks_ci c s = true ->
  sub (word_pattern w) tail s = s.
Proof.
  intros Hc. apply (sub_no_match (word_pattern w) tail
                      (fun t => lacks_ci c t = true)).
  - intros d t. apply forallb_tail.
  - intros t. apply word_pattern_needs_letter. exact Hc.
Qed.

Lemma letters_guarded_no_letter (prev : option ascii) (s : string) :
  PyStr.forallb (fun c => negb (is_suffix_letter c)) s = true ->
  letters_guarded prev s = true.
Proof.
  revert prev. induction s as [|c s IH]; intros prev H; [reflexivity|].
  cbn [PyStr.forallb] in H. apply andb_prop in H. destruct H as [Hc Hs].
  cbn [letters_guarded]. rewrite Hc, (IH _ Hs). reflexivity.
Qed.

(** ** Preprocessing: plain arithmetic and word multipliers *)

Lemma forallb_impl (p q : ascii -> bool) (s : string) :
  (forall c, p c = true -> q c = true) ->
  PyStr.forallb p s = true -> PyStr.forallb q s = true.
Proof.
  intros Hpq. induction s as [|c s IH]; [reflexivity|]. cbn [PyStr.forallb].
  intros H. apply andb_prop in H. destruct H as [Hc Hs].
  rewrite (Hpq c Hc), (IH Hs). reflexivity.
Qed.

Lemma forallb_lstrip_sub (p q : ascii -> bool) (s : string) :
  PyStr.forallb p s = true -> PyStr.forallb p (PyStr.lstrip_by q s) = true.
Proof.
  induction s as [|c s IH]; [reflexivity|]. intros H. cbn [PyStr.lstrip_by].
  destruct (q c); [|exact H]. apply IH. exact (forallb_tail _ _ _ H).
Qed.

Lemma forallb_rstrip_sub (p q : ascii -> bool) (s : string) :
  PyStr.forallb p s = true -> PyStr.forallb p (PyStr.rstrip_by q s) = true.
Proof.
  induction s as [|c s IH]; [reflexivity|]. intros H. cbn [PyStr.rstrip_by].
  destruct (PyStr.is_empty (PyStr.rstrip_by q s) && q c); [reflexivity|].
  cbn [PyStr.forallb] in *. apply andb_prop in H. destruct H as [Hc Hs].
  rewrite Hc, (IH Hs). reflexivity.
Qed.

Lemma forallb_strip_sub (p : ascii -> bool) (s : string) :
  PyStr.forallb p s = true -> PyStr.forallb p (PyStr.strip s) = true.
Proof.
  intros H. unfold PyStr.strip. apply forallb_rstrip_sub, forallb_lstrip_sub, H.
Qed.

(** A character that starts no multiplier: not t, b or m up to case, and
    none of the suffix letters. *)
Lemma no_scale_char (d : ascii) :
  negb (PyStr.mem_char "tTbBmMK" d) = true ->
  negb (Ascii.eqb (PyStr.lower_char d) (PyStr.lower_char "t")) = true
  /\ negb (Ascii.eqb (PyStr.lower_char d) (PyStr.lower_char "b")) = true
  /\ negb (Ascii.eqb (PyStr.lower_char d) (PyStr.lower_char "m")) = true
  /\ negb (is_suffix_letter d) = true.
Proof.
  destruct d as [[] [] [] [] [] [] [] []]; vm_compute; intros H;
    try discriminate H; repeat split.
Qed.

Lemma digit_char (d : ascii) :
  PyStr.is_digit d = true ->
  PyStr.is_space d = false
  /\ negb (PyStr.mem_char "tTbBmMK" d) = true
  /\ negb (Ascii.eqb (PyStr.lower_char d) (PyStr.lower_char "r")) = true.
Proof.
  destruct d as [[] [] [] [] [] [] [] []]; vm_compute; intros H;
    try discriminate H; repeat split.
Qed.

Lemma no_scale_letter_lacks (s : string) :
  no_scale_letter s = true ->
  lacks_ci "t" s = true /\ lacks_ci "b" s = true /\ lacks_ci "m" s = true
  /\ PyStr.forallb (fun c => negb (is_suffix_letter c)) s = true.
Proof.
  intros H. unfold lacks_ci.
  repeat split; (eapply forallb_impl; [|exact H]); intros c Hc;
    apply no_scale_char in Hc; tauto.
Qed.

Lemma apply_words_no_scale_letter (s : string) :
  no_scale_letter s = true -> apply_subs _WORD_MULTIPLIERS s = s.
Proof.
  intros H. apply no_scale_letter_lacks in H. destruct H as (Ht & Hb & Hm & _).
  unfold apply_subs, _WORD_MULTIPLIERS. cbn [fold_left fst snd].
  rewrite (word_sub_lacking "trillion" "t" " * 1e12" s eq_refl Ht).
  rewrite (word_sub_lacking "billion" "b" " * 1e9" s eq_refl Hb).
  rewrite (word_sub_lacking "million" "m" " * 1e6" s eq_refl Hm).
  apply (word_sub_lacking "thousand" "t" " * 1e3" s eq_refl Ht).
Qed.

Lemma apply_suffixes_no_scale_letter (s : string) :
  no_scale_letter s = true -> apply_subs _SUFFIX_MULTIPLIERS s = s.
Proof.
  intros H. apply apply_suffixes_guarded, letters_guarded_no_letter.
  apply no_scale_letter_lacks in H. tauto.
Qed.

(** X8: text without multipliers passes through preprocessing unchanged
    apart from the trimming: an expression that holds none of the
    letters t, b, m (in either case) and K is only stripped. *)
Theorem preprocess_leaves_plain_arithmetic (s : string) :
  no_scale_letter s = true -> _preprocess_scale s = PyStr.strip s.
Proof.
  intros H. unfold _preprocess_scale.
  assert (Hs : no_scale_letter (PyStr.strip s) = true)
    by (apply forallb_strip_sub; exact H).
  rewrite (apply_words_no_scale_letter _ Hs).
  apply apply_suffixes_no_scale_letter. exact Hs.
Qed.

Lemma preprocess_leaves_plain_arithmetic_witness :
  _preprocess_scale "  (1500 + 2.5e3) / 7 gigs per day " = "(1500 + 2.5e3) / 7 gigs per day".
Proof.
  apply (preprocess_leaves_plain_arithmetic "  (1500 + 2.5e3) / 7 gigs per day ").
  reflexivity.
Defined.

Lemma star_all (R : Type) (p : ascii -> bool) (a rest : string)
  (k : string -> option R) (x : R) :
  PyStr.forallb p a = true ->
  match rest with String c _ => p c = false | EmptyString => True end ->
  k rest = Some x ->
  star p (a ++ rest) k = Some x.
Proof.
  intros Ha Hrest Hk. induction a as [|c a IH]; cbn [append].
  - destruct rest as [|c r]; cbn [star]; [exact Hk|]. rewrite Hrest. exact Hk.
  - cbn [PyStr.forallb] in Ha. apply andb_prop in Ha. destruct Ha as [Hc Ha].
    cbn [star]. rewrite Hc, (IH Ha). reflexivity.
Qed.

Lemma run_word_i_self (R : Type) (w rest g : string)
  (k : string -> string -> option R) :
  run (word_i w) (w ++ rest) g k = k rest g.
Proof.
  induction w as [|c w IH]; [reflexivity|].
  cbn [word_i append]. rewrite run_cat. cbn [run chr_i].
  rewrite Ascii.eqb_refl. exact IH.
Qed.

Lemma take_app (n rest : string) :
  PyStr.take (String.length (n ++ rest) - String.length rest) (n ++ rest) = n.
Proof.
  rewrite length_append, Nat.add_sub.
  induction n as [|c n IH]; cbn [String.length PyStr.take append].
  - destruct rest; reflexivity.
  - rewrite IH. reflexivity.
Qed.

(** The number group takes a whole run of digits when what follows is
    neither a digit nor a dot. *)
Lemma number_group_digits (R : Type) (n rest g : string)
  (k : string -> string -> option R) (x : R) :
  is_digits n = true ->
  match rest with
  | String c _ => PyStr.is_digit c = false /\ Ascii.eqb "." c = false
  | EmptyString => True
  end ->
  k rest n = Some x ->
  run number_group (n ++ rest) g k = Some x.
Proof.
  unfold is_digits. intros Hn Hrest Hk. apply andb_prop in Hn.
  destruct Hn as [Hne Hn]. destruct n as [|c n]; [discriminate|].
  cbn [PyStr.forallb] in Hn. apply andb_prop in Hn. destruct Hn as [Hc Hn].
  unfold number_group. cbn [run append]. rewrite Hc.
  apply star_all; [exact Hn| |].
  - destruct rest as [|d r]; [exact I|tauto].
  - assert (Hdot : forall K : string -> string -> option R,
              run (chr ".") rest g K = None).
    { intros K. cbn [run chr].
      destruct rest as [|d r]; [reflexivity|].
      destruct Hrest as [_ ->]. reflexivity. }
    rewrite Hdot.
    change (String c (n ++ rest)) with (String c n ++ rest).
    rewrite take_app. exact Hk.
Qed.

Lemma word_pattern_match (w n : string) :
  is_digits n = true ->
  match w with String c _ => PyStr.is_space c = false | EmptyString => False end ->
  match_at (word_pattern w) (n ++ " " ++ w)
  = Some (n, String.length (n ++ " " ++ w) - 0).
Proof.
  intros Hn Hw. unfold match_at, word_pattern. rewrite run_cat.
  apply number_group_digits; [exact Hn|split; reflexivity|].
  rewrite run_cat, run_plus. cbn [append].
  change (PyStr.is_space " ") with true. cbv iota.
  destruct w as [|c w]; [contradiction|]. cbn [star]. rewrite Hw.
  match goal with
  | |- run (word_i ?W) ?W ?g ?K = _ =>
      pose proof (run_word_i_self W "" g K) as Hself
  end.
  rewrite append_nil_r in Hself. rewrite Hself. reflexivity.
Qed.

Lemma sub_from_skip_all (r : re) (tail s : string) (skip : nat) :
  String.length s <= skip -> sub_from r tail s skip = "".
Proof.
  revert skip. induction s as [|c s IH]; intros skip H; [reflexivity|].
  cbn [String.length] in H. destruct skip as [|skip]; [lia|].
  cbn [sub_from]. apply IH. lia.
Qed.

Lemma sub_whole (r : re) (tail s g : string) :
  PyStr.is_empty s = false ->
  match_at r s = Some (g, String.length s - 0) ->
  sub r tail s = g ++ tail.
Proof.
  destruct s as [|c s]; [discriminate|]. intros _ Hm.
  unfold sub. cbn [sub_from]. rewrite Hm. cbn [String.length Nat.sub].
  rewrite sub_from_skip_all by lia. rewrite append_nil_r. reflexivity.
Qed.

Lemma rstrip_by_app (p : ascii -> bool) (a b : string) :
  PyStr.is_empty (PyStr.rstrip_by p b) = false ->
  PyStr.rstrip_by p (a ++ b) = a ++ PyStr.rstrip_by p b.
Proof.
  intros Hb. induction a as [|c a IH]; [reflexivity|].
  cbn [append PyStr.rstrip_by]. rewrite IH.
  destruct a; cbn [append PyStr.is_empty]; [rewrite Hb|]; reflexivity.
Qed.

Lemma is_digits_facts (n : string) :
  is_digits n = true ->
  PyStr.is_empty n = false
  /\ PyStr.lstrip_by PyStr.is_space n = n
  /\ no_scale_letter n = true
  /\ lacks_ci "r" n = true.
Proof.
  unfold is_digits. intros H. apply andb_prop in H. destruct H as [Hne Hn].
  split; [destruct n; [discriminate|reflexivity]|].
  split; [|split].
  - destruct n as [|c n]; [reflexivity|]. cbn [PyStr.lstrip_by].
    cbn [PyStr.forallb] in Hn. apply andb_prop in Hn. destruct Hn as [Hc _].
    apply digit_char in Hc. destruct Hc as [-> _]. reflexivity.
  - eapply forallb_impl; [|exact Hn]. intros c Hc. apply digit_char in Hc. tauto.
  - eapply forallb_impl; [|exact Hn]. intros c Hc. apply digit_char in Hc. tauto.
Qed.

Lemma strip_number_word (n rest : string) :
  is_digits n = true ->
  PyStr.rstrip_by PyStr.is_space rest = rest ->
  PyStr.is_empty rest = false ->
  PyStr.strip (n ++ rest) = n ++ rest.
Proof.
  intros Hn Hrest Hne. apply is_digits_facts in Hn.
  destruct Hn as (Hn & Hl & _). unfold PyStr.strip.
  assert (Hls : PyStr.lstrip_by PyStr.is_space (n ++ rest) = n ++ rest).
  { destruct n as [|c n]; [discriminate|]. cbn [append PyStr.lstrip_by] in *.
    destruct (PyStr.is_space c); [|reflexivity].
    exfalso. assert (Hlen := f_equal String.length Hl).
    clear -Hlen. cbn [String.length] in Hlen.
    assert (Hle : forall s, String.length (PyStr.lstrip_by PyStr.is_space s)
                            <= String.length s).
    { induction s as [|d s IH]; cbn [PyStr.lstrip_by String.length]; [lia|].
      destruct (PyStr.is_space d); cbn [String.length]; lia. }
    specialize (Hle n). lia. }
  rewrite Hls, rstrip_by_app, Hrest; [reflexivity|].
  rewrite Hrest. exact Hne.
Qed.

Lemma lacks_ci_app (c : ascii) (a b : string) :
  lacks_ci c a = true -> lacks_ci c b = true -> lacks_ci c (a ++ b) = true.
Proof. unfold lacks_ci. rewrite forallb_app. intros -> ->. reflexivity. Qed.

Lemma no_scale_letter_app (a b : string) :
  no_scale_letter a = true -> no_scale_letter b = true ->
  no_scale_letter (a ++ b) = true.
Proof. unfold no_scale_letter. rewrite forallb_app. intros -> ->. reflexivity. Qed.

Ltac word_step_lacking w c tail :=
  rewrite (@word_sub_lacking w c tail) by
    (first [reflexivity | apply lacks_ci_app; [assumption|reflexivity]]).

Ltac word_step_match w tail n :=
  change (sub (word_pattern w) tail _)
    with (sub (word_pattern w) tail (n ++ " " ++ w));
  rewrite (@sub_whole (word_pattern w) tail (n ++ " " ++ w) n)
    by (first [ destruct n; [discriminate|reflexivity]
              | apply word_pattern_match; [assumption|reflexivity] ]).

(** X9: the word multipliers.  A run of digits, a space and one of the
    words trillion, billion, million, thousand preprocesses to the
    digits followed by [" * 1e12"], [" * 1e9"], [" * 1e6"], [" * 1e3"];
    no other pattern of the two tables touches the text before or after
    the replacement. *)
Theorem word_multipliers_rewrite (n : string) :
  is_digits n = true ->
  _preprocess_scale (n ++ " trillion") = n ++ " * 1e12"
  /\ _preprocess_scale (n ++ " billion") = n ++ " * 1e9"
  /\ _preprocess_scale (n ++ " million") = n ++ " * 1e6"
  /\ _preprocess_scale (n ++ " thousand") = n ++ " * 1e3".
Proof.
  intros Hn. pose proof (is_digits_facts n Hn) as (Hne & _ & Hplain & Hr).
  pose proof (no_scale_letter_lacks n Hplain) as (Ht & Hb & Hm & _).
  unfold _preprocess_scale.
  repeat split;
    (rewrite strip_number_word by (assumption || reflexivity);
     unfold apply_subs at 2; unfold _WORD_MULTIPLIERS; cbn [fold_left fst snd]).
  - word_step_match "trillion" " * 1e12" n.
    word_step_lacking "billion" "b"%char " * 1e9".
    word_step_lacking "million" "m"%char " * 1e6".
    word_step_lacking "thousand" "t"%char " * 1e3".
    apply apply_suffixes_no_scale_letter, no_scale_letter_app;
      [assumption|reflexivity].
  - word_step_lacking "trillion" "t"%char " * 1e12".
    word_step_match "billion" " * 1e9" n.
    word_step_lacking "million" "m"%char " * 1e6".
    word_step_lacking "thousand" "t"%char " * 1e3".
    apply apply_suffixes_no_scale_letter, no_scale_letter_app;
      [assumption|reflexivity].
  - word_step_lacking "trillion" "t"%char " * 1e12".
    word_step_lacking "billion" "b"%char " * 1e9".
    word_step_match "million" " * 1e6" n.
    word_step_lacking "thousand" "t"%char " * 1e3".
    apply apply_suffixes_no_scale_letter, no_scale_letter_app;
      [assumption|reflexivity].
  - word_step_lacking "trillion" "r"%char " * 1e12".
    word_step_lacking "billion" "b"%char " * 1e9".
    word_step_lacking "million" "m"%char " * 1e6".
    word_step_match "thousand" " * 1e3" n.
    apply apply_suffixes_no_scale_letter, no_scale_letter_app;
      [assumption|reflexivity].
Qed.

Lemma word_multipliers_rewrite_witness :
  _preprocess_scale ("30" ++ " trillion") = "30" ++ " * 1e12"
  /\ _preprocess_scale ("30" ++ " billion") = "30" ++ " * 1e9"
  /\ _preprocess_scale ("30" ++ " million") = "30" ++ " * 1e6"
  /\ _preprocess_scale ("30" ++ " thousand") = "30" ++ " * 1e3".
Proof. apply (word_multipliers_rewrite "30"). reflexivity. Defined.

(** ** Preprocessing: suffix multipliers *)

Lemma suffix_sub_lacking (L : ascii) (tail s : string) :
  lacks L s = true -> sub (suffix_pattern L) tail s = s.
Proof.
  apply (sub_no_match (suffix_pattern L) tail (fun t => lacks L t = true)).
  - intros d t. apply forallb_tail.
  - intros t Ht.
    destruct (match_at (suffix_pattern L) t) as [[g n]|] eqn:Hm; [|reflexivity].
    exfalso. apply suffix_match_inv in Hm.
    destruct Hm as (pre & post & -> & _).
    unfold lacks in Ht. rewrite forallb_app in Ht.
    apply andb_prop in Ht. destruct Ht as [_ Ht].
    cbn [PyStr.forallb] in Ht. rewrite Ascii.eqb_refl in Ht. discriminate.
Qed.

Lemma suffix_pattern_match (L : ascii) (n ws : string) :
  is_digits n = true ->
  is_blank ws = true ->
  PyStr.is_digit L = false -> Ascii.eqb "." L = false ->
  PyStr.is_space L = false ->
  match_at (suffix_pattern L) (n ++ ws ++ String L "")
  = Some (n, String.length (n ++ ws ++ String L "") - 0).
Proof.
  intros Hn Hws HLd HLdot HLs. unfold match_at, suffix_pattern.
  rewrite run_cat. apply number_group_digits; [exact Hn| |].
  - destruct ws as [|w ws]; cbn [append]; [tauto|].
    unfold is_blank in Hws. cbn [PyStr.forallb] in Hws.
    apply andb_prop in Hws. destruct Hws as [Hw _].
    destruct w as [[] [] [] [] [] [] [] []]; try discriminate Hw; split; reflexivity.
  - rewrite run_cat, run_star.
    apply star_all; [exact Hws|exact HLs|].
    cbn [run chr]. rewrite Ascii.eqb_refl. reflexivity.
Qed.

(** Digits and whitespace are none of the letters the proofs below look
    for. *)
Lemma plain_char (d : ascii) :
  (PyStr.is_digit d || PyStr.is_space d)%bool = true ->
  negb (PyStr.mem_char "TBMK" d) = true
  /\ negb (Ascii.eqb (PyStr.lower_char d) (PyStr.lower_char "r")) = true
  /\ negb (Ascii.eqb (PyStr.lower_char d) (PyStr.lower_char "h")) = true
  /\ negb (Ascii.eqb (PyStr.lower_char d) (PyStr.lower_char "i")) = true.
Proof.
  destruct d as [[] [] [] [] [] [] [] []]; vm_compute; intros H;
    try discriminate H; repeat split.
Qed.

Lemma plain_string (s : string) :
  PyStr.forallb (fun d => PyStr.is_digit d || PyStr.is_space d)%bool s = true ->
  (lacks "T" s = true /\ lacks "B" s = true /\ lacks "M" s = true
   /\ lacks "K" s = true)
  /\ lacks_ci "r" s = true /\ lacks_ci "h" s = true /\ lacks_ci "i" s = true.
Proof.
  intros H. unfold lacks, lacks_ci.
  repeat split; (eapply forallb_impl; [|exact H]); intros c Hc;
    apply plain_char in Hc; destruct Hc as (Hk & Hr & Hh & Hi);
    try assumption;
    revert Hk; clear; destruct c as [[] [] [] [] [] [] [] []]; vm_compute;
    intros H; try discriminate H; reflexivity.
Qed.

Lemma digits_then_blank (n ws : string) :
  is_digits n = true -> is_blank ws = true ->
  PyStr.forallb (fun d => PyStr.is_digit d || PyStr.is_space d)%bool (n ++ ws)
  = true.
Proof.
  unfold is_digits, is_blank. intros Hn Hws.
  apply andb_prop in Hn. destruct Hn as [_ Hn]. rewrite forallb_app.
  apply andb_true_intro. split; (eapply forallb_impl; [|eassumption]);
    intros c Hc; rewrite Hc; auto using orb_true_r.
Qed.

Lemma lacks_app (c : ascii) (a b : string) :
  lacks c a = true -> lacks c b = true -> lacks c (a ++ b) = true.
Proof. unfold lacks. rewrite forallb_app. intros -> ->. reflexivity. Qed.

Lemma strip_number_suffix (n ws : string) (L : ascii) :
  is_digits n = true -> is_blank ws = true -> PyStr.is_space L = false ->
  PyStr.strip (n ++ ws ++ String L "") = n ++ ws ++ String L "".
Proof.
  intros Hn Hws HL. apply strip_number_word; [exact Hn| |].
  - rewrite rstrip_by_app; cbn [PyStr.rstrip_by PyStr.is_empty andb];
      rewrite ?HL; reflexivity.
  - destruct ws; reflexivity.
Qed.

Ltac suffix_rewrite_tac n ws L tail :=
  rewrite strip_number_suffix by (assumption || reflexivity);
  unfold apply_subs, _WORD_MULTIPLIERS, _SUFFIX_MULTIPLIERS;
  cbn [fold_left fst snd];
  repeat match goal with
  | |- context [sub (word_pattern ?w) ?t (n ++ ws ++ String L "")] =>
      rewrite (@word_sub_lacking w
                 (match w with
                  | "trillion"%string => "r" | "thousand"%string => "h"
                  | _ => "i" end)%char
                 t (n ++ ws ++ String L ""))
        by (first [reflexivity
                  | rewrite <- append_assoc; apply lacks_ci_app;
                    [assumption|reflexivity]])
  end;
  repeat match goal with
  | |- context [sub (suffix_pattern L) tail (n ++ ws ++ String L "")] =>
      rewrite (@sub_whole (suffix_pattern L) tail (n ++ ws ++ String L "") n)
        by (first [ destruct n; [discriminate|reflexivity]
                  | apply suffix_pattern_match;
                    first [assumption|reflexivity] ])
  | |- context [sub (suffix_pattern ?L') ?t (n ++ ws ++ String L "")] =>
      rewrite (@suffix_sub_lacking L' t (n ++ ws ++ String L ""))
        by (rewrite <- append_assoc; apply lacks_app; [assumption|reflexivity])
  | |- context [sub (suffix_pattern ?L') ?t (n ++ tail)] =>
      rewrite (@suffix_sub_lacking L' t (n ++ tail))
        by (apply lacks_app; [assumption|reflexivity])
  end;
  reflexivity.

(** X10: the suffix multipliers.  A run of digits, optional whitespace
    and one of the capital letters T, B, M, K at the end of the text
    preprocesses to the digits followed by e12, e9, e6, e3: the
    whitespace goes and the result is one float literal. *)
Theorem suffix_multipliers_rewrite (n ws : string) :
  is_digits n = true ->
  is_blank ws = true ->
  _preprocess_scale (n ++ ws ++ "T") = n ++ "e12"
  /\ _preprocess_scale (n ++ ws ++ "B") = n ++ "e9"
  /\ _preprocess_scale (n ++ ws ++ "M") = n ++ "e6"
  /\ _preprocess_scale (n ++ ws ++ "K") = n ++ "e3".
Proof.
  intros Hn Hws.
  pose proof (plain_string _ (digits_then_blank n ws Hn Hws))
    as ((HT & HB & HM & HK) & Hr & Hh & Hi).
  assert (Hd : PyStr.forallb (fun d => PyStr.is_digit d || PyStr.is_space d)%bool
                 n = true).
  { pose proof (digits_then_blank n "" Hn eq_refl) as H.
    rewrite append_nil_r in H. exact H. }
  pose proof (plain_string _ Hd) as ((HT' & HB' & HM' & HK') & _).
  unfold _preprocess_scale. repeat split.
  - suffix_rewrite_tac n ws "T"%char "e12"%string.
  - suffix_rewrite_tac n ws "B"%char "e9"%string.
  - suffix_rewrite_tac n ws "M"%char "e6"%string.
  - suffix_rewrite_tac n ws "K"%char "e3"%string.
Qed.

Lemma suffix_multipliers_rewrite_witness :
  _preprocess_scale ("20" ++ " " ++ "T") = "20" ++ "e12"
  /\ _preprocess_scale ("20" ++ " " ++ "B") = "20" ++ "e9"
  /\ _preprocess_scale ("20" ++ " " ++ "M") = "20" ++ "e6"
  /\ _preprocess_scale ("20" ++ " " ++ "K") = "20" ++ "e3".
Proof. apply (suffix_multipliers_rewrite "20" " "); reflexivity. Defined.

(** ** Blank input *)

Lemma lstrip_by_all (p : ascii -> bool) (s : string) :
  PyStr.forallb p s = true -> PyStr.lstrip_by p s = "".
Proof.
  induction s as [|c s IH]; [reflexivity|]. cbn [PyStr.forallb PyStr.lstrip_by].
  intros H. apply andb_prop in H. destruct H as [-> Hs]. exact (IH Hs).
Qed.

Lemma strip_blank (s : string) : is_blank s = true -> PyStr.strip s = "".
Proof. intros H. unfold PyStr.strip. rewrite (lstrip_by_all _ _ H). reflexivity. Qed.

(** X11: an expression of whitespace only, the empty string included,
    is refused with the "Empty expression" error whatever the target
    unit and the rate. *)
Theorem blank_expression_is_refused
  (rt : PyEval.runtime) (e tu rate : string) :
  is_blank e = true ->
  evaluate rt e tu rate = Raise (ValueError "Empty expression").
Proof.
  intros H. unfold evaluate, _preprocess_scale. rewrite (strip_blank _ H).
  reflexivity.
Qed.

Lemma blank_expression_is_refused_witness :
  evaluate PyEval.bare_runtime "   " "GB" "/day"
  = Raise (ValueError "Empty expression").
Proof.
  apply (@blank_expression_is_refused PyEval.bare_runtime "   " "GB" "/day").
  reflexivity.
Defined.

(** ** Unit extraction *)

(** X12: when [_parse_units] finds neither a data unit nor a time
    divisor, the arithmetic string it returns is its input, character
    for character: nothing is trimmed and no token is dropped. *)
Theorem parse_units_without_unit_returns_input (expr math_str : string) :
  _parse_units expr = (math_str, None, None) -> math_str = expr.
Proof.
  unfold _parse_units, strip_time_unit.
  destruct (search time_divisor_pattern expr) as [[[start token] n]|].
  - destruct (dict_get _TIME_UNITS (PyStr.lower token)) as [u|].
    + destruct (strip_data_unit _) as [m d]. intros H. discriminate H.
    + unfold strip_data_unit.
      destruct (PyStr.split (PyStr.strip expr)) as [|t ts];
        [intros H; inversion H; reflexivity|].
      destruct (dict_get _BYTE_UNITS _); intros H; inversion H; reflexivity.
  - unfold strip_data_unit.
    destruct (PyStr.split (PyStr.strip expr)) as [|t ts];
      [intros H; inversion H; reflexivity|].
    destruct (dict_get _BYTE_UNITS _); intros H; inversion H; reflexivity.
Qed.

Lemma parse_units_without_unit_returns_input_witness :
  _parse_units " 3 * (4 + 5) / 2  " = (" 3 * (4 + 5) / 2  ", None, None)
  /\ " 3 * (4 + 5) / 2  " = " 3 * (4 + 5) / 2  ".
Proof.
  split; [reflexivity|].
  apply (@parse_units_without_unit_returns_input
           " 3 * (4 + 5) / 2  " " 3 * (4 + 5) / 2  ").
  reflexivity.
Defined.

(** ** Number thresholds *)

Ltac below_threshold H :=
  rewrite FloatAxioms.ltb_spec in H; rewrite FloatAxioms.leb_spec;
  match type of H with
  | SFltb _ (Prim2SF ?t) = _ =>
      let v := eval vm_compute in (Prim2SF t) in change (Prim2SF t) with v in H
  end;
  match goal with
  | |- SFleb (Prim2SF ?t) _ = _ =>
      let v := eval vm_compute in (Prim2SF t) in change (Prim2SF t) with v
  end;
  eapply SF_below_threshold; [|exact H]; compute; intuition congruence.

(** X13: [_format_number] picks the first threshold the absolute value
    reaches.  Below 1000 the value is formatted as it is; from 1000 on
    it is divided by the threshold and followed by "K" without a space,
    or by a space and "million", "billion", "trillion"; the rate string
    comes last.  The sign plays no part in the choice. *)
Theorem format_number_by_thresholds (v : float) (rate : string) :
  ((abs v <? 1e3)%float = true ->
   _format_number v rate = (f <- _format_magnitude v ;; Ok (f ++ rate)))
  /\ ((1e3 <=? abs v)%float = true -> (abs v <? 1e6)%float = true ->
      _format_number v rate
      = (f <- _format_magnitude (v / 1e3) ;; Ok (f ++ "K" ++ rate)))
  /\ ((1e6 <=? abs v)%float = true -> (abs v <? 1e9)%float = true ->
      _format_number v rate
      = (f <- _format_magnitude (v / 1e6) ;; Ok (f ++ " million" ++ rate)))
  /\ ((1e9 <=? abs v)%float = true -> (abs v <? 1e12)%float = true ->
      _format_number v rate
      = (f <- _format_magnitude (v / 1e9) ;; Ok (f ++ " billion" ++ rate)))
  /\ ((1e12 <=? abs v)%float = true ->
      _format_number v rate
      = (f <- _format_magnitude (v / 1e12) ;; Ok (f ++ " trillion" ++ rate))).
Proof.
  unfold _format_number, _NUMBER_THRESHOLDS. cbn [format_number_from].
  repeat split.
  - intros H.
    assert (H12 : (1e12 <=? abs v)%float = false) by below_threshold H.
    assert (H9 : (1e9 <=? abs v)%float = false) by below_threshold H.
    assert (H6 : (1e6 <=? abs v)%float = false) by below_threshold H.
    assert (H3 : (1e3 <=? abs v)%float = false) by below_threshold H.
    rewrite H12, H9, H6, H3. reflexivity.
  - intros H3 H.
    assert (H12 : (1e12 <=? abs v)%float = false) by below_threshold H.
    assert (H9 : (1e9 <=? abs v)%float = false) by below_threshold H.
    assert (H6 : (1e6 <=? abs v)%float = false) by below_threshold H.
    rewrite H12, H9, H6, H3. reflexivity.
  - intros H6 H.
    assert (H12 : (1e12 <=? abs v)%float = false) by below_threshold H.
    assert (H9 : (1e9 <=? abs v)%float = false) by below_threshold H.
    rewrite H12, H9, H6. reflexivity.
  - intros H9 H.
    assert (H12 : (1e12 <=? abs v)%float = false) by below_threshold H.
    rewrite H12, H9. reflexivity.
  - intros H12. rewrite H12. reflexivity.
Qed.

Lemma format_number_by_thresholds_witness :
  _format_number (-2500) "/day" = Ok "~-2.5K/day"
  /\ _format_number (-2500) "/day"
     = (f <- _format_magnitude (-2500 / 1e3) ;; Ok (f ++ "K" ++ "/day"))
  /\ _format_number 999.5 ""
     = (f <- _format_magnitude 999.5 ;; Ok (f ++ "")).
Proof.
  split; [reflexivity|]. split.
  - apply (proj1 (proj2 (format_number_by_thresholds (-2500) "/day")));
      reflexivity.
  - apply (proj1 (format_number_by_thresholds 999.5 "")). reflexivity.
Defined.

(** ** Infinities and NaN *)

Lemma nonfinite_cases (v : float) :
  isfinite v = false -> v = nan \/ v = infinity \/ v = neg_infinity.
Proof.
  unfold isfinite. intros H. rewrite <- (FloatAxioms.SF2Prim_Prim2SF v).
  destruct (Prim2SF v) as [s|[|]| |s m e]; try discriminate H; auto.
Qed.

Lemma mul_nonfinite (v r : float) :
  isfinite v = false -> isfinite (v * r) = false.
Proof.
  intros H. unfold isfinite in *. rewrite FloatAxioms.mul_spec.
  destruct (Prim2SF v) as [s|s| |s m e]; try discriminate H;
    destruct (Prim2SF r) as [s'|s'| |s' m' e']; reflexivity.
Qed.

Lemma convert_nonfinite (v c : float) (src dst : Pint.unit) :
  isfinite v = false -> Pint.convert v src dst = Ok c -> isfinite c = false.
Proof.
  intros Hv. unfold Pint.convert.
  destruct (Pint.same_dimension src dst); [|discriminate].
  intros H. inversion H. apply mul_nonfinite. exact Hv.
Qed.

Lemma format_magnitude_nonfinite (v : float) :
  isfinite v = false -> exists x, _format_magnitude v = Raise x.
Proof.
  intros H. destruct (nonfinite_cases v H) as [->|[->| ->]];
    eexists; vm_compute; reflexivity.
Qed.

Lemma format_number_nonfinite (v : float) (rate : string) :
  isfinite v = false -> exists x, _format_number v rate = Raise x.
Proof.
  intros H. destruct (nonfinite_cases v H) as [->|[->| ->]];
    eexists; vm_compute; reflexivity.
Qed.

Lemma byte_auto_display_nonfinite (v : float) (label : string) :
  isfinite v = false -> exists x, byte_auto_display v label = Raise x.
Proof.
  intros H. destruct (nonfinite_cases v H) as [->|[->| ->]];
    eexists; vm_compute; reflexivity.
Qed.

Lemma target_display_nonfinite (v : float) (tu label : string) :
  isfinite v = false -> exists x, target_display v tu label = Raise x.
Proof.
  intros H. unfold target_display.
  destruct (dict_get _BYTE_UNITS (PyStr.lower tu)) as [u|]; [|eauto].
  destruct (Pint.convert v (Some byte, None) (Some u, None)) as [c|y] eqn:Hc;
    cbn [bind]; [|eauto].
  destruct (format_magnitude_nonfinite c (convert_nonfinite _ _ _ H Hc)) as [x ->].
  cbn [bind]. eauto.
Qed.

Lemma display_of_nonfinite (v : float) (d : option data_unit)
  (t : option time_unit) (tu rate : string) :
  isfinite v = false -> exists x, display_of v d t tu rate = Raise x.
Proof.
  intros H. unfold display_of.
  destruct t as [t|], (rate_unit_of rate) as [r|], d as [d|]; cbv iota;
    try match goal with
    | |- exists x, bind (Pint.convert v ?src ?dst) _ = _ =>
        let Hc := fresh "Hc" in
        destruct (Pint.convert v src dst) as [c|y] eqn:Hc; cbn [bind]; [|eauto];
        apply (convert_nonfinite _ _ _ H) in Hc
    end;
    try destruct (is_concrete_target tu);
    auto using format_number_nonfinite, byte_auto_display_nonfinite,
      target_display_nonfinite.
Qed.

(** X14: the raw value of a result is a finite number.  When the
    arithmetic yields an infinity or a NaN (as a literal out of range
    does), no branch of [evaluate] returns: the rounding inside the
    formatter raises, or the unit conversion before it does. *)
Theorem raw_value_is_finite
  (rt : PyEval.runtime) (e tu rate : string) (res : Result) :
  evaluate rt e tu rate = Ok res -> isfinite (raw_value res) = true.
Proof.
  rewrite evaluate_unfold.
  destruct (_safe_eval rt (residual e)) as [v|y]; cbn [bind]; [|discriminate].
  destruct (isfinite v) eqn:Hv.
  - destruct (display_of v _ _ tu rate); cbn [bind]; intros H; inversion H.
    exact Hv.
  - destruct (display_of_nonfinite v (data_unit_of e) (time_unit_of e) tu rate Hv)
      as [x ->].
    discriminate.
Qed.

Lemma raw_value_is_finite_witness :
  isfinite (raw_value {| expression := "2 * 3 MB"; result_display := "6 MB";
                         raw_value := 6 |}) = true
  /\ evaluate PyEval.bare_runtime "1e999 MB" "auto" "none" = Raise OverflowError.
Proof.
  split; [|reflexivity].
  apply (@raw_value_is_finite PyEval.bare_runtime "2 * 3 MB" "auto" "none").
  reflexivity.
Defined.

(** ** Unit tokens *)

Lemma dict_get_forall {V : Type} (P : string -> V -> bool)
  (d : list (string * V)) (k : string) (v : V) :
  List.forallb (fun kv => P (fst kv) (snd kv)) d = true ->
  dict_get d k = Some v -> P k v = true.
Proof.
  induction d as [|[k' v'] d IH]; cbn [dict_get List.forallb fst snd];
    [discriminate|].
  intros H. apply andb_prop in H. destruct H as [Hk Hd].
  destruct (String.eqb k' k) eqn:E.
  - apply String.eqb_eq in E. subst k'. intros Hv. inversion Hv. subst v'.
    exact Hk.
  - apply IH. exact Hd.
Qed.

Lemma letter_char (c : ascii) :
  PyStr.is_ascii_letter (PyStr.lower_char c) = true ->
  PyStr.is_ascii_letter c = true /\ PyStr.is_space c = false
  /\ Ascii.eqb "/" c = false.
Proof.
  destruct c as [[] [] [] [] [] [] [] []]; vm_compute; intros H;
    try discriminate H; repeat split.
Qed.

Lemma space_char (c : ascii) :
  PyStr.is_space c = true ->
  PyStr.is_ascii_letter c = false /\ Ascii.eqb "/" c = false.
Proof.
  destruct c as [[] [] [] [] [] [] [] []]; vm_compute; intros H;
    try discriminate H; repeat split.
Qed.

Lemma is_word_lower (s : string) : is_word (PyStr.lower s) = true -> is_word s = true.
Proof.
  unfold is_word. intros H. apply andb_prop in H. destruct H as [Hne Hl].
  apply andb_true_intro. split; [destruct s; [discriminate|reflexivity]|].
  clear Hne. induction s as [|c s IH]; [reflexivity|].
  cbn [PyStr.lower PyStr.forallb] in *.
  apply andb_prop in Hl. destruct Hl as [Hc Hs].
  apply letter_char in Hc. destruct Hc as [-> _]. exact (IH Hs).
Qed.

(** The keys of the two unit tables are words, and no key is in both. *)
Lemma byte_unit_token (tok : string) (u : data_unit) :
  dict_get _BYTE_UNITS (PyStr.lower tok) = Some u ->
  is_word tok = true /\ dict_get _TIME_UNITS (PyStr.lower tok) = None.
Proof.
  intros H.
  pose proof (@dict_get_forall _
    (fun k (_ : data_unit) =>
       is_word k && negb (Pint.has (dict_get _TIME_UNITS k)))
    _BYTE_UNITS (PyStr.lower tok) u eq_refl H) as Hk.
  cbv beta in Hk. apply andb_prop in Hk. destruct Hk as [Hw Ht].
  split; [apply is_word_lower; exact Hw|].
  destruct (dict_get _TIME_UNITS (PyStr.lower tok)); [discriminate|reflexivity].
Qed.

Lemma time_unit_token (tok : string) (t : time_unit) :
  dict_get _TIME_UNITS (PyStr.lower tok) = Some t -> is_word tok = true.
Proof.
  intros H. apply is_word_lower.
  exact (@dict_get_forall _ (fun k (_ : time_unit) => is_word k)
           _TIME_UNITS (PyStr.lower tok) t eq_refl H).
Qed.

Lemma is_word_facts (w : string) :
  is_word w = true ->
  PyStr.is_empty w = false
  /\ PyStr.forallb PyStr.is_ascii_letter w = true
  /\ PyStr.forallb (fun c => negb (PyStr.is_space c)) w = true
  /\ lacks "/" w = true.
Proof.
  unfold is_word, lacks. intros H. apply andb_prop in H. destruct H as [Hne Hl].
  split; [destruct w; [discriminate|reflexivity]|]. split; [exact Hl|].
  split; (eapply forallb_impl; [|exact Hl]); intros c Hc.
  - destruct c as [[] [] [] [] [] [] [] []]; vm_compute in Hc |- *;
      try discriminate Hc; reflexivity.
  - destruct c as [[] [] [] [] [] [] [] []]; vm_compute in Hc |- *;
      try discriminate Hc; reflexivity.
Qed.

Lemma is_blank_facts (ws : string) :
  is_blank ws = true ->
  PyStr.forallb (fun c => negb (PyStr.is_ascii_letter c)) ws = true
  /\ lacks "/" ws = true.
Proof.
  unfold is_blank, lacks. intros H.
  split; (eapply forallb_impl; [|exact H]); intros c Hc;
    apply space_char in Hc; destruct Hc as [Hl Hs]; rewrite ?Hl, ?Hs; reflexivity.
Qed.

(** ** [split] *)

Lemma split_space_head (c : ascii) (s : string) :
  PyStr.is_space c = true -> PyStr.split (String c s) = PyStr.split s.
Proof. intros H. cbn [PyStr.split]. rewrite H. reflexivity. Qed.

Lemma split_cons_nonspace (c c' : ascii) (s : string) :
  PyStr.is_space c = false ->
  PyStr.split (String c (String c' s)) =
  if PyStr.is_space c' then String c "" :: PyStr.split (String c' s)
  else match PyStr.split (String c' s) with
       | t :: ts => String c t :: ts
       | [] => [String c ""]
       end.
Proof. intros H. cbn [PyStr.split]. rewrite H. reflexivity. Qed.

Lemma split_single (c : ascii) :
  PyStr.is_space c = false -> PyStr.split (String c "") = [String c ""].
Proof. intros H. cbn [PyStr.split]. rewrite H. reflexivity. Qed.

Lemma split_nil_blank (s : string) : PyStr.split s = [] -> is_blank s = true.
Proof.
  unfold is_blank. induction s as [|c s IH]; [reflexivity|].
  cbn [PyStr.forallb]. destruct (PyStr.is_space c) eqn:Hc.
  - rewrite (split_space_head _ _ Hc). exact IH.
  - destruct s as [|c' s]; [rewrite (split_single _ Hc); discriminate|].
    rewrite (split_cons_nonspace _ _ _ Hc).
    destruct (PyStr.is_space c'); [discriminate|].
    destruct (PyStr.split (String c' s)); discriminate.
Qed.

Lemma split_blank (ws : string) : is_blank ws = true -> PyStr.split ws = [].
Proof.
  unfold is_blank. induction ws as [|c ws IH]; [reflexivity|].
  cbn [PyStr.forallb]. intros H. apply andb_prop in H. destruct H as [Hc Hws].
  rewrite (split_space_head _ _ Hc). exact (IH Hws).
Qed.

Lemma split_lstrip (s : string) :
  PyStr.split (PyStr.lstrip_by PyStr.is_space s) = PyStr.split s.
Proof.
  induction s as [|c s IH]; [reflexivity|]. cbn [PyStr.lstrip_by].
  destruct (PyStr.is_space c) eqn:Hc; [|reflexivity].
  rewrite (split_space_head _ _ Hc). exact IH.
Qed.

Lemma split_app_space (a b : string) (sp : ascii) :
  PyStr.is_space sp = true ->
  PyStr.split (a ++ String sp b) = (PyStr.split a ++ PyStr.split b)%list.
Proof.
  intros Hsp. induction a as [|c a IH].
  - cbn [append]. rewrite (split_space_head _ _ Hsp). reflexivity.
  - destruct (PyStr.is_space c) eqn:Hc.
    + cbn [append]. rewrite !(split_space_head _ _ Hc). exact IH.
    + destruct a as [|c' a].
      * cbn [append]. rewrite (split_cons_nonspace _ _ _ Hc), Hsp.
        rewrite (split_space_head _ _ Hsp), (split_single _ Hc). reflexivity.
      * cbn [append] in *. rewrite !(split_cons_nonspace _ _ _ Hc), IH.
        destruct (PyStr.is_space c') eqn:Hc'; [reflexivity|].
        destruct (PyStr.split (String c' a)) as [|t ts] eqn:E; [|reflexivity].
        apply split_nil_blank in E. unfold is_blank in E.
        cbn [PyStr.forallb] in E. rewrite Hc' in E. discriminate.
Qed.

Lemma split_rblank (a ws : string) :
  is_blank ws = true -> PyStr.split (a ++ ws) = PyStr.split a.
Proof.
  destruct ws as [|c ws]; [rewrite append_nil_r; reflexivity|].
  unfold is_blank. cbn [PyStr.forallb]. intros H. apply andb_prop in H.
  destruct H as [Hc Hws]. rewrite (split_app_space _ _ _ Hc).
  rewrite (split_blank _ Hws). apply app_nil_r.
Qed.

Lemma rstrip_by_decompose (p : ascii -> bool) (s : string) :
  exists ws, PyStr.forallb p ws = true /\ s = PyStr.rstrip_by p s ++ ws.
Proof.
  induction s as [|c s (ws & Hws & Hs)]; [exists ""; auto|].
  cbn [PyStr.rstrip_by].
  destruct (PyStr.is_empty (PyStr.rstrip_by p s)) eqn:He; cbn [andb].
  - apply is_empty_true in He. rewrite He in Hs. cbn [append] in Hs.
    destruct (p c) eqn:Hc.
    + exists (String c ws). cbn [PyStr.forallb append]. rewrite Hc, Hws.
      subst s. auto.
    + exists ws. rewrite He. cbn [append]. subst s. auto.
  - exists ws. cbn [append]. rewrite <- Hs. auto.
Qed.

Lemma split_strip (s : string) : PyStr.split (PyStr.strip s) = PyStr.split s.
Proof.
  unfold PyStr.strip.
  destruct (rstrip_by_decompose PyStr.is_space
              (PyStr.lstrip_by PyStr.is_space s)) as (ws & Hws & Hs).
  rewrite <- (split_lstrip s). rewrite Hs at 2.
  rewrite (split_rblank _ ws Hws). reflexivity.
Qed.

Lemma split_word (w : string) :
  PyStr.is_empty w = false ->
  PyStr.forallb (fun c => negb (PyStr.is_space c)) w = true ->
  PyStr.split w = [w].
Proof.
  induction w as [|c w IH]; [discriminate|]. intros _ H.
  cbn [PyStr.forallb] in H. apply andb_prop in H. destruct H as [Hc Hw].
  apply negb_true_iff in Hc.
  destruct w as [|c' w]; [exact (split_single _ Hc)|].
  rewrite (split_cons_nonspace _ _ _ Hc), (IH eq_refl Hw).
  cbn [PyStr.forallb] in Hw. apply andb_prop in Hw. destruct Hw as [Hc' _].
  apply negb_true_iff in Hc'. rewrite Hc'. reflexivity.
Qed.

Lemma split_last_word (m w : string) :
  is_word w = true ->
  PyStr.split (m ++ " " ++ w) = (PyStr.split m ++ [w])%list.
Proof.
  intros Hw. apply is_word_facts in Hw. destruct Hw as (Hne & _ & Hns & _).
  cbn [append]. rewrite (split_app_space m w " " eq_refl).
  rewrite (split_word w Hne Hns). reflexivity.
Qed.

(** ** The time divisor pattern *)

Lemma run_chr (R : Type) (c : ascii) (s g : string)
  (k : string -> string -> option R) :
  run (chr c) s g k =
  match s with
  | String d s' => if Ascii.eqb c d then k s' g else None
  | EmptyString => None
  end.
Proof. reflexivity. Qed.

Lemma run_group (R : Type) (r : re) (s g : string)
  (k : string -> string -> option R) :
  run (Group r) s g k =
  run r s g (fun s' _ => k s' (PyStr.take (String.length s - String.length s') s)).
Proof. reflexivity. Qed.

Lemma run_eos (R : Type) (s g : string) (k : string -> string -> option R) :
  run Eos s g k =
  match s with
  | EmptyString => k s g
  | String c EmptyString => if (PyStr.code c =? 10)%N then k s g else None
  | _ => None
  end.
Proof. reflexivity. Qed.

(** A match of [/\s*([a-zA-Z]+)\s*$]: the slash, whitespace, the word
    of the group, and whitespace up to the end. *)
Lemma time_match_inv (s g : string) (n : nat) :
  match_at time_divisor_pattern s = Some (g, n) ->
  exists ws rest,
    s = String "/" (ws ++ g ++ rest)
    /\ is_blank ws = true /\ is_word g = true /\ is_blank rest = true.
Proof.
  unfold match_at, time_divisor_pattern. rewrite run_cat, run_chr.
  destruct s as [|c s]; [discriminate|].
  destruct (Ascii.eqb "/" c) eqn:Hc; [|discriminate].
  apply Ascii.eqb_eq in Hc. subst c.
  rewrite run_cat, run_star. intros H.
  apply star_inv in H. destruct H as (ws & s1 & -> & Hws & H).
  rewrite run_cat, run_group, run_plus in H.
  destruct s1 as [|c1 s1]; [discriminate|].
  destruct (PyStr.is_ascii_letter c1) eqn:Hc1; [|discriminate].
  apply star_inv in H. destruct H as (pre & s2 & -> & Hpre & H).
  change (String c1 (pre ++ s2)) with (String c1 pre ++ s2) in H.
  rewrite take_app in H.
  rewrite run_cat, run_star in H.
  apply star_inv in H. destruct H as (ws2 & s3 & -> & Hws2 & H).
  rewrite run_eos in H.
  exists ws, (ws2 ++ s3).
  assert (Hs3 : is_blank s3 = true /\ g = String c1 pre).
  { destruct s3 as [|c3 [|d3 s3]]; try discriminate H.
    - inversion H. auto.
    - destruct (PyStr.code c3 =? 10)%N eqn:Hnl; [|discriminate].
      inversion H. split; [|reflexivity].
      apply N.eqb_eq in Hnl. unfold is_blank. cbn [PyStr.forallb].
      unfold PyStr.is_space, PyStr.in_range. rewrite Hnl. reflexivity. }
  destruct Hs3 as [Hs3 ->].
  split; [reflexivity|]. split; [exact Hws|]. split.
  - unfold is_word. cbn [PyStr.is_empty PyStr.forallb negb andb].
    rewrite Hc1, Hpre. reflexivity.
  - unfold is_blank in *. rewrite forallb_app, Hws2, Hs3. reflexivity.
Qed.

Lemma match_needs_slash (s : string) :
  match s with String c _ => Ascii.eqb "/" c = false | EmptyString => True end ->
  match_at time_divisor_pattern s = None.
Proof.
  intros H. unfold match_at, time_divisor_pattern. rewrite run_cat, run_chr.
  destruct s as [|c s]; [reflexivity|]. rewrite H. reflexivity.
Qed.

Lemma search_needs_slash (s : string) (pos : nat) :
  lacks "/" s = true -> search_from time_divisor_pattern s pos = None.
Proof.
  revert pos. induction s as [|c s IH]; intros pos H.
  - reflexivity.
  - unfold lacks in H. cbn [PyStr.forallb] in H. apply andb_prop in H.
    destruct H as [Hc Hs]. apply negb_true_iff in Hc.
    cbn [search_from]. rewrite (match_needs_slash (String c s) Hc).
    apply IH. exact Hs.
Qed.

Lemma append_inv_head (a x y : string) : a ++ x = a ++ y -> x = y.
Proof.
  induction a as [|c a IH]; cbn [append]; intros H; [exact H|].
  inversion H. auto.
Qed.

Lemma rstrip_by_all_app (p : ascii -> bool) (a b : string) :
  PyStr.forallb p b = true -> PyStr.rstrip_by p (a ++ b) = PyStr.rstrip_by p a.
Proof.
  intros Hb.
  assert (Hnil : PyStr.rstrip_by p b = "").
  { induction b as [|c b IH]; [reflexivity|]. cbn [PyStr.forallb] in Hb.
    apply andb_prop in Hb. destruct Hb as [Hc Hb]. cbn [PyStr.rstrip_by].
    rewrite (IH Hb), Hc. reflexivity. }
  induction a as [|c a IH]; cbn [append]; [exact Hnil|].
  cbn [PyStr.rstrip_by]. rewrite IH. reflexivity.
Qed.

Lemma rstrip_by_none (p : ascii -> bool) (s : string) :
  PyStr.forallb (fun c => negb (p c)) s = true -> PyStr.rstrip_by p s = s.
Proof.
  induction s as [|c s IH]; [reflexivity|]. cbn [PyStr.forallb].
  intros H. apply andb_prop in H. destruct H as [Hc Hs].
  apply negb_true_iff in Hc. cbn [PyStr.rstrip_by].
  rewrite (IH Hs), Hc, andb_false_r. reflexivity.
Qed.

(** Where the text ends with a space and a word, the group of a match
    is that word. *)
Lemma time_match_last_word (m w g : string) (n : nat) :
  is_word w = true ->
  match_at time_divisor_pattern (m ++ " " ++ w) = Some (g, n) -> g = w.
Proof.
  intros Hw H. apply time_match_inv in H.
  destruct H as (ws & rest & Hs & Hws & Hg & Hrest).
  apply is_word_facts in Hw. destruct Hw as (Hwne & Hwl & _).
  apply is_word_facts in Hg. destruct Hg as (Hgne & Hgl & _).
  pose proof (is_blank_facts _ Hws) as [Hwsl _].
  pose proof (is_blank_facts _ Hrest) as [Hrestl _].
  (* the text without its trailing letters, read on both sides *)
  assert (Hleft : PyStr.rstrip_by PyStr.is_ascii_letter (m ++ " " ++ w)
                  = m ++ " ").
  { change (m ++ " " ++ w) with (m ++ String " " w).
    replace (m ++ String " " w) with ((m ++ " ") ++ w)
      by (rewrite append_assoc; reflexivity).
    rewrite (rstrip_by_all_app _ _ _ Hwl).
    apply rstrip_by_app. reflexivity. }
  destruct rest as [|r rest].
  - rewrite append_nil_r in Hs.
    assert (Hright : PyStr.rstrip_by PyStr.is_ascii_letter (String "/" (ws ++ g))
                     = String "/" ws).
    { change (String "/" (ws ++ g)) with (String "/" ws ++ g).
      rewrite (rstrip_by_all_app _ _ _ Hgl).
      apply rstrip_by_none. cbn [PyStr.forallb]. rewrite Hwsl. reflexivity. }
    rewrite Hs, Hright in Hleft.
    change (m ++ " " ++ w) with (m ++ String " " w) in Hs.
    replace (m ++ String " " w) with ((m ++ " ") ++ w) in Hs
      by (rewrite append_assoc; reflexivity).
    rewrite <- Hleft in Hs.
    change (String "/" (ws ++ g)) with (String "/" ws ++ g) in Hs.
    apply append_inv_head in Hs. symmetry. exact Hs.
  - exfalso.
    assert (Hright : PyStr.rstrip_by PyStr.is_ascii_letter
                       (String "/" (ws ++ g ++ String r rest))
                     = String "/" (ws ++ g ++ String r rest)).
    { replace (String "/" (ws ++ g ++ String r rest))
        with ((String "/" (ws ++ g)) ++ String r rest)
        by (cbn [append]; rewrite append_assoc; reflexivity).
      rewrite rstrip_by_app; rewrite (rstrip_by_none _ _ Hrestl); reflexivity. }
    rewrite Hs, Hright, <- Hs in Hleft.
    apply (f_equal String.length) in Hleft.
    rewrite !length_append in Hleft. cbn [String.length] in Hleft.
    destruct w; [discriminate|]. cbn [String.length] in Hleft. lia.
Qed.

Lemma search_last_word (m w : string) (pos : nat) :
  is_word w = true ->
  match search_from time_divisor_pattern (m ++ " " ++ w) pos with
  | Some (_, g, _) => g = w
  | None => True
  end.
Proof.
  intros Hw. revert pos. induction m as [|c m IH]; intros pos.
  - rewrite search_needs_slash; [exact I|].
    apply is_word_facts in Hw. destruct Hw as (_ & _ & _ & Hl).
    unfold lacks in *. cbn [append PyStr.forallb]. rewrite Hl. reflexivity.
  - change (String c m ++ " " ++ w) with (String c (m ++ " " ++ w)).
    cbn [search_from].
    change (String c (m ++ " " ++ w)) with (String c m ++ " " ++ w).
    destruct (match_at time_divisor_pattern (String c m ++ " " ++ w))
      as [[g n]|] eqn:Hm.
    + exact (time_match_last_word (String c m) w Hw Hm).
    + apply IH.
Qed.

Lemma strip_time_unit_data_token (m tok : string) (u : data_unit) :
  dict_get _BYTE_UNITS (PyStr.lower tok) = Some u ->
  strip_time_unit (m ++ " " ++ tok) = (m ++ " " ++ tok, None).
Proof.
  intros Hu. apply byte_unit_token in Hu. destruct Hu as [Hw Ht].
  unfold strip_time_unit, search.
  pose proof (search_last_word m tok 0 Hw) as Hs.
  destruct (search_from time_divisor_pattern (m ++ " " ++ tok) 0)
    as [[[start g] n]|]; [|reflexivity].
  subst g. rewrite Ht. reflexivity.
Qed.

(** X15: a data unit token after a space at the end of the text.  The
    token is looked up in lower case, so it counts in any mix of cases;
    the arithmetic string is then rebuilt from the tokens before it,
    joined by single spaces, with the spaces and multiplication signs
    at its end removed.  A slash before the unit is no time divisor: it
    stays in the arithmetic string. *)
Theorem parse_units_data_token (m tok : string) (u : data_unit) :
  dict_get _BYTE_UNITS (PyStr.lower tok) = Some u ->
  _parse_units (m ++ " " ++ tok)
  = (PyStr.rstrip_chars " *" (PyStr.join " " (PyStr.split m)), Some u, None).
Proof.
  intros Hu. unfold _parse_units.
  rewrite (strip_time_unit_data_token m tok Hu).
  pose proof (byte_unit_token tok Hu) as [Hw _].
  unfold strip_data_unit. rewrite split_strip, (split_last_word m tok Hw).
  rewrite last_last, removelast_last, Hu.
  destruct (PyStr.split m); reflexivity.
Qed.

Lemma parse_units_data_token_witness :
  _parse_units ("2 *   3   * " ++ " " ++ "GigaBytes")
  = (PyStr.rstrip_chars " *" (PyStr.join " " (PyStr.split "2 *   3   * ")),
     Some gigabyte, None)
  /\ PyStr.rstrip_chars " *" (PyStr.join " " (PyStr.split "2 *   3   * "))
     = "2 * 3"
  /\ _parse_units ("10 /" ++ " " ++ "MB") = ("10 /", Some megabyte, None).
Proof.
  split; [|split; reflexivity].
  apply (@parse_units_data_token "2 *   3   * " "GigaBytes" gigabyte).
  reflexivity.
Defined.

Lemma star_all_end (R : Type) (p : ascii -> bool) (a : string)
  (k : string -> option R) (x : R) :
  PyStr.forallb p a = true -> k "" = Some x -> star p a k = Some x.
Proof.
  intros Ha Hk. rewrite <- (append_nil_r a).
  apply star_all; [exact Ha|exact I|exact Hk].
Qed.

Lemma take_all (s : string) : PyStr.take (String.length s - 0) s = s.
Proof.
  pose proof (take_app s "") as H. rewrite append_nil_r in H. exact H.
Qed.

Lemma take_length_app (a b : string) : PyStr.take (String.length a) (a ++ b) = a.
Proof.
  induction a as [|c a IH]; cbn [String.length PyStr.take append].
  - destruct b; reflexivity.
  - rewrite IH. reflexivity.
Qed.

(** The pattern matches a slash, whitespace and a word at the end of
    the text, with the word as its group. *)
Lemma time_match_self (ws w : string) :
  is_blank ws = true -> is_word w = true ->
  match_at time_divisor_pattern (String "/" (ws ++ w))
  = Some (w, String.length (String "/" (ws ++ w)) - 0).
Proof.
  intros Hws Hw. apply is_word_facts in Hw.
  destruct Hw as (Hne & Hl & Hns & _).
  unfold match_at, time_divisor_pattern.
  rewrite run_cat, run_chr, Ascii.eqb_refl, run_cat, run_star.
  destruct w as [|c w]; [discriminate|].
  cbn [PyStr.forallb] in Hl, Hns.
  apply andb_prop in Hl. destruct Hl as [Hc Hl].
  apply andb_prop in Hns. destruct Hns as [Hcs _]. apply negb_true_iff in Hcs.
  apply star_all; [exact Hws|exact Hcs|].
  rewrite run_cat, run_group, run_plus, Hc.
  apply star_all_end; [exact Hl|].
  rewrite take_all, run_cat, run_star. cbn [star]. rewrite run_eos.
  reflexivity.
Qed.

(** Before the last slash of such a text the pattern does not match. *)
Lemma time_match_not_before (c : ascii) (m ws w : string) :
  match_at time_divisor_pattern (String c (m ++ String "/" (ws ++ w))) = None.
Proof.
  destruct (match_at time_divisor_pattern _) as [[g n]|] eqn:Hm; [|reflexivity].
  exfalso. apply time_match_inv in Hm.
  destruct Hm as (ws1 & rest & Hs & Hws1 & Hg & Hrest).
  inversion Hs as [[Hc Htail]].
  apply is_word_facts in Hg. destruct Hg as (_ & _ & _ & Hgl).
  apply is_blank_facts in Hws1. destruct Hws1 as [_ Hws1].
  apply is_blank_facts in Hrest. destruct Hrest as [_ Hrest].
  assert (Hr : lacks "/" (ws1 ++ g ++ rest) = true)
    by (repeat apply lacks_app; assumption).
  rewrite <- Htail in Hr. unfold lacks in Hr. rewrite forallb_app in Hr.
  cbn [PyStr.forallb] in Hr. rewrite Ascii.eqb_refl in Hr.
  cbn [negb andb] in Hr. rewrite andb_false_r in Hr. discriminate.
Qed.

Lemma search_time_divisor (m ws w : string) (pos : nat) :
  is_blank ws = true -> is_word w = true ->
  search_from time_divisor_pattern (m ++ String "/" (ws ++ w)) pos
  = Some (pos + String.length m, w, String.length (String "/" (ws ++ w)) - 0).
Proof.
  intros Hws Hw. revert pos. induction m as [|c m IH]; intros pos.
  - cbn [append]. cbn [search_from].
    rewrite (time_match_self ws w Hws Hw).
    cbn [String.length]. rewrite Nat.add_0_r. reflexivity.
  - cbn [append]. cbn [search_from].
    rewrite time_match_not_before, IH. cbn [String.length].
    rewrite Nat.add_succ_r. reflexivity.
Qed.

(** X16: the time divisor.  A slash, optional whitespace and a time
    unit word (in any mix of cases) at the end of the text are split
    off as the time divisor, whatever stands before them, other slashes
    included; what stands before is trimmed and then searched for a
    data unit. *)
Theorem parse_units_time_divisor (m ws tok : string) (t : time_unit) :
  is_blank ws = true ->
  dict_get _TIME_UNITS (PyStr.lower tok) = Some t ->
  _parse_units (m ++ "/" ++ ws ++ tok)
  = (fst (strip_data_unit (PyStr.strip m)),
     snd (strip_data_unit (PyStr.strip m)), Some t).
Proof.
  intros Hws Ht. pose proof (time_unit_token tok Ht) as Hw.
  unfold _parse_units, strip_time_unit, search.
  change (m ++ "/" ++ ws ++ tok) with (m ++ String "/" (ws ++ tok)).
  rewrite (search_time_divisor m ws tok 0 Hws Hw), Ht.
  cbn [Nat.add]. rewrite take_length_app.
  destruct (strip_data_unit (PyStr.strip m)). reflexivity.
Qed.

Lemma parse_units_time_divisor_witness :
  _parse_units ("7/2 GB " ++ "/" ++ " " ++ "Days")
  = (fst (strip_data_unit (PyStr.strip "7/2 GB ")),
     snd (strip_data_unit (PyStr.strip "7/2 GB ")), Some day)
  /\ _parse_units ("7/2 GB " ++ "/" ++ " " ++ "Days")
     = ("7/2", Some gigabyte, Some day).
Proof.
  split; [|reflexivity].
  apply (@parse_units_time_divisor "7/2 GB " " " "Days" day); reflexivity.
Defined.

(** ** Byte rates and the rate selector *)

(** X17: a byte rate needs a rate selector.  When the expression has a
    data unit and a time divisor and the rate is "none" or no selector
    of [_RATE_UNITS], the second branch of [evaluate] asks for the
    quantity in bytes; the quantity is bytes per time, so the unit
    conversion raises its dimensionality error for every magnitude and
    every target unit. *)
Theorem byte_rate_needs_a_rate_selector
  (rt : PyEval.runtime) (e tu rate : string)
  (d : data_unit) (t : time_unit) (v : float) :
  data_unit_of e = Some d ->
  time_unit_of e = Some t ->
  is_known_rate rate = false ->
  _safe_eval rt (residual e) = Ok v ->
  evaluate rt e tu rate = Raise DimensionalityError.
Proof.
  intros Hd Ht Hrate Hv. rewrite evaluate_unfold, Hd, Ht, Hv. cbn [bind].
  unfold display_of. unfold is_known_rate in Hrate.
  destruct (rate_unit_of rate); [discriminate|reflexivity].
Qed.

Lemma byte_rate_needs_a_rate_selector_witness :
  evaluate PyEval.bare_runtime "5 MB / s" "auto" "none" = Raise DimensionalityError.
Proof.
  apply (@byte_rate_needs_a_rate_selector
           PyEval.bare_runtime "5 MB / s" "auto" "none" megabyte second 5%float);
    reflexivity.
Defined.

(** ** Automatic and chosen byte units *)

(** X18: the unit picked by auto-selection is one of the six labels
    "PB", "TB", "GB", "MB", "KB", "bytes", each of which is also a
    target unit of the same meaning: for a value of at least one byte
    in absolute value, the automatic display is the display for that
    label as the chosen target unit. *)
Theorem auto_display_is_a_target_display (v : float) (rate_label : string) :
  (1 <=? abs v)%float = true ->
  exists tu,
    In tu ["PB"; "TB"; "GB"; "MB"; "KB"; "bytes"]%string
    /\ is_concrete_target tu = true
    /\ byte_auto_display v rate_label = target_display v tu rate_label.
Proof.
  intros H1. unfold byte_auto_display, _BYTE_THRESHOLDS.
  cbn [byte_display_from].
  destruct (1e15 <=? abs v)%float;
    [exists "PB"%string; cbn [In]; intuition auto|].
  destruct (1e12 <=? abs v)%float;
    [exists "TB"%string; cbn [In]; intuition auto|].
  destruct (1e9 <=? abs v)%float;
    [exists "GB"%string; cbn [In]; intuition auto|].
  destruct (1e6 <=? abs v)%float;
    [exists "MB"%string; cbn [In]; intuition auto|].
  destruct (1e3 <=? abs v)%float;
    [exists "KB"%string; cbn [In]; intuition auto|].
  rewrite H1. exists "bytes"%string. cbn [In]. intuition auto.
Qed.

Lemma auto_display_is_a_target_display_witness :
  exists tu,
    In tu ["PB"; "TB"; "GB"; "MB"; "KB"; "bytes"]%string
    /\ is_concrete_target tu = true
    /\ byte_auto_display 1.5e13 "/day" = target_display 1.5e13 tu "/day".
Proof.
  apply (@auto_display_is_a_target_display 1.5e13%float "/day"). reflexivity.
Defined.

(** X19: the target units "auto" and "none" are one and the same:
    "none" does not ask for a bare number, it selects the automatic
    display as "auto" does, on every expression and at every rate. *)
Theorem target_none_is_auto (rt : PyEval.runtime) (e rate : string) :
  evaluate rt e "none" rate = evaluate rt e "auto" rate.
Proof.
  rewrite !evaluate_unfold.
  destruct (_safe_eval rt (residual e)) as [v|y]; cbn [bind]; [|reflexivity].
  unfold display_of.
  change (is_concrete_target "none") with false.
  change (is_concrete_target "auto") with false.
  reflexivity.
Qed.
